(** * The Runner of consul-template (manager/runner.go), embedded in Rocq

    The development follows [src/manager/runner.go].  Maps of the Go code
    are [gmap]s, slices are lists, pointers to mutable records are
    addresses into an explicit store, time instants and durations are
    integers (nanoseconds), and the collaborators that live in other
    packages (template evaluation, the file renderer, the command parser
    and the process starter) are the fields of the class [External]. *)

From Stdlib Require Import ZArith Lia.
From stdpp Require Import gmap strings list fin_maps.

Local Open Scope Z_scope.
#[local] Set Warnings "-clear-no-such-hyp".

(* ===================================================================== *)
(** * Part I: definitions                                                 *)
(* ===================================================================== *)

(** ** Time

    [time.Time] is an instant counted in nanoseconds, [time.Duration] a
    signed 64-bit count of nanoseconds.  [Time.Sub] saturates at the
    bounds of [Duration]. *)

Definition maxDuration : Z := 2 ^ 63 - 1.
Definition minDuration : Z := - 2 ^ 63.

Definition time_Add (t d : Z) : Z := t + d.

Definition time_Before (t u : Z) : bool := t <? u.

Definition time_Sub (t u : Z) : Z :=
  if maxDuration <? t - u then maxDuration
  else if t - u <? minDuration then minDuration
  else t - u.

(** ** Templates and dependencies *)

(** [dep.Dependency] is an interface; the Runner uses three of its
    methods. *)
Record Dependency := mkDependency {
  HashCode : string;
  Display : string;
  CanShare : bool
}.

#[global] Instance Dependency_eq_dec : EqDecision Dependency.
Proof. solve_decision. Defined.

(** [template.Template]: the Runner only looks at [ID()] and calls
    [Execute]. *)
Record Template := mkTemplate {
  ID : string
}.

#[global] Instance Template_eq_dec : EqDecision Template.
Proof. solve_decision. Defined.

(** ** Quiescence (runner.go, lines 988-1038)

    The [*time.Timer] of a record is kept as the instant at which its
    current arming expires ([None] is the nil timer).  The goroutine
    started by the first tick receives once from the timer's channel and
    then posts the template on the Runner's quiescence channel; [posted]
    is the instant at which it did so. *)
Record quiescence := mkQuiescence {
  q_template : Template;
  q_min : Z;
  q_max : Z;
  q_timer : option Z;
  q_deadline : Z;
  q_posted : option Z
}.

Definition newQuiescence (min max : Z) (t : Template) : quiescence :=
  {| q_template := t; q_min := min; q_max := max;
     q_timer := None; q_deadline := 0; q_posted := None |}.

Definition set_timer (q : quiescence) (expiry : Z) : quiescence :=
  {| q_template := q_template q; q_min := q_min q; q_max := q_max q;
     q_timer := Some expiry; q_deadline := q_deadline q;
     q_posted := q_posted q |}.

Definition set_deadline (q : quiescence) (deadline : Z) : quiescence :=
  {| q_template := q_template q; q_min := q_min q; q_max := q_max q;
     q_timer := q_timer q; q_deadline := deadline;
     q_posted := q_posted q |}.

(** [q.tick()], with [now] the value its call of [time.Now()] returns. *)
Definition tick (now : Z) (q : quiescence) : quiescence :=
  match q_timer q with
  | None =>
      set_deadline (set_timer q (time_Add now (q_min q)))
                   (time_Add now (q_max q))
  | Some _ =>
      if time_Before (time_Add now (q_min q)) (q_deadline q) then
        set_timer q (time_Add now (q_min q))
      else
        let dur := time_Sub (q_deadline q) now in
        if 0 <? dur then set_timer q (time_Add now dur) else q
  end.

(** The goroutine of the first tick: once the armed timer has expired it
    takes the single value of the timer's channel and posts the template.
    Later expiries of a re-armed timer find no receiver. *)
Definition fire (now : Z) (q : quiescence) : quiescence :=
  match q_posted q, q_timer q with
  | None, Some e =>
      if e <=? now then
        {| q_template := q_template q; q_min := q_min q; q_max := q_max q;
           q_timer := q_timer q; q_deadline := q_deadline q;
           q_posted := Some e |}
      else q
  | _, _ => q
  end.

(** A record ticked at the instants [ts], in this order; between two
    ticks the goroutine runs. *)
Definition ticks (ts : list Z) (q : quiescence) : quiescence :=
  foldl (fun q now => tick now (fire now q)) q ts.

(** The instant at which the template is posted on the quiescence channel
    if no further tick arrives. *)
Definition delivery (q : quiescence) : option Z :=
  match q_posted q with
  | Some t => Some t
  | None => q_timer q
  end.

(** The tick as the specification words it: snooze to [min] when
    [now + min <= deadline], else clamp to [deadline - now] when that is
    positive, else leave the timer. *)
Definition tick_spec (now : Z) (q : quiescence) : quiescence :=
  match q_timer q with
  | None => set_deadline (set_timer q (now + q_min q)) (now + q_max q)
  | Some _ =>
      if now + q_min q <=? q_deadline q then set_timer q (now + q_min q)
      else if 0 <? q_deadline q - now then set_timer q (q_deadline q)
      else q
  end.

Fixpoint sorted_from (t : Z) (ts : list Z) : Prop :=
  match ts with
  | [] => True
  | u :: r => t <= u /\ sorted_from u r
  end.

(** ** Errors *)

(** The [error] values the Runner tells apart: [*dep.FetchError] with its
    [ShouldExit()] and [OriginalError()], the error of a dead child, an
    [errors.Wrap], a [*multierror.Error], and any other error. *)
#[warnings="-register-all"] Inductive error : Type :=
| FetchError (shouldExit : bool) (original : error)
| ErrChildDied (code : Z)
| ErrWrap (msg : string) (cause : error)
| MultiError (errs : list error)
| ErrOther (msg : string).

(** What a Go function can do besides returning: panic, die of a fatal
    run-time error, or block for ever. *)
Inductive result (A : Type) : Type :=
| Ok (a : A)
| Crash (msg : string).
Arguments Ok {A} a.
Arguments Crash {A} msg.

#[global] Instance result_ret : MRet result := fun A a => Ok a.

#[global] Instance result_bind : MBind result := fun A B f x =>
  match x with
  | Ok a => f a
  | Crash msg => Crash msg
  end.

(** ** Configuration (package config) *)

Record WaitConfig := mkWait {
  Wait_Enabled : bool;
  Wait_Min : Z;
  Wait_Max : Z
}.

Record ExecConfig := mkExec {
  Exec_Command : string;
  Exec_Env : list string;
  Exec_Timeout : Z
}.

Record TemplateConfig := mkTemplateConfig {
  Source : string;
  Contents : string;
  LeftDelim : string;
  RightDelim : string;
  Destination : string;
  Backup : bool;
  Perms : Z;
  Exec : ExecConfig;
  Wait : WaitConfig
}.

Record Config := mkConfig {
  Templates : list TemplateConfig;
  cfg_Wait : WaitConfig;
  cfg_Exec : ExecConfig;
  PidFile : string;
  Dedup_Enabled : bool;
  cfg_Env : list string   (* the variables [childEnv] derives *)
}.

(** ** The collaborators of the Runner *)

Definition Data := string.

Record ExecuteResult := mkExecuteResult {
  Used : list Dependency;
  Missing : list Dependency;
  Output : string
}.

Record RenderInput := mkRenderInput {
  ri_Backup : bool;
  ri_Contents : string;
  ri_Dry : bool;
  ri_Path : string;
  ri_Perms : Z
}.

Record RenderResult := mkRenderResult {
  DidRender : bool;
  WouldRender : bool
}.

Record spawnChildInput := mkSpawnChildInput {
  sp_Command : string;
  sp_Timeout : Z;
  sp_Env : list string
}.

(** [child.Child], as far as the Runner drives it. *)
Record Child := mkChild {
  ch_Command : string;
  ch_Args : list string;
  ch_stopped : bool;
  ch_reloads : nat
}.

(** Code of other packages, taken as it comes: template parsing and
    evaluation (package template), the file renderer [Render]
    (manager/renderer.go), the shell-word parser, the process starter and
    reload of package child, the client and watcher constructors, and the
    opening of the pid file. *)
Class External := {
  NewTemplate : string -> string -> string -> string -> error + Template;
  Execute : Template -> gmap string Data -> list string
            -> error + ExecuteResult;
  Render : RenderInput -> gmap string string
           -> error + (RenderResult * gmap string string);
  shellwords_Parse : string -> error + list string;
  child_New : string -> list string -> spawnChildInput -> option error;
  child_Start : Child -> option error;
  child_Reload : Child -> option error;
  newClientSet : Config -> option error;
  NewWatcher : Config -> bool -> option error;
  NewDedupManager : Config -> option error;
  dedup_Start : Config -> option error;
  os_OpenFile : string -> option error;
  os_Getpid : string
}.

(** Modelled from the spec: the Watcher of package watch, which is not
    part of the sources at hand.  It keeps one subscription per
    dependency hash key; [Add] subscribes unless already subscribed,
    [Remove] unsubscribes, [Watching] tests, [Size] counts, [Stop] halts
    every subscription. *)
Record Watcher := mkWatcher {
  views : gmap string Dependency;
  w_stopped : bool
}.

Definition Watching (w : Watcher) (d : Dependency) : bool :=
  bool_decide (is_Some (views w !! HashCode d)).

Definition watcher_Add (d : Dependency) (w : Watcher) : Watcher :=
  if Watching w d then w
  else {| views := <[HashCode d := d]> (views w); w_stopped := w_stopped w |}.

Definition watcher_Remove (d : Dependency) (w : Watcher) : Watcher :=
  {| views := delete (HashCode d) (views w); w_stopped := w_stopped w |}.

Definition watcher_Size (w : Watcher) : nat := size (views w).

Definition watcher_Stop (w : Watcher) : Watcher :=
  {| views := ∅; w_stopped := true |}.

(** Modelled from the spec: the Brain of package template, a mapping from
    dependency hash key to the last value received. *)
Definition brain_Remember (d : Dependency) (data : Data)
    (b : gmap string Data) : gmap string Data :=
  <[HashCode d := data]> b.

Definition brain_Forget (d : Dependency) (b : gmap string Data)
    : gmap string Data :=
  delete (HashCode d) b.

(** Modelled from the spec: the DedupManager (manager/dedup.go is not
    part of the sources at hand): the templates this agent leads, the
    dependency lists published by [UpdateDeps], and whether it was
    stopped. *)
Record DedupManager := mkDedup {
  dd_leader : gset string;
  dd_published : list (string * list Dependency);
  dd_stopped : bool
}.

Definition IsLeader (dd : DedupManager) (tmpl : Template) : bool :=
  bool_decide (ID tmpl ∈ dd_leader dd).

Definition UpdateDeps (tmpl : Template) (used : list Dependency)
    (dd : DedupManager) : DedupManager :=
  {| dd_leader := dd_leader dd;
     dd_published := dd_published dd ++ [(ID tmpl, used)];
     dd_stopped := dd_stopped dd |}.

Definition dedup_Stop (dd : DedupManager) : DedupManager :=
  {| dd_leader := dd_leader dd; dd_published := dd_published dd;
     dd_stopped := true |}.

Definition child_Stop (c : Child) : Child :=
  {| ch_Command := ch_Command c; ch_Args := ch_Args c;
     ch_stopped := true; ch_reloads := ch_reloads c |}.

(** ** [sync.RWMutex]

    Unlocking a mutex that is not locked is a fatal error of the Go
    run time; locking one that is held blocks. *)
Record RWMutex := mkRWMutex {
  writer : bool;
  readers : nat
}.

Definition mutex_Lock (m : RWMutex) : result RWMutex :=
  if writer m || negb (Nat.eqb (readers m) 0)
  then Crash "all goroutines are asleep - deadlock!"
  else Ok {| writer := true; readers := 0 |}.

Definition mutex_Unlock (m : RWMutex) : result RWMutex :=
  if writer m then Ok {| writer := false; readers := readers m |}
  else Crash "fatal error: sync: Unlock of unlocked RWMutex".

Definition mutex_RLock (m : RWMutex) : result RWMutex :=
  if writer m then Crash "all goroutines are asleep - deadlock!"
  else Ok {| writer := false; readers := S (readers m) |}.

Definition mutex_RUnlock (m : RWMutex) : result RWMutex :=
  match readers m with
  | O => Crash "fatal error: sync: RUnlock of unlocked RWMutex"
  | S n => Ok {| writer := writer m; readers := n |}
  end.

(** ** The Runner *)

(** [RenderEvent]; the zero [time.Time] is 0. *)
Record RenderEvent := mkRenderEvent {
  LastWouldRender : Z;
  LastDidRender : Z
}.

(** A buffered channel of [struct{}]: its capacity and the number of
    values waiting in it. *)
Record chan := mkChan {
  ch_cap : nat;
  ch_len : nat
}.

(** Addresses of the records and map objects the Runner shares by
    pointer. *)
Definition loc := positive.

Record RenderCall := mkRenderCall {
  rc_template : string;
  rc_config : TemplateConfig;
  rc_result : RenderResult
}.

(** The fields of the Go struct, followed by the part of the world the
    Runner acts on. *)
Record Runner := mkRunner {
  ErrCh : list error;  (* values sent so far on the error channel *)
  DoneCh : bool;  (* [true] once the done channel is closed *)
  config : Config;
  dry : bool;
  once : bool;
  ctemplatesMap : gmap string (list TemplateConfig);
  templates : list Template;
  renderEvents : loc;  (* address of the map object *)
  renderedCh : chan;
  dependencies : gmap string Dependency;
  watcher : Watcher;
  brain : gmap string Data;
  child : option Child;
  childLock : RWMutex;
  quiescenceMap : gmap string quiescence;
  dedup : option DedupManager;
  events : gmap loc RenderEvent;  (* store: the [RenderEvent] records behind the pointers *)
  maps : gmap loc (gmap string loc);  (* store: the render-event map objects *)
  fs : gmap string string;  (* the files on disk, by path *)
  renders : list RenderCall;  (* log of the completed [Render] calls *)
  spawned : list spawnChildInput  (* log of the [spawnChild] calls *)
}.

Definition set_ErrCh (v : list error) (r : Runner) : Runner :=
  {| ErrCh := v; DoneCh := DoneCh r; config := config r; dry := dry r;
     once := once r; ctemplatesMap := ctemplatesMap r;
     templates := templates r; renderEvents := renderEvents r;
     renderedCh := renderedCh r; dependencies := dependencies r;
     watcher := watcher r; brain := brain r; child := child r;
     childLock := childLock r; quiescenceMap := quiescenceMap r;
     dedup := dedup r; events := events r; maps := maps r; fs := fs r;
     renders := renders r; spawned := spawned r |}.

Definition set_DoneCh (v : bool) (r : Runner) : Runner :=
  {| ErrCh := ErrCh r; DoneCh := v; config := config r; dry := dry r;
     once := once r; ctemplatesMap := ctemplatesMap r;
     templates := templates r; renderEvents := renderEvents r;
     renderedCh := renderedCh r; dependencies := dependencies r;
     watcher := watcher r; brain := brain r; child := child r;
     childLock := childLock r; quiescenceMap := quiescenceMap r;
     dedup := dedup r; events := events r; maps := maps r; fs := fs r;
     renders := renders r; spawned := spawned r |}.

Definition set_renderedCh (v : chan) (r : Runner) : Runner :=
  {| ErrCh := ErrCh r; DoneCh := DoneCh r; config := config r;
     dry := dry r; once := once r; ctemplatesMap := ctemplatesMap r;
     templates := templates r; renderEvents := renderEvents r;
     renderedCh := v; dependencies := dependencies r; watcher := watcher r;
     brain := brain r; child := child r; childLock := childLock r;
     quiescenceMap := quiescenceMap r; dedup := dedup r;
     events := events r; maps := maps r; fs := fs r; renders := renders r;
     spawned := spawned r |}.

Definition set_dependencies (v : gmap string Dependency) (r : Runner) : Runner :=
  {| ErrCh := ErrCh r; DoneCh := DoneCh r; config := config r;
     dry := dry r; once := once r; ctemplatesMap := ctemplatesMap r;
     templates := templates r; renderEvents := renderEvents r;
     renderedCh := renderedCh r; dependencies := v; watcher := watcher r;
     brain := brain r; child := child r; childLock := childLock r;
     quiescenceMap := quiescenceMap r; dedup := dedup r;
     events := events r; maps := maps r; fs := fs r; renders := renders r;
     spawned := spawned r |}.

Definition set_watcher (v : Watcher) (r : Runner) : Runner :=
  {| ErrCh := ErrCh r; DoneCh := DoneCh r; config := config r;
     dry := dry r; once := once r; ctemplatesMap := ctemplatesMap r;
     templates := templates r; renderEvents := renderEvents r;
     renderedCh := renderedCh r; dependencies := dependencies r;
     watcher := v; brain := brain r; child := child r;
     childLock := childLock r; quiescenceMap := quiescenceMap r;
     dedup := dedup r; events := events r; maps := maps r; fs := fs r;
     renders := renders r; spawned := spawned r |}.

Definition set_brain (v : gmap string Data) (r : Runner) : Runner :=
  {| ErrCh := ErrCh r; DoneCh := DoneCh r; config := config r;
     dry := dry r; once := once r; ctemplatesMap := ctemplatesMap r;
     templates := templates r; renderEvents := renderEvents r;
     renderedCh := renderedCh r; dependencies := dependencies r;
     watcher := watcher r; brain := v; child := child r;
     childLock := childLock r; quiescenceMap := quiescenceMap r;
     dedup := dedup r; events := events r; maps := maps r; fs := fs r;
     renders := renders r; spawned := spawned r |}.

Definition set_child (v : option Child) (r : Runner) : Runner :=
  {| ErrCh := ErrCh r; DoneCh := DoneCh r; config := config r;
     dry := dry r; once := once r; ctemplatesMap := ctemplatesMap r;
     templates := templates r; renderEvents := renderEvents r;
     renderedCh := renderedCh r; dependencies := dependencies r;
     watcher := watcher r; brain := brain r; child := v;
     childLock := childLock r; quiescenceMap := quiescenceMap r;
     dedup := dedup r; events := events r; maps := maps r; fs := fs r;
     renders := renders r; spawned := spawned r |}.

Definition set_childLock (v : RWMutex) (r : Runner) : Runner :=
  {| ErrCh := ErrCh r; DoneCh := DoneCh r; config := config r;
     dry := dry r; once := once r; ctemplatesMap := ctemplatesMap r;
     templates := templates r; renderEvents := renderEvents r;
     renderedCh := renderedCh r; dependencies := dependencies r;
     watcher := watcher r; brain := brain r; child := child r;
     childLock := v; quiescenceMap := quiescenceMap r; dedup := dedup r;
     events := events r; maps := maps r; fs := fs r; renders := renders r;
     spawned := spawned r |}.

Definition set_quiescenceMap (v : gmap string quiescence) (r : Runner) : Runner :=
  {| ErrCh := ErrCh r; DoneCh := DoneCh r; config := config r;
     dry := dry r; once := once r; ctemplatesMap := ctemplatesMap r;
     templates := templates r; renderEvents := renderEvents r;
     renderedCh := renderedCh r; dependencies := dependencies r;
     watcher := watcher r; brain := brain r; child := child r;
     childLock := childLock r; quiescenceMap := v; dedup := dedup r;
     events := events r; maps := maps r; fs := fs r; renders := renders r;
     spawned := spawned r |}.

Definition set_dedup (v : option DedupManager) (r : Runner) : Runner :=
  {| ErrCh := ErrCh r; DoneCh := DoneCh r; config := config r;
     dry := dry r; once := once r; ctemplatesMap := ctemplatesMap r;
     templates := templates r; renderEvents := renderEvents r;
     renderedCh := renderedCh r; dependencies := dependencies r;
     watcher := watcher r; brain := brain r; child := child r;
     childLock := childLock r; quiescenceMap := quiescenceMap r;
     dedup := v; events := events r; maps := maps r; fs := fs r;
     renders := renders r; spawned := spawned r |}.

Definition set_events (v : gmap loc RenderEvent) (r : Runner) : Runner :=
  {| ErrCh := ErrCh r; DoneCh := DoneCh r; config := config r;
     dry := dry r; once := once r; ctemplatesMap := ctemplatesMap r;
     templates := templates r; renderEvents := renderEvents r;
     renderedCh := renderedCh r; dependencies := dependencies r;
     watcher := watcher r; brain := brain r; child := child r;
     childLock := childLock r; quiescenceMap := quiescenceMap r;
     dedup := dedup r; events := v; maps := maps r; fs := fs r;
     renders := renders r; spawned := spawned r |}.

Definition set_maps (v : gmap loc (gmap string loc)) (r : Runner) : Runner :=
  {| ErrCh := ErrCh r; DoneCh := DoneCh r; config := config r;
     dry := dry r; once := once r; ctemplatesMap := ctemplatesMap r;
     templates := templates r; renderEvents := renderEvents r;
     renderedCh := renderedCh r; dependencies := dependencies r;
     watcher := watcher r; brain := brain r; child := child r;
     childLock := childLock r; quiescenceMap := quiescenceMap r;
     dedup := dedup r; events := events r; maps := v; fs := fs r;
     renders := renders r; spawned := spawned r |}.

Definition set_fs (v : gmap string string) (r : Runner) : Runner :=
  {| ErrCh := ErrCh r; DoneCh := DoneCh r; config := config r;
     dry := dry r; once := once r; ctemplatesMap := ctemplatesMap r;
     templates := templates r; renderEvents := renderEvents r;
     renderedCh := renderedCh r; dependencies := dependencies r;
     watcher := watcher r; brain := brain r; child := child r;
     childLock := childLock r; quiescenceMap := quiescenceMap r;
     dedup := dedup r; events := events r; maps := maps r; fs := v;
     renders := renders r; spawned := spawned r |}.

Definition set_renders (v : list RenderCall) (r : Runner) : Runner :=
  {| ErrCh := ErrCh r; DoneCh := DoneCh r; config := config r;
     dry := dry r; once := once r; ctemplatesMap := ctemplatesMap r;
     templates := templates r; renderEvents := renderEvents r;
     renderedCh := renderedCh r; dependencies := dependencies r;
     watcher := watcher r; brain := brain r; child := child r;
     childLock := childLock r; quiescenceMap := quiescenceMap r;
     dedup := dedup r; events := events r; maps := maps r; fs := fs r;
     renders := v; spawned := spawned r |}.

Definition set_spawned (v : list spawnChildInput) (r : Runner) : Runner :=
  {| ErrCh := ErrCh r; DoneCh := DoneCh r; config := config r;
     dry := dry r; once := once r; ctemplatesMap := ctemplatesMap r;
     templates := templates r; renderEvents := renderEvents r;
     renderedCh := renderedCh r; dependencies := dependencies r;
     watcher := watcher r; brain := brain r; child := child r;
     childLock := childLock r; quiescenceMap := quiescenceMap r;
     dedup := dedup r; events := events r; maps := maps r; fs := fs r;
     renders := renders r; spawned := v |}.

(** What a call of [Run] and of its parts comes to: it completes, it
    returns an error (the Runner as the call left it), or it crashes. *)
Inductive outcome (A : Type) : Type :=
| Done (a : A)
| Failed (err : error) (r : Runner)
| Crashed (msg : string).
Arguments Done {A} a.
Arguments Failed {A} err r.
Arguments Crashed {A} msg.

(** The local variables of [Run]. *)
Record pass := mkPass {
  wouldRenderAny : bool;
  renderedAny : bool;
  commands : list TemplateConfig;
  depsMap : gmap string Dependency
}.

Definition new_pass : pass :=
  {| wouldRenderAny := false; renderedAny := false; commands := [];
     depsMap := ∅ |}.

Section Operations.
Context `{External}.

Definition childEnv (r : Runner) : list string := cfg_Env (config r).

Definition push (err : error) (r : Runner) : Runner :=
  set_ErrCh (ErrCh r ++ [err]) r.

(** The map object behind [r.renderEvents]. *)
Definition eventsMap (r : Runner) : gmap string loc :=
  default ∅ (maps r !! renderEvents r).

Definition rendered (r : Runner) (tmplID : string) : bool :=
  bool_decide (is_Some (eventsMap r !! tmplID)).

(** *** [RenderEvents] (lines 359-370) *)
Definition RenderEvents (r : Runner) : loc * Runner :=
  let times := fresh (dom (maps r)) in
  let copy := map_fold (fun k v (m : gmap string loc) => <[k := v]> m)
                       ∅ (eventsMap r) in
  (times, set_maps (<[times := copy]> (maps r)) r).

(** Reading an entry of a map of render events: the pointer, then the
    record it points to. *)
Definition read_event (r : Runner) (m : loc) (tmplID : string)
    : option RenderEvent :=
  l ← (default ∅ (maps r !! m)) !! tmplID; events r !! l.

(** *** [stopDedup], [stopWatcher], [stopChild], [Stop] (338-400) *)
Definition stopDedup (r : Runner) : Runner :=
  match dedup r with
  | Some dd => set_dedup (Some (dedup_Stop dd)) r
  | None => r
  end.

Definition stopWatcher (r : Runner) : Runner :=
  set_watcher (watcher_Stop (watcher r)) r.

Definition stopChild (r : Runner) : result Runner :=
  l1 ← mutex_RLock (childLock r);
  let r1 := match child r with
            | Some c => set_child (Some (child_Stop c)) r
            | None => r
            end in
  l2 ← mutex_RUnlock l1;
  mret (set_childLock l2 r1).

(** [deletePid]: its error is only logged by [Stop]. *)
Definition deletePid (r : Runner) : Runner :=
  let path := PidFile (config r) in
  if bool_decide (path = "") then r
  else set_fs (delete path (fs r)) r.

(** [close(ch)] panics on a channel that is already closed. *)
Definition close_DoneCh (r : Runner) : result Runner :=
  if DoneCh r then Crash "panic: close of closed channel"
  else Ok (set_DoneCh true r).

Definition Stop (r : Runner) : result Runner :=
  r3 ← stopChild (stopWatcher (stopDedup r));
  close_DoneCh (deletePid r3).

(** *** [Receive] (lines 402-424) *)
Definition Receive (d : Dependency) (data : Data) (r : Runner) : Runner :=
  match dependencies r !! HashCode d with
  | Some _ => set_brain (brain_Remember d data (brain r)) r
  | None => r
  end.

(** *** [markRenderTime] (lines 813-835) *)
Definition stamp (now : Z) (didRender : bool) (e : RenderEvent)
    : RenderEvent :=
  if didRender
  then {| LastWouldRender := LastWouldRender e; LastDidRender := now |}
  else {| LastWouldRender := now; LastDidRender := LastDidRender e |}.

Definition markRenderTime (now : Z) (tmplID : string) (didRender : bool)
    (r : Runner) : Runner :=
  match eventsMap r !! tmplID with
  | Some event => set_events (alter (stamp now didRender) event (events r)) r
  | None =>
      let event := fresh (dom (events r)) in
      set_events
        (<[event := stamp now didRender (mkRenderEvent 0 0)]> (events r))
        (set_maps
           (<[renderEvents r := <[tmplID := event]> (eventsMap r)]> (maps r))
           r)
  end.

(** *** [allTemplatesRendered] (lines 798-811) *)
Fixpoint all_rendered (r : Runner) (ts : list Template) : bool :=
  match ts with
  | [] => true
  | tmpl :: rest =>
      if rendered r (ID tmpl) then all_rendered r rest else false
  end.

Definition allTemplatesRendered (r : Runner) : bool :=
  all_rendered r (templates r).

(** *** [templateConfigsFor] (line 778) *)
Definition templateConfigsFor (r : Runner) (tmpl : Template)
    : list TemplateConfig :=
  default [] (ctemplatesMap r !! ID tmpl).

(** *** [commandExists] (lines 1040-1051) *)
Fixpoint commandExists (c : TemplateConfig) (templates : list TemplateConfig)
    : bool :=
  match templates with
  | [] => false
  | t :: rest =>
      if bool_decide (Exec_Command (Exec c) = Exec_Command (Exec t))
      then true
      else commandExists c rest
  end.

(** *** [spawnChild] (lines 954-986) *)
Definition spawnChild (i : spawnChildInput) (r : Runner)
    : result (Runner * (error + Child)) :=
  let r := set_spawned (spawned r ++ [i]) r in
  match shellwords_Parse (sp_Command i) with
  | inl err => Ok (r, inl (ErrWrap "failed parsing command" err))
  | inr [] => Crash "panic: runtime error: index out of range"
  | inr (cmd :: args) =>
      match child_New cmd args i with
      | Some err => Ok (r, inl (ErrWrap "error creating child" err))
      | None =>
          let c := mkChild cmd args false 0 in
          match child_Start c with
          | Some err => Ok (r, inl (ErrWrap "error starting child" err))
          | None => Ok (r, inr c)
          end
      end
  end.

(** *** [diffAndUpdateDeps] (lines 755-775) *)
Definition retire (depsMap : gmap string Dependency)
    (key : string) (d : Dependency) (r : Runner) : Runner :=
  match depsMap !! key with
  | None =>
      set_brain (brain_Forget d (brain r))
        (set_watcher (watcher_Remove d (watcher r)) r)
  | Some _ => r
  end.

Definition diffAndUpdateDeps (depsMap : gmap string Dependency)
    (r : Runner) : Runner :=
  set_dependencies depsMap (map_fold (retire depsMap) r (dependencies r)).

(** *** [Run] (lines 437-661) *)

Definition isLeader_for (r : Runner) (tmpl : Template) : bool :=
  match dedup r with
  | Some dd => IsLeader dd tmpl
  | None => true
  end.

(** Lines 487-498: the loop over [used]. *)
Fixpoint collect_used (isLeader : bool) (w : Watcher)
    (used missing : list Dependency) (depsMap : gmap string Dependency)
    : list Dependency * gmap string Dependency :=
  match used with
  | [] => (missing, depsMap)
  | d :: rest =>
      let missing := if isLeader && negb (Watching w d)
                     then missing ++ [d] else missing in
      let depsMap := match depsMap !! HashCode d with
                     | Some _ => depsMap
                     | None => <[HashCode d := d]> depsMap
                     end in
      collect_used isLeader w rest missing depsMap
  end.

(** Lines 500-507. *)
Fixpoint unwatched_of (w : Watcher) (missing : list Dependency)
    : list Dependency :=
  match missing with
  | [] => []
  | d :: rest =>
      if negb (Watching w d) then d :: unwatched_of w rest
      else unwatched_of w rest
  end.

(** Lines 513-519. *)
Fixpoint subscribe (isLeader : bool) (unwatched : list Dependency)
    (w : Watcher) : Watcher :=
  match unwatched with
  | [] => w
  | d :: rest =>
      subscribe isLeader rest
        (if isLeader || negb (CanShare d) then watcher_Add d w else w)
  end.

Definition set_flags (would did : bool) (p : pass) : pass :=
  {| wouldRenderAny := would; renderedAny := did;
     commands := commands p; depsMap := depsMap p |}.

Definition set_commands (cs : list TemplateConfig) (p : pass) : pass :=
  {| wouldRenderAny := wouldRenderAny p; renderedAny := renderedAny p;
     commands := cs; depsMap := depsMap p |}.

Definition set_depsMap (m : gmap string Dependency) (p : pass) : pass :=
  {| wouldRenderAny := wouldRenderAny p; renderedAny := renderedAny p;
     commands := commands p; depsMap := m |}.

(** Lines 563-602: what one [Render] result does to the Runner and to the
    locals. *)
Definition note_render (now : Z) (tmpl : Template)
    (templateConfig : TemplateConfig) (result : RenderResult)
    (r : Runner) (p : pass) : Runner * pass :=
  let '(r, p) :=
    if WouldRender result
    then (markRenderTime now (ID tmpl) false r,
          set_flags true (renderedAny p) p)
    else (r, p) in
  if DidRender result then
    let p := set_flags (wouldRenderAny p) true p in
    let r := markRenderTime now (ID tmpl) true r in
    if negb (dry r) then
      if bool_decide (Exec_Command (Exec templateConfig) ≠ "")
         && negb (commandExists templateConfig (commands p))
      then (r, set_commands (commands p ++ [templateConfig]) p)
      else (r, p)
    else (r, p)
  else (r, p).

(** Lines 544-603: the loop over the configurations of one template. *)
Fixpoint render_configs (now : Z) (tmpl : Template) (output : string)
    (cfgs : list TemplateConfig) (r : Runner) (p : pass)
    : outcome (Runner * pass) :=
  match cfgs with
  | [] => Done (r, p)
  | templateConfig :: rest =>
      match Render {| ri_Backup := Backup templateConfig;
                      ri_Contents := output;
                      ri_Dry := dry r;
                      ri_Path := Destination templateConfig;
                      ri_Perms := Perms templateConfig |} (fs r) with
      | inl err => Failed (ErrWrap ("error rendering " +:+ ID tmpl) err) r
      | inr (result, fs') =>
          let r := set_renders
                     (renders r ++ [mkRenderCall (ID tmpl) templateConfig result])
                     (set_fs fs' r) in
          let '(r, p) := note_render now tmpl templateConfig result r p in
          render_configs now tmpl output rest r p
      end
  end.

(** Lines 452-603: the body of the loop over the templates. *)
Definition run_template (now : Z) (tmpl : Template) (r : Runner) (p : pass)
    : outcome (Runner * pass) :=
  let isLeader := isLeader_for r tmpl in
  if once r && rendered r (ID tmpl) then Done (r, p)
  else
    match Execute tmpl (brain r) (childEnv r) with
    | inl err => Failed err r
    | inr result =>
        let '(missing, deps) :=
          collect_used isLeader (watcher r) (Used result) (Missing result)
                       (depsMap p) in
        let p := set_depsMap deps p in
        let unwatched := unwatched_of (watcher r) missing in
        if (0 <? length unwatched)%nat then
          Done (set_watcher (subscribe isLeader unwatched (watcher r)) r, p)
        else if (0 <? length missing)%nat then Done (r, p)
        else
          let r := match dedup r with
                   | Some dd =>
                       if isLeader
                       then set_dedup (Some (UpdateDeps tmpl (Used result) dd)) r
                       else r
                   | None => r
                   end in
          match quiescenceMap r !! ID tmpl with
          | Some q =>
              Done (set_quiescenceMap
                      (<[ID tmpl := tick now q]> (quiescenceMap r)) r, p)
          | None =>
              render_configs now tmpl (Output result)
                             (templateConfigsFor r tmpl) r p
          end
    end.

Fixpoint run_templates (now : Z) (ts : list Template) (r : Runner) (p : pass)
    : outcome (Runner * pass) :=
  match ts with
  | [] => Done (r, p)
  | tmpl :: rest =>
      match run_template now tmpl r p with
      | Done (r, p) => run_templates now rest r p
      | Failed err r => Failed err r
      | Crashed msg => Crashed msg
      end
  end.

(** Lines 606-613: the send that does not block. *)
Definition signal_rendered (r : Runner) : Runner :=
  let ch := renderedCh r in
  if (ch_len ch <? ch_cap ch)%nat
  then set_renderedCh (mkChan (ch_cap ch) (S (ch_len ch))) r
  else r.

(** A receive by the consumer of [TemplateRenderedCh]; it blocks on the
    empty channel. *)
Definition receive_rendered (r : Runner) : option Runner :=
  let ch := renderedCh r in
  match ch_len ch with
  | O => None
  | S n => Some (set_renderedCh (mkChan (ch_cap ch) n) r)
  end.

Definition command_input (r : Runner) (e : ExecConfig) : spawnChildInput :=
  {| sp_Command := Exec_Command e; sp_Timeout := Exec_Timeout e;
     sp_Env := childEnv r ++ Exec_Env e |}.

(** Lines 618-638. *)
Fixpoint exec_commands (cmds : list TemplateConfig) (r : Runner)
    (errs : list error) : result (Runner * list error) :=
  match cmds with
  | [] => Ok (r, errs)
  | t :: rest =>
      '(r, res) ← spawnChild (command_input r (Exec t)) r;
      exec_commands rest r
        (match res with inl err => errs ++ [err] | inr _ => errs end)
  end.

(** Lines 640-648. *)
Definition reload_child (renderedAny : bool) (r : Runner) (errs : list error)
    : result (Runner * list error) :=
  match child r with
  | Some c =>
      if renderedAny then
        l1 ← mutex_RLock (childLock r);
        let errs := match child_Reload c with
                    | Some err => errs ++ [err]
                    | None => errs
                    end in
        let c := {| ch_Command := ch_Command c; ch_Args := ch_Args c;
                    ch_stopped := ch_stopped c;
                    ch_reloads := S (ch_reloads c) |} in
        l2 ← mutex_RUnlock l1;
        mret (set_childLock l2 (set_child (Some c) r), errs)
      else Ok (r, errs)
  | None => Ok (r, errs)
  end.

(** Lines 606-661: what [Run] does once the loop over the templates is
    through. *)
Definition finish_pass (r : Runner) (p : pass) : outcome Runner :=
  let r := if wouldRenderAny p || renderedAny p
           then signal_rendered r else r in
  let r := diffAndUpdateDeps (depsMap p) r in
  match ('(r, errs) ← exec_commands (commands p) r [];
         reload_child (renderedAny p) r errs) with
  | Crash msg => Crashed msg
  | Ok (r, []) => Done r
  | Ok (r, errs) => Failed (MultiError errs) r
  end.

Definition Run (now : Z) (r : Runner) : outcome Runner :=
  match run_templates now (templates r) r new_pass with
  | Done (r, p) => finish_pass r p
  | Failed err r => Failed err r
  | Crashed msg => Crashed msg
  end.

(** *** [init] and [NewRunner] (lines 110-126, 663-753)

    [cfg] is the configuration after the merge with the defaults and
    [disk] the files that exist when the Runner is created. *)
Fixpoint init_templates (cts : list TemplateConfig)
    (templates : list Template)
    (ctemplatesMap : gmap string (list TemplateConfig))
    : error + (list Template * gmap string (list TemplateConfig)) :=
  match cts with
  | [] => inr (templates, ctemplatesMap)
  | ctmpl :: rest =>
      match NewTemplate (Source ctmpl) (Contents ctmpl)
                        (LeftDelim ctmpl) (RightDelim ctmpl) with
      | inl err => inl err
      | inr tmpl =>
          let templates :=
            match ctemplatesMap !! ID tmpl with
            | Some _ => templates
            | None => templates ++ [tmpl]
            end in
          let ctemplatesMap :=
            match ctemplatesMap !! ID tmpl with
            | Some _ => ctemplatesMap
            | None => <[ID tmpl := []]> ctemplatesMap
            end in
          let ctemplatesMap :=
            <[ID tmpl := default [] (ctemplatesMap !! ID tmpl) ++ [ctmpl]]>
              ctemplatesMap in
          init_templates rest templates ctemplatesMap
      end
  end.

Definition init (cfg : Config) (dry once : bool) (disk : gmap string string)
    : error + Runner :=
  match newClientSet cfg with
  | Some err => inl (ErrWrap "runner" err)
  | None =>
  match NewWatcher cfg once with
  | Some err => inl (ErrWrap "runner" err)
  | None =>
  match init_templates (Templates cfg) [] ∅ with
  | inl err => inl err
  | inr (templates, ctemplatesMap) =>
      let r dedup :=
        {| ErrCh := []; DoneCh := false; config := cfg;
           dry := dry; once := once;
           ctemplatesMap := ctemplatesMap; templates := templates;
           renderEvents := 1%positive; renderedCh := mkChan 1 0;
           dependencies := ∅; watcher := mkWatcher ∅ false; brain := ∅;
           child := None; childLock := mkRWMutex false 0;
           quiescenceMap := ∅; dedup := dedup;
           events := ∅; maps := {[ 1%positive := ∅ ]}; fs := disk;
           renders := []; spawned := [] |} in
      if Dedup_Enabled cfg then
        if once then inr (r None)
        else match NewDedupManager cfg with
             | Some err => inl err
             | None => inr (r (Some (mkDedup ∅ [] false)))
             end
      else inr (r None)
  end end end.

Definition NewRunner := init.

(** *** [storePid] (lines 893-914) *)
Definition storePid (r : Runner) : error + Runner :=
  let path := PidFile (config r) in
  if bool_decide (path = "") then inr r
  else match os_OpenFile path with
       | Some err => inl (ErrWrap "runner: could not open pid file" err)
       | None => inr (set_fs (<[path := os_Getpid]> (fs r)) r)
       end.

(** *** [Start] (lines 128-336) *)

(** What the main [select] can receive.  The clock reading that comes
    with an event is the one of the render pass that follows it.  The
    done channel is closed by [Stop] only, so [EvDone] stands for a call
    of [Stop] by the host; [EvDedup] carries the leadership the manager
    has settled on. *)
Inductive Event : Type :=
| EvData (view : Dependency * Data) (more : list (Dependency * Data))
| EvDedup (leader : gset string)
| EvWatcherErr (err : error)
| EvQuiescence (tmpl : Template)
| EvChildExit (code : Z)
| EvDone.

(** How [Start] ends: it returns, it waits for ever on an event that does
    not come, or the process dies. *)
Inductive final : Type :=
| Returned (r : Runner)
| Blocked (r : Runner)
| Died (msg : string).

(** Lines 163-186. *)
Fixpoint template_wait (cfgs : list TemplateConfig) : option WaitConfig :=
  match cfgs with
  | [] => None
  | c :: rest =>
      if Wait_Enabled (Wait c) then Some (Wait c) else template_wait rest
  end.

Definition enable_quiescence_for (r : Runner) (t : Template) : Runner :=
  match quiescenceMap r !! ID t with
  | Some _ => r
  | None =>
      let install (w : WaitConfig) :=
        set_quiescenceMap
          (<[ID t := newQuiescence (Wait_Min w) (Wait_Max w) t]>
             (quiescenceMap r)) r in
      match template_wait (templateConfigsFor r t) with
      | Some w => install w
      | None =>
          if Wait_Enabled (cfg_Wait (config r))
          then install (cfg_Wait (config r)) else r
      end
  end.

Definition enable_quiescence (r : Runner) : Runner :=
  foldl enable_quiescence_for r (templates r).

(** Lines 199-232: the supervised child.  On success the second
    component is the new exit channel of the child. *)
Definition supervise (r : Runner) (childExitCh : bool)
    : final + (Runner * bool) :=
  if bool_decide (Exec_Command (cfg_Exec (config r)) ≠ "") then
    let unlock (r : Runner) : final + (Runner * bool) :=
      match mutex_Unlock (childLock r) with
      | Crash msg => inl (Died msg)
      | Ok l => inr (set_childLock l r, true)
      end in
    match child r with
    | None =>
        match spawnChild (command_input r (cfg_Exec (config r))) r with
        | Crash msg => inl (Died msg)
        | Ok (r, inl err) =>
            let r := push err r in
            match mutex_Unlock (childLock r) with
            | Crash msg => inl (Died msg)
            | Ok l => inl (Returned (set_childLock l r))
            end
        | Ok (r, inr c) => unlock (set_child (Some c) r)
        end
    | Some _ => unlock r
    end
  else inr (r, childExitCh).

(** Lines 244-250: once mode waits for the child or for the shutdown;
    the other channels are not looked at. *)
Fixpoint wait_child (evs : list (Z * Event)) (r : Runner) : final :=
  match evs with
  | [] => Blocked r
  | (_, EvChildExit c) :: _ => Returned (push (ErrChildDied c) r)
  | (_, EvDone) :: _ =>
      match (r ← Stop r; Stop r) with
      | Ok r => Returned r
      | Crash msg => Died msg
      end
  | _ :: rest => wait_child rest r
  end.

(** Lines 163-256: the head of the loop. *)
Definition loop_head (evs : list (Z * Event)) (childExitCh : bool)
    (r : Runner) : final + (Runner * bool) :=
  let r := enable_quiescence r in
  if allTemplatesRendered r then
    match supervise r childExitCh with
    | inl f => inl f
    | inr (r, childExitCh) =>
        if once r then
          match child r with
          | Some _ => inl (wait_child evs (stopWatcher (stopDedup r)))
          | None =>
              match Stop r with
              | Ok r => inl (Returned r)
              | Crash msg => inl (Died msg)
              end
          end
        else inr (r, childExitCh)
    end
  else inr (r, childExitCh).

Definition receive_all (views : list (Dependency * Data)) (r : Runner)
    : Runner :=
  foldl (fun r view => Receive view.1 view.2 r) r views.

(** Lines 258-327: one wake of the [select].  [inl] is a return of
    [Start], [inr] goes on to the render pass. *)
Definition select (ev : Event) (r : Runner) : final + Runner :=
  match ev with
  | EvData view more => inr (receive_all (view :: more) r)
  | EvDedup leader =>
      inr (match dedup r with
           | Some dd =>
               set_dedup (Some {| dd_leader := leader;
                                  dd_published := dd_published dd;
                                  dd_stopped := dd_stopped dd |}) r
           | None => r
           end)
  | EvWatcherErr err =>
      match err with
      | FetchError true original => inl (Returned (push original r))
      | _ => if once r then inl (Returned (push err r)) else inr r
      end
  | EvQuiescence tmpl =>
      inr (set_quiescenceMap (delete (ID tmpl) (quiescenceMap r)) r)
  | EvChildExit c => inl (Returned (push (ErrChildDied c) r))
  | EvDone =>
      match Stop r with
      | Ok r => inl (Returned r)
      | Crash msg => inl (Died msg)
      end
  end.

(** A nil channel is never ready. *)
Definition ready (ev : Event) (childExitCh : bool) (r : Runner) : bool :=
  match ev with
  | EvChildExit _ => childExitCh
  | EvDedup _ => bool_decide (is_Some (dedup r))
  | _ => true
  end.

(** The loop of [Start]; [at_head] is false while the [select] is still
    waiting. *)
Fixpoint main_loop (evs : list (Z * Event)) (at_head : bool)
    (childExitCh : bool) (r : Runner) : final :=
  match (if at_head then loop_head evs childExitCh r
         else inr (r, childExitCh)) with
  | inl f => f
  | inr (r, childExitCh) =>
      match evs with
      | [] => Blocked r
      | (now, ev) :: rest =>
          if ready ev childExitCh r then
            match select ev r with
            | inl f => f
            | inr r =>
                match Run now r with
                | Done r => main_loop rest true childExitCh r
                | Failed err r => Returned (push err r)
                | Crashed msg => Died msg
                end
            end
          else main_loop rest false childExitCh r
      end
  end.

Definition Start (now : Z) (evs : list (Z * Event)) (r : Runner) : final :=
  match storePid r with
  | inl err => Returned (push err r)
  | inr r =>
      match (match dedup r with
             | Some _ => dedup_Start (config r)
             | None => None
             end) with
      | Some err => Returned (push err r)
      | None =>
          match Run now r with
          | Done r => main_loop evs true false r
          | Failed err r => Returned (push err r)
          | Crashed msg => Died msg
          end
      end
  end.

End Operations.

(** ** Predicates of the statements *)

(** What a run of ticks that started at [t0] keeps true; [t] is the
    instant of the latest tick. *)
Definition window_inv (min max t0 t : Z) (q : quiescence) : Prop :=
  q_min q = min /\ q_max q = max /\ q_deadline q = t0 + max /\ t0 <= t /\
  exists e, q_timer q = Some e /\
    match q_posted q with
    | None => e = Z.min (t + min) (t0 + max)
    | Some T => t0 + min <= T <= t0 + max
    end.

(** Every entry of a dependency map sits under its own hash key. *)
Definition keyed (m : gmap string Dependency) : Prop :=
  map_Forall (fun key d => HashCode d = key) m.

#[global] Instance keyed_dec (m : gmap string Dependency) :
  Decision (keyed m).
Proof. unfold keyed. apply _. Defined.

(** The Runner a call leaves behind. *)
Definition state_of {A : Type} (o : outcome (Runner * A)) : option Runner :=
  match o with
  | Done (r, _) => Some r
  | Failed _ r => Some r
  | Crashed _ => None
  end.

(** The fields no step of the loop over the templates writes. *)
Definition loop_frame (r r' : Runner) : Prop :=
  ErrCh r' = ErrCh r /\ DoneCh r' = DoneCh r /\ config r' = config r /\
  dry r' = dry r /\ once r' = once r /\
  ctemplatesMap r' = ctemplatesMap r /\ templates r' = templates r /\
  renderEvents r' = renderEvents r /\ renderedCh r' = renderedCh r /\
  dependencies r' = dependencies r /\ brain r' = brain r /\
  child r' = child r /\ childLock r' = childLock r /\
  spawned r' = spawned r.

(** The templates a pass evaluates, and the dependencies the pass uses,
    as the specification words them: the union, over the evaluated
    templates, of what their evaluation against the Brain reports as
    used. *)
Definition evaluated (r : Runner) (tmpl : Template) : bool :=
  negb (once r && rendered r (ID tmpl)).

Definition used_by `{External} (r : Runner) (tmpl : Template)
    : list Dependency :=
  if evaluated r tmpl then
    match Execute tmpl (brain r) (childEnv r) with
    | inr result => Used result
    | inl _ => []
    end
  else [].

Definition pass_used `{External} (r : Runner) (ts : list Template)
    : list Dependency :=
  flat_map (used_by r) ts.

Definition keys_of (ds : list Dependency) : gset string :=
  list_to_set (HashCode <$> ds).

Definition final_runner (o : outcome Runner) : option Runner :=
  match o with
  | Done r => Some r
  | Failed _ r => Some r
  | Crashed _ => None
  end.

(** The fields the execution of the commands and the reload of the child
    leave alone. *)
Definition tail_frame (r r' : Runner) : Prop :=
  ErrCh r' = ErrCh r /\ DoneCh r' = DoneCh r /\ config r' = config r /\
  dry r' = dry r /\ once r' = once r /\
  ctemplatesMap r' = ctemplatesMap r /\ templates r' = templates r /\
  renderEvents r' = renderEvents r /\ renderedCh r' = renderedCh r /\
  dependencies r' = dependencies r /\ watcher r' = watcher r /\
  brain r' = brain r /\ quiescenceMap r' = quiescenceMap r /\
  dedup r' = dedup r /\ events r' = events r /\ maps r' = maps r /\
  fs r' = fs r /\ renders r' = renders r.

(** ** A concrete world for the examples

    Two key dependencies; the template [sw.tpl] uses [dep_A] and, while
    the value of [dep_A] is [on], [dep_B] as well; the other templates
    use nothing.  The renderer writes a file when its contents differ;
    every command parses to itself and starts. *)
Definition dep_A : Dependency := mkDependency "kv(A)" "key A" true.
Definition dep_B : Dependency := mkDependency "kv(B)" "key B" true.

Definition ex_used (tmpl : Template) (brain : gmap string Data)
    : list Dependency :=
  if bool_decide (ID tmpl = "sw.tpl") then
    if bool_decide (brain !! "kv(A)" = Some "on") then [dep_A; dep_B]
    else [dep_A]
  else [].

Definition ex_missing (brain : gmap string Data) (used : list Dependency)
    : list Dependency :=
  List.filter (fun d => bool_decide (brain !! HashCode d = None)) used.

Definition ex_Execute (tmpl : Template) (brain : gmap string Data)
    (env : list string) : error + ExecuteResult :=
  inr {| Used := ex_used tmpl brain;
         Missing := ex_missing brain (ex_used tmpl brain);
         Output := ID tmpl |}.

Definition ex_Render (i : RenderInput) (fs : gmap string string)
    : error + (RenderResult * gmap string string) :=
  if bool_decide (fs !! ri_Path i = Some (ri_Contents i))
  then inr ({| DidRender := false; WouldRender := true |}, fs)
  else inr ({| DidRender := true; WouldRender := true |},
            if ri_Dry i then fs else <[ri_Path i := ri_Contents i]> fs).

Definition ex_world : External :=
  {| NewTemplate := fun source _ _ _ => inr (mkTemplate source);
     Execute := ex_Execute;
     Render := ex_Render;
     shellwords_Parse := fun cmd => inr [cmd];
     child_New := fun _ _ _ => None;
     child_Start := fun _ => None;
     child_Reload := fun _ => None;
     newClientSet := fun _ => None;
     NewWatcher := fun _ _ => None;
     NewDedupManager := fun _ => None;
     dedup_Start := fun _ => None;
     os_OpenFile := fun _ => None;
     os_Getpid := "4242" |}.

Definition no_wait : WaitConfig := mkWait false 0 0.

Definition ex_template (source dest command : string) : TemplateConfig :=
  {| Source := source; Contents := ""; LeftDelim := "{{"; RightDelim := "}}";
     Destination := dest; Backup := false; Perms := 420;
     Exec := mkExec command [] 0; Wait := no_wait |}.

Definition ex_config (ts : list TemplateConfig) (exec : string) : Config :=
  {| Templates := ts; cfg_Wait := no_wait; cfg_Exec := mkExec exec [] 0;
     PidFile := ""; Dedup_Enabled := false; cfg_Env := [] |}.

(** The Runner [NewRunner] returns, or the one given. *)
Definition created (x : error + Runner) (otherwise : Runner) : Runner :=
  match x with
  | inr r => r
  | inl _ => otherwise
  end.

Definition blank : Runner :=
  {| ErrCh := []; DoneCh := false; config := ex_config [] "";
     dry := false; once := false; ctemplatesMap := ∅; templates := [];
     renderEvents := 1%positive; renderedCh := mkChan 1 0; dependencies := ∅;
     watcher := mkWatcher ∅ false; brain := ∅; child := None;
     childLock := mkRWMutex false 0; quiescenceMap := ∅; dedup := None;
     events := ∅; maps := {[ 1%positive := ∅ ]}; fs := ∅;
     renders := []; spawned := [] |}.

(** The Runner a call of [Run] leaves, or the one given. *)
Definition after (o : outcome Runner) : Runner :=
  match final_runner o with
  | Some r => r
  | None => blank
  end.

(** Dependency retirement: one template [sw.tpl]; [dep_A] arrives with
    value [on], then [dep_B] arrives, then [dep_A] turns [off]. *)
Definition sw_0 : Runner :=
  created (@NewRunner ex_world
             (ex_config [ex_template "sw.tpl" "/tmp/out" ""] "")
             false false ∅) blank.

Definition sw_1 : Runner :=
  Receive dep_A "on" (after (@Run ex_world 0 sw_0)).

Definition sw_2 : Runner :=
  Receive dep_B "v" (after (@Run ex_world 1 sw_1)).

Definition sw_3 : Runner :=
  Receive dep_A "off" (after (@Run ex_world 2 sw_2)).

Definition sw_4 : Runner := after (@Run ex_world 3 sw_3).

(** Summaries of a run of [Render] calls. *)
Definition any_would (calls : list RenderCall) : bool :=
  existsb (fun c => WouldRender (rc_result c)) calls.

Definition any_did (calls : list RenderCall) : bool :=
  existsb (fun c => DidRender (rc_result c)) calls.

Definition command_of (t : TemplateConfig) : string := Exec_Command (Exec t).

(** The configurations whose commands a run of [Render] calls adds to the
    commands [cmds] gathered so far. *)
Fixpoint accumulate (dry : bool) (cmds : list TemplateConfig)
    (calls : list RenderCall) : list TemplateConfig :=
  match calls with
  | [] => cmds
  | c :: rest =>
      accumulate dry
        (if DidRender (rc_result c) && negb dry
            && bool_decide (command_of (rc_config c) ≠ "")
            && negb (commandExists (rc_config c) cmds)
         then cmds ++ [rc_config c] else cmds)
        rest
  end.

(** A follower: de-duplication is on and this agent leads no template. *)
Definition follower_0 : Runner :=
  created (@NewRunner ex_world
             {| Templates := [ex_template "sw.tpl" "/tmp/out" ""];
                cfg_Wait := no_wait; cfg_Exec := mkExec "" [] 0;
                PidFile := ""; Dedup_Enabled := true; cfg_Env := [] |}
             false false ∅) blank.

(** The map objects other than the Runner's own are left as they are. *)
Definition maps_frame (r r' : Runner) : Prop :=
  renderEvents r' = renderEvents r /\
  forall l, l <> renderEvents r -> maps r' !! l = maps r !! l.

(** Three configurations, the first and the third on the same template;
    every template renders at once. *)
Definition order_config : Config :=
  ex_config [ex_template "a.tpl" "/out/1" "echo x";
             ex_template "b.tpl" "/out/2" "echo y";
             ex_template "a.tpl" "/out/3" "echo z"] "".

Definition order_0 : Runner :=
  created (@NewRunner ex_world order_config false false ∅) blank.

(** Once mode, with and without an exec command, on one template that
    needs no data. *)
Definition once_exec_0 : Runner :=
  created (@NewRunner ex_world
             (ex_config [ex_template "static.tpl" "/tmp/static" ""] "app")
             false true ∅) blank.

Definition once_plain_0 : Runner :=
  created (@NewRunner ex_world
             (ex_config [ex_template "static.tpl" "/tmp/static" ""] "")
             false true ∅) blank.

(** The Runner a first call of [Stop] leaves. *)
Definition stopped (r : Runner) : Runner :=
  match Stop r with
  | Ok r' => r'
  | Crash _ => r
  end.

(** ** Predicates of the further properties *)

(** The template a configuration parses to, if it does. *)
Definition template_of `{External} (c : TemplateConfig) : option Template :=
  match NewTemplate (Source c) (Contents c) (LeftDelim c) (RightDelim c) with
  | inr tmpl => Some tmpl
  | inl _ => None
  end.

(** The configurations of [cts] whose template has the identifier [id],
    in the order of [cts]. *)
Definition configs_with `{External} (id : string)
    (cts : list TemplateConfig) : list TemplateConfig :=
  List.filter
    (fun c => bool_decide (ID <$> template_of c = Some id)) cts.

(** The templates and the map of configurations agree: no identifier
    twice in the list, and the identifiers of the list are the keys of
    the map. *)
Definition grouped (ts : list Template)
    (m : gmap string (list TemplateConfig)) : Prop :=
  NoDup (ID <$> ts) /\ forall id, id ∈ ID <$> ts <-> is_Some (m !! id).

(** The Brain holds values of tracked dependencies only, and every
    tracked dependency sits under its own hash key. *)
Definition tracked_inv (r : Runner) : Prop :=
  keyed (dependencies r) /\ dom (brain r) ⊆ dom (dependencies r).

#[global] Instance tracked_inv_dec (r : Runner) : Decision (tracked_inv r).
Proof. unfold tracked_inv. apply _. Defined.

(** The Runner [Start] ends with, unless the process died. *)
Definition final_state (f : final) : option Runner :=
  match f with
  | Returned r => Some r
  | Blocked r => Some r
  | Died _ => None
  end.

(** The quiescence record the head of the loop installs for a template
    that has none: the first enabled wait of its configurations, else the
    global wait if enabled. *)
Definition quiescence_for `{External} (r : Runner) (t : Template)
    : option quiescence :=
  match template_wait (templateConfigsFor r t) with
  | Some w => Some (newQuiescence (Wait_Min w) (Wait_Max w) t)
  | None =>
      if Wait_Enabled (cfg_Wait (config r))
      then Some (newQuiescence (Wait_Min (cfg_Wait (config r)))
                               (Wait_Max (cfg_Wait (config r))) t)
      else None
  end.

(** The store of render events is well formed: the Runner's map object
    exists, every entry points to a record, and no two entries share a
    record. *)
Definition wf_events (r : Runner) : Prop :=
  is_Some (maps r !! renderEvents r) /\
  map_Forall (fun _ l => is_Some (events r !! l)) (eventsMap r) /\
  NoDup (map_to_list (eventsMap r)).*2.

#[global] Instance wf_events_dec (r : Runner) : Decision (wf_events r).
Proof. unfold wf_events. apply _. Defined.

(** The render event of a template, read through the Runner's own map. *)
Definition event_of (r : Runner) (id : string) : option RenderEvent :=
  read_event r (renderEvents r) id.

(** The events of the dependency-retirement scenario, as [Start] sees
    them, and the Runner it ends with. *)
Definition sw_events : list (Z * Event) :=
  [(1, EvData (dep_A, "on") []); (2, EvData (dep_B, "v") []);
   (3, EvData (dep_A, "off") [])].

Definition sw_final : Runner :=
  match final_state (@Start ex_world 0 sw_events sw_0) with
  | Some r => r
  | None => blank
  end.

(** A world in which the template [bad.tpl] does not evaluate. *)
Definition bad_world : External :=
  {| NewTemplate := fun source _ _ _ => inr (mkTemplate source);
     Execute := fun tmpl brain env =>
       if bool_decide (ID tmpl = "bad.tpl")
       then inl (ErrOther "template: bad.tpl: unexpected EOF")
       else ex_Execute tmpl brain env;
     Render := ex_Render;
     shellwords_Parse := fun cmd => inr [cmd];
     child_New := fun _ _ _ => None;
     child_Start := fun _ => None;
     child_Reload := fun _ => None;
     newClientSet := fun _ => None;
     NewWatcher := fun _ _ => None;
     NewDedupManager := fun _ => None;
     dedup_Start := fun _ => None;
     os_OpenFile := fun _ => None;
     os_Getpid := "4242" |}.

Definition bad_0 : Runner :=
  created (@NewRunner bad_world
             (ex_config [ex_template "a.tpl" "/out/1" "echo x";
                         ex_template "bad.tpl" "/out/2" "echo y"] "")
             false false ∅) blank.

(** The three configurations again, in dry mode. *)
Definition dry_0 : Runner :=
  created (@NewRunner ex_world order_config true false ∅) blank.




(** No template at all, once mode. *)
Definition empty_once : Runner :=
  created (@NewRunner ex_world (ex_config [] "") false true ∅) blank.

(* ===================================================================== *)
(** * Part II: theorems                                                   *)
(* ===================================================================== *)

(** ** Quiescence *)

Example ticks_clamp_example :
  delivery (ticks [0; 40; 80; 120; 160]
              (newQuiescence 50 200 (mkTemplate "t")))
  = Some 200.
Proof. vm_compute. reflexivity. Qed.

Example ticks_stale_example :
  delivery (ticks [0; 180] (newQuiescence 50 200 (mkTemplate "t")))
  = Some 50.
Proof. vm_compute. reflexivity. Qed.

Lemma time_Sub_exact (t u : Z) :
  minDuration <= t - u <= maxDuration -> time_Sub t u = t - u.
Proof.
  intros [Hlo Hhi]. unfold time_Sub.
  destruct (Z.ltb_spec maxDuration (t - u)); [lia|].
  destruct (Z.ltb_spec (t - u) minDuration); [lia|]. reflexivity.
Qed.

Lemma time_Sub_sign (t u : Z) : 0 < time_Sub t u <-> 0 < t - u.
Proof.
  unfold time_Sub, maxDuration, minDuration.
  destruct (Z.ltb_spec (2 ^ 63 - 1) (t - u));
    [|destruct (Z.ltb_spec (t - u) (- 2 ^ 63))]; lia.
Qed.

(** The code's strict comparison and the specification's [<=] describe
    the same tick as soon as [min] is a positive duration. *)
Lemma tick_refines_spec (now : Z) (q : quiescence) :
  0 < q_min q <= maxDuration -> tick now q = tick_spec now q.
Proof.
  intros [Hpos Hmax]. unfold tick, tick_spec, time_Before, time_Add.
  destruct (q_timer q) as [e|]; [|reflexivity].
  destruct (Z.ltb_spec (now + q_min q) (q_deadline q)) as [Hlt|Hge].
  - destruct (Z.leb_spec (now + q_min q) (q_deadline q)); [reflexivity|lia].
  - pose proof (time_Sub_sign (q_deadline q) now) as Hsign.
    destruct (Z.ltb_spec 0 (time_Sub (q_deadline q) now)) as [Hd|Hd].
    + rewrite time_Sub_exact
        by (unfold minDuration, maxDuration in *; lia).
      destruct (Z.leb_spec (now + q_min q) (q_deadline q)) as [Hle|Hgt].
      * f_equal. lia.
      * destruct (Z.ltb_spec 0 (q_deadline q - now)); [|lia].
        f_equal. lia.
    + destruct (Z.leb_spec (now + q_min q) (q_deadline q)) as [Hle|Hgt];
        [lia|].
      destruct (Z.ltb_spec 0 (q_deadline q - now)); [lia|reflexivity].
Qed.

Lemma window_inv_first (min max t0 : Z) (tmpl : Template) :
  min <= max ->
  window_inv min max t0 t0 (tick t0 (fire t0 (newQuiescence min max tmpl))).
Proof.
  intros Hmm. unfold window_inv, tick, fire, newQuiescence, time_Add; simpl.
  repeat split; try lia. exists (t0 + min). split; [reflexivity|lia].
Qed.

Lemma window_inv_step (min max t0 t now : Z) (q : quiescence) :
  0 <= min -> min <= max -> max <= maxDuration -> t <= now ->
  window_inv min max t0 t q ->
  window_inv min max t0 now (tick now (fire now q)).
Proof.
  intros Hmin Hmm Hmax Hle (Hqmin & Hqmax & Hdl & Ht0 & e & Htimer & Hpost).
  unfold fire. rewrite Htimer.
  destruct (q_posted q) as [T|] eqn:Hp.
  - (* the template was already posted: the tick only re-arms the timer *)
    unfold tick, time_Before, time_Add. rewrite Htimer.
    destruct (_ <? q_deadline q); [|destruct (0 <? _)];
      unfold window_inv; simpl; rewrite ?Hp;
      (repeat split; try assumption; try lia); eauto.
  - destruct (Z.leb_spec e now) as [Hfired|Hpending].
    + (* the timer expired before this tick *)
      unfold tick, time_Before, time_Add; simpl.
      destruct (_ <? q_deadline q); [|destruct (0 <? _)];
        unfold window_inv; simpl;
        (repeat split; try assumption; try lia);
        eexists; (split; [reflexivity|]); lia.
    + (* the timer is pending: snooze or clamp *)
      unfold tick, time_Before, time_Add. rewrite Htimer, Hqmin, Hdl.
      destruct (Z.ltb_spec (now + min) (t0 + max)) as [Hs|Hc].
      * unfold window_inv; simpl. rewrite Hp.
        repeat split; try assumption; try lia.
        eexists; split; [reflexivity|lia].
      * rewrite time_Sub_exact
          by (unfold minDuration, maxDuration in *; lia).
        destruct (Z.ltb_spec 0 (t0 + max - now)) as [Hd|Hd]; [|lia].
        unfold window_inv; simpl. rewrite Hp.
        repeat split; try assumption; try lia.
        eexists; split; [reflexivity|lia].
Qed.

Lemma window_inv_ticks (min max t0 : Z) (ts : list Z) :
  0 <= min -> min <= max -> max <= maxDuration ->
  forall t q, sorted_from t ts -> window_inv min max t0 t q ->
  window_inv min max t0 (List.last ts t) (ticks ts q).
Proof.
  intros Hmin Hmm Hmax. induction ts as [|u r IH]; intros t q Hs Hinv.
  - exact Hinv.
  - destruct Hs as [Hle Hs]. simpl.
    replace (match r with [] => u | _ :: _ => List.last r t end)
      with (List.last r u) by (clear; revert u; induction r; simpl; auto;
                               intros; destruct r; auto).
    apply IH; [assumption|]. eapply window_inv_step; eassumption.
Qed.

(** C2 (as stated) fails: with min = 50 and max = 200, ticks at 0, 40,
    80, 120 and 160 keep the timer pending, and the tick at 160 clamps it
    to the deadline 200: the template is delivered 40 after the most
    recent tick, sooner than min. *)
Lemma C2_counterexample :
  let q := ticks [0; 40; 80; 120; 160]
                 (newQuiescence 50 200 (mkTemplate "t")) in
  q_posted (fire 160 q) = None /\
  delivery q = Some 200 /\
  ~ (160 + q_min q <= 200).
Proof. vm_compute. repeat split; try reflexivity. intros H. apply H. reflexivity. Qed.

(** C2 (amended): the first tick arms the timer for min and sets
    deadline = now + max; for a positive min the later ticks are the ones
    the specification describes (snooze to min when now + min <= deadline,
    else clamp to deadline - now when positive, else leave the timer);
    and for ticks at non-decreasing instants the template is delivered no
    sooner than min and no later than max after the first tick, namely,
    while the timer is still pending after the most recent tick, at the
    earlier of (most recent tick + min) and (first tick + max). *)
Theorem C2_quiescence_window
    (tmpl : Template) (min max t0 : Z) (ts : list Z) :
  0 < min -> min <= max -> max <= maxDuration -> sorted_from t0 ts ->
  let q0 := newQuiescence min max tmpl in
  let q := ticks (t0 :: ts) q0 in
  (q_timer (tick t0 q0) = Some (t0 + min) /\
   q_deadline (tick t0 q0) = t0 + max) /\
  (forall now q', q_min q' = min -> tick now q' = tick_spec now q') /\
  exists T, delivery q = Some T /\
    t0 + min <= T <= t0 + max /\
    (q_posted q = None -> T = Z.min (List.last ts t0 + min) (t0 + max)).
Proof.
  intros Hpos Hmm Hmax Hs q0 q. split; [|split].
  - split; reflexivity.
  - intros now q' Hq'. apply tick_refines_spec. lia.
  - assert (window_inv min max t0 (List.last ts t0) q) as Hinv.
    { subst q. simpl. apply window_inv_ticks; try lia; try assumption.
      apply window_inv_first. lia. }
    destruct Hinv as (_ & _ & _ & Hle & e & Htimer & Hpost).
    unfold delivery. rewrite Htimer.
    destruct (q_posted q) as [T|].
    + exists T. split; [reflexivity|]. split; [exact Hpost|discriminate].
    + exists e. split; [reflexivity|]. split; [lia|]. intros _. exact Hpost.
Qed.

Lemma C2_quiescence_window_witness :
  exists T,
    delivery (ticks [0; 40; 80; 120; 160]
                (newQuiescence 50 200 (mkTemplate "t"))) = Some T /\
    0 + 50 <= T <= 0 + 200.
Proof.
  destruct (C2_quiescence_window (mkTemplate "t") 50 200 0 [40; 80; 120; 160])
    as (_ & _ & T & HT & Hb & _).
  - lia.
  - lia.
  - unfold maxDuration. lia.
  - simpl. lia.
  - exists T. split; [exact HT|exact Hb].
Defined.

(** ** Reconciliation of the dependencies *)

Section Proofs.
Context `{External}.

Lemma keyed_empty : keyed ∅.
Proof. intros key d Hl. rewrite lookup_empty in Hl. discriminate. Qed.

Lemma keyed_insert (m : gmap string Dependency) (d : Dependency) :
  keyed m -> keyed (<[HashCode d := d]> m).
Proof.
  intros Hk key d' Hl. destruct (decide (HashCode d = key)) as [<-|Hne].
  - rewrite lookup_insert_eq in Hl. congruence.
  - rewrite lookup_insert_ne in Hl by assumption. eauto.
Qed.

Lemma keyed_insert_inv (m : gmap string Dependency) (i : string)
    (x : Dependency) :
  m !! i = None -> keyed (<[i := x]> m) -> keyed m /\ HashCode x = i.
Proof.
  intros Hi Hk. split.
  - intros key d Hl. apply Hk. rewrite lookup_insert_ne; [assumption|].
    intros ->. congruence.
  - apply Hk. apply lookup_insert_eq.
Qed.

(** The fields the loop of [diffAndUpdateDeps] leaves alone. *)
Lemma retire_fold_frame (dm deps : gmap string Dependency) (r : Runner) :
  let r' := map_fold (retire dm) r deps in
  renderedCh r' = renderedCh r /\ ErrCh r' = ErrCh r /\
  DoneCh r' = DoneCh r /\ events r' = events r /\ maps r' = maps r /\
  renderEvents r' = renderEvents r /\ config r' = config r /\
  once r' = once r /\ dry r' = dry r /\ templates r' = templates r /\
  ctemplatesMap r' = ctemplatesMap r /\ child r' = child r /\
  childLock r' = childLock r /\ spawned r' = spawned r /\
  renders r' = renders r /\ fs r' = fs r /\ dedup r' = dedup r /\
  quiescenceMap r' = quiescenceMap r /\
  w_stopped (watcher r') = w_stopped (watcher r).
Proof.
  cbv zeta. refine (map_fold_weak_ind
    (fun r' (_ : gmap string Dependency) =>
       renderedCh r' = renderedCh r /\ ErrCh r' = ErrCh r /\
       DoneCh r' = DoneCh r /\ events r' = events r /\ maps r' = maps r /\
       renderEvents r' = renderEvents r /\ config r' = config r /\
       once r' = once r /\ dry r' = dry r /\ templates r' = templates r /\
       ctemplatesMap r' = ctemplatesMap r /\ child r' = child r /\
       childLock r' = childLock r /\ spawned r' = spawned r /\
       renders r' = renders r /\ fs r' = fs r /\ dedup r' = dedup r /\
       quiescenceMap r' = quiescenceMap r /\
       w_stopped (watcher r') = w_stopped (watcher r))
    (retire dm) r _ _ deps).
  - repeat split.
  - intros i x m r0 _ IH. unfold retire.
    destruct (dm !! i); [exact IH|]. simpl. exact IH.
Qed.

(** What the loop of [diffAndUpdateDeps] does to the Brain and to the
    watcher, key by key. *)
Lemma retire_fold_lookup (dm deps : gmap string Dependency) (r : Runner) :
  keyed deps ->
  forall k,
    let r' := map_fold (retire dm) r deps in
    let gone := bool_decide (is_Some (deps !! k)) && bool_decide (dm !! k = None) in
    brain r' !! k = (if gone then None else brain r !! k) /\
    views (watcher r') !! k = (if gone then None else views (watcher r) !! k).
Proof.
  intros Hkeyed k. cbv zeta. revert Hkeyed.
  refine (map_fold_weak_ind
    (fun r' (m : gmap string Dependency) =>
       keyed m ->
       brain r' !! k =
         (if bool_decide (is_Some (m !! k)) && bool_decide (dm !! k = None)
          then None else brain r !! k) /\
       views (watcher r') !! k =
         (if bool_decide (is_Some (m !! k)) && bool_decide (dm !! k = None)
          then None else views (watcher r) !! k))
    (retire dm) r _ _ deps).
  - intros _. rewrite lookup_empty.
    rewrite (bool_decide_eq_false_2 (is_Some None)) by (intros [? ?]; discriminate).
    split; reflexivity.
  - intros i x m r0 Hi IH Hk.
    destruct (keyed_insert_inv _ _ _ Hi Hk) as [Hkm Hx].
    specialize (IH Hkm). destruct IH as [IHb IHw].
    unfold retire. destruct (decide (i = k)) as [->|Hne].
    + rewrite lookup_insert_eq.
      rewrite (bool_decide_eq_true_2 (is_Some (Some x))) by eauto.
      rewrite Hi in IHb, IHw.
      rewrite (bool_decide_eq_false_2 (is_Some None)) in IHb, IHw
        by (intros [? ?]; discriminate).
      simpl in IHb, IHw. simpl.
      destruct (dm !! k) eqn:Hdm.
      * rewrite bool_decide_eq_false_2 by discriminate. split; assumption.
      * rewrite bool_decide_eq_true_2 by reflexivity. simpl.
        unfold brain_Forget. rewrite Hx, !lookup_delete_eq. split; reflexivity.
    + rewrite lookup_insert_ne by assumption.
      destruct (dm !! i) eqn:Hdm; [split; assumption|]. simpl.
      unfold brain_Forget. rewrite Hx, !lookup_delete_ne by assumption.
      split; assumption.
Qed.

Lemma diffAndUpdateDeps_dependencies (dm : gmap string Dependency)
    (r : Runner) :
  dependencies (diffAndUpdateDeps dm r) = dm.
Proof. reflexivity. Qed.

Lemma diffAndUpdateDeps_lookup (dm : gmap string Dependency) (r : Runner)
    (k : string) :
  keyed (dependencies r) ->
  let gone := bool_decide (is_Some (dependencies r !! k))
              && bool_decide (dm !! k = None) in
  brain (diffAndUpdateDeps dm r) !! k
    = (if gone then None else brain r !! k) /\
  views (watcher (diffAndUpdateDeps dm r)) !! k
    = (if gone then None else views (watcher r) !! k).
Proof.
  intros Hk. unfold diffAndUpdateDeps. simpl.
  apply (retire_fold_lookup dm (dependencies r) r Hk k).
Qed.

(** After the reconciliation the Brain holds tracked values only, if it
    did so before. *)
Lemma diffAndUpdateDeps_brain_tracked (dm : gmap string Dependency)
    (r : Runner) :
  keyed (dependencies r) ->
  dom (brain r) ⊆ dom (dependencies r) ->
  dom (brain (diffAndUpdateDeps dm r)) ⊆ dom dm.
Proof.
  intros Hk Hsub k Hin. apply elem_of_dom in Hin.
  destruct (diffAndUpdateDeps_lookup dm r k Hk) as [Hb _].
  rewrite Hb in Hin. clear Hb.
  destruct (dm !! k) eqn:Hdm; [apply elem_of_dom; eauto|].
  rewrite (bool_decide_eq_true_2 (None = None)) in Hin by reflexivity.
  rewrite andb_true_r in Hin.
  destruct (bool_decide (is_Some (dependencies r !! k))) eqn:Hd.
  - destruct Hin as [? ?]; discriminate.
  - apply bool_decide_eq_false_1 in Hd. exfalso. apply Hd.
    apply elem_of_dom. apply Hsub. apply elem_of_dom. exact Hin.
Qed.

(** ** The loop over the templates: what it leaves alone *)

Lemma loop_frame_refl (r : Runner) : loop_frame r r.
Proof. repeat split. Qed.

Lemma loop_frame_trans (r1 r2 r3 : Runner) :
  loop_frame r1 r2 -> loop_frame r2 r3 -> loop_frame r1 r3.
Proof.
  unfold loop_frame. intros H12 H23.
  destruct H12 as (?&?&?&?&?&?&?&?&?&?&?&?&?&?).
  destruct H23 as (?&?&?&?&?&?&?&?&?&?&?&?&?&?).
  repeat split; congruence.
Qed.

Lemma markRenderTime_frame (now : Z) (id : string) (b : bool) (r : Runner) :
  loop_frame r (markRenderTime now id b r).
Proof.
  unfold markRenderTime. destruct (eventsMap r !! id); repeat split.
Qed.

Lemma note_render_frame (now : Z) (tmpl : Template) (tc : TemplateConfig)
    (res : RenderResult) (r : Runner) (p : pass) :
  loop_frame r (note_render now tmpl tc res r p).1.
Proof.
  unfold note_render.
  destruct (WouldRender res), (DidRender res); simpl;
    repeat match goal with
           | |- context [if ?b then _ else _] => destruct b; simpl
           end;
    eauto using loop_frame_refl, loop_frame_trans, markRenderTime_frame.
Qed.

Lemma render_configs_frame (now : Z) (tmpl : Template) (output : string)
    (cfgs : list TemplateConfig) :
  forall r p r',
    state_of (render_configs now tmpl output cfgs r p) = Some r' ->
    loop_frame r r'.
Proof.
  induction cfgs as [|tc rest IH]; intros r p r' Hs; simpl in Hs.
  - inversion Hs; subst. apply loop_frame_refl.
  - destruct (Render _ _) as [err|[res fs']].
    + inversion Hs; subst. apply loop_frame_refl.
    + destruct (note_render now tmpl tc res _ p) as [r1 p1] eqn:Hn.
      apply IH in Hs. eapply loop_frame_trans; [|exact Hs].
      pose proof (note_render_frame now tmpl tc res
        (set_renders (renders r ++ [mkRenderCall (ID tmpl) tc res])
                     (set_fs fs' r)) p) as Hf.
      rewrite Hn in Hf. simpl in Hf.
      eapply loop_frame_trans; [|exact Hf]. repeat split.
Qed.

Lemma run_template_frame (now : Z) (tmpl : Template) (r : Runner) (p : pass)
    (r' : Runner) :
  state_of (run_template now tmpl r p) = Some r' -> loop_frame r r'.
Proof.
  unfold run_template. intros Hs.
  destruct (once r && rendered r (ID tmpl)).
  { inversion Hs; subst. apply loop_frame_refl. }
  destruct (Execute tmpl (brain r) (childEnv r)) as [err|result].
  { inversion Hs; subst. apply loop_frame_refl. }
  destruct (collect_used _ _ _ _ _) as [missing deps].
  destruct (0 <? length (unwatched_of (watcher r) missing))%nat.
  { inversion Hs; subst. repeat split. }
  destruct (0 <? length missing)%nat.
  { inversion Hs; subst. apply loop_frame_refl. }
  match type of Hs with
  | context [quiescenceMap ?r1 !! _] =>
      assert (loop_frame r r1) as Hf1
        by (destruct (dedup r); [destruct (isLeader_for r tmpl)|];
            repeat split);
      remember r1 as r1' eqn:Hr1; clear Hr1
  end.
  destruct (quiescenceMap r1' !! ID tmpl).
  { inversion Hs; subst. eapply loop_frame_trans; [exact Hf1|].
    repeat split. }
  eapply loop_frame_trans; [exact Hf1|].
  eapply render_configs_frame. exact Hs.
Qed.

Lemma run_templates_frame (now : Z) (ts : list Template) :
  forall r p r',
    state_of (run_templates now ts r p) = Some r' -> loop_frame r r'.
Proof.
  induction ts as [|tmpl rest IH]; intros r p r' Hs; simpl in Hs.
  - inversion Hs; subst. apply loop_frame_refl.
  - pose proof (run_template_frame now tmpl r p) as Hf.
    destruct (run_template now tmpl r p) as [[r1 p1]|err r1|msg];
      simpl in *.
    + eapply loop_frame_trans; [apply Hf; reflexivity|]. eapply IH, Hs.
    + inversion Hs; subst. apply Hf. reflexivity.
    + discriminate.
Qed.

(** ** Render events *)

Lemma eventsMap_markRenderTime (now : Z) (id : string) (b : bool)
    (r : Runner) :
  exists l, eventsMap (markRenderTime now id b r) = <[id := l]> (eventsMap r)
            /\ (forall l0, eventsMap r !! id = Some l0 -> l = l0).
Proof.
  unfold markRenderTime. destruct (eventsMap r !! id) as [l|] eqn:Hl.
  - exists l. split; [|congruence].
    unfold eventsMap in *. simpl. symmetry. apply insert_id. exact Hl.
  - exists (fresh (dom (events r))). split; [|discriminate].
    unfold eventsMap. simpl. rewrite lookup_insert_eq. reflexivity.
Qed.

Lemma rendered_markRenderTime (now : Z) (id id' : string) (b : bool)
    (r : Runner) :
  rendered (markRenderTime now id b r) id' = true
  <-> rendered r id' = true \/ id' = id.
Proof.
  unfold rendered. rewrite !bool_decide_eq_true.
  destruct (eventsMap_markRenderTime now id b r) as (l & -> & Hl).
  destruct (decide (id = id')) as [->|Hne].
  - rewrite lookup_insert_eq. split; eauto.
  - rewrite lookup_insert_ne by assumption. split; [eauto|].
    intros [?|?]; [assumption|congruence].
Qed.

Lemma rendered_note_render (now : Z) (tmpl : Template) (tc : TemplateConfig)
    (res : RenderResult) (r : Runner) (p : pass) (id : string) :
  rendered (note_render now tmpl tc res r p).1 id = true
  <-> rendered r id = true
      \/ (id = ID tmpl /\ (WouldRender res = true \/ DidRender res = true)).
Proof.
  unfold note_render.
  destruct (WouldRender res), (DidRender res); simpl;
    repeat match goal with
           | |- context [if ?b then _ else _] => destruct b; simpl
           end;
    rewrite ?rendered_markRenderTime; intuition congruence.
Qed.

Lemma rendered_render_configs (now : Z) (tmpl : Template) (output : string)
    (cfgs : list TemplateConfig) :
  forall r p r' id,
    state_of (render_configs now tmpl output cfgs r p) = Some r' ->
    (rendered r id = true -> rendered r' id = true) /\
    (rendered r' id = true -> rendered r id = true \/ id = ID tmpl).
Proof.
  induction cfgs as [|tc rest IH]; intros r p r' id Hs; simpl in Hs.
  - inversion Hs; subst. tauto.
  - destruct (Render _ _) as [err|[res fs']].
    + inversion Hs; subst. tauto.
    + destruct (note_render now tmpl tc res _ p) as [r1 p1] eqn:Hn.
      apply (IH _ _ _ id) in Hs. destruct Hs as [Hmono Hnew].
      pose proof (rendered_note_render now tmpl tc res
        (set_renders (renders r ++ [mkRenderCall (ID tmpl) tc res])
                     (set_fs fs' r)) p id) as Hr.
      rewrite Hn in Hr. simpl in Hr.
      change (rendered (set_renders _ (set_fs fs' r)) id) with (rendered r id)
        in Hr.
      split; intros Hx.
      * apply Hmono, Hr. left. exact Hx.
      * destruct (Hnew Hx) as [Hy|Hy]; [|right; exact Hy].
        apply Hr in Hy. tauto.
Qed.

Lemma rendered_run_template (now : Z) (tmpl : Template) (r : Runner)
    (p : pass) (r' : Runner) (id : string) :
  state_of (run_template now tmpl r p) = Some r' ->
  (rendered r id = true -> rendered r' id = true) /\
  (rendered r' id = true -> rendered r id = true \/ id = ID tmpl).
Proof.
  unfold run_template. intros Hs.
  destruct (once r && rendered r (ID tmpl)).
  { inversion Hs; subst. tauto. }
  destruct (Execute tmpl (brain r) (childEnv r)) as [err|result].
  { inversion Hs; subst. tauto. }
  destruct (collect_used _ _ _ _ _) as [missing deps].
  destruct (0 <? length (unwatched_of (watcher r) missing))%nat.
  { inversion Hs; subst. unfold rendered, eventsMap. simpl. tauto. }
  destruct (0 <? length missing)%nat.
  { inversion Hs; subst. tauto. }
  match type of Hs with
  | context [quiescenceMap ?r1 !! _] =>
      assert (rendered r1 id = rendered r id) as Hf1
        by (destruct (dedup r); [destruct (isLeader_for r tmpl)|];
            reflexivity);
      remember r1 as r1' eqn:Hr1; clear Hr1
  end.
  destruct (quiescenceMap r1' !! ID tmpl).
  { inversion Hs; subst. rewrite <- Hf1. unfold rendered, eventsMap. simpl.
    tauto. }
  rewrite <- Hf1. eapply rendered_render_configs. exact Hs.
Qed.

(** ** The dependency set of a pass *)

Lemma keys_of_app (l1 l2 : list Dependency) :
  keys_of (l1 ++ l2) = keys_of l1 ∪ keys_of l2.
Proof. unfold keys_of. rewrite fmap_app. apply list_to_set_app_L. Qed.

Lemma elem_of_keys_of (k : string) (ds : list Dependency) :
  k ∈ keys_of ds <-> exists d, d ∈ ds /\ HashCode d = k.
Proof.
  unfold keys_of. rewrite elem_of_list_to_set, list_elem_of_fmap.
  split; intros (d & ? & ?); exists d; split; congruence.
Qed.

Lemma union_absorbed (D B X Y : gset string) :
  X ⊆ Y -> Y ⊆ B -> D ∪ B ∪ X = D ∪ (B ∪ Y).
Proof. set_solver. Qed.

Lemma collect_used_spec (lead : bool) (w : Watcher)
    (used : list Dependency) :
  forall missing dm,
    let res := collect_used lead w used missing dm in
    (forall d, d ∈ res.1 <->
       d ∈ missing \/ (d ∈ used /\ lead = true /\ Watching w d = false)) /\
    dom res.2 = dom dm ∪ keys_of used /\
    (keyed dm -> keyed res.2) /\
    (forall k d, dm !! k = Some d -> res.2 !! k = Some d).
Proof.
  induction used as [|d0 rest IH]; intros missing dm; simpl.
  - split; [|split; [|split]].
    + intros d. rewrite elem_of_nil. tauto.
    + unfold keys_of. simpl. set_solver.
    + tauto.
    + tauto.
  - specialize (IH
      (if lead && negb (Watching w d0) then missing ++ [d0] else missing)
      (match dm !! HashCode d0 with
       | Some _ => dm
       | None => <[HashCode d0 := d0]> dm
       end)).
    destruct IH as (IHm & IHd & IHk & IHl).
    split; [|split; [|split]].
    + intros d. rewrite IHm, elem_of_cons.
      destruct lead, (Watching w d0) eqn:Hw; simpl;
        rewrite ?elem_of_app, ?list_elem_of_singleton;
        intuition (subst; try congruence; eauto).
    + rewrite IHd. change (d0 :: rest) with ([d0] ++ rest).
      rewrite keys_of_app. unfold keys_of at 2. simpl.
      destruct (dm !! HashCode d0) eqn:Hd.
      * apply (elem_of_dom_2 dm) in Hd. set_solver.
      * rewrite dom_insert_L. set_solver.
    + intros Hk. apply IHk. destruct (dm !! HashCode d0); [assumption|].
      apply keyed_insert. assumption.
    + intros k d Hl. apply IHl. destruct (dm !! HashCode d0) eqn:Hd;
        [assumption|]. rewrite lookup_insert_ne; [assumption|]. congruence.
Qed.

Lemma note_render_depsMap (now : Z) (tmpl : Template) (tc : TemplateConfig)
    (res : RenderResult) (r : Runner) (p : pass) :
  depsMap (note_render now tmpl tc res r p).2 = depsMap p.
Proof.
  unfold note_render.
  destruct (WouldRender res), (DidRender res); simpl;
    repeat match goal with
           | |- context [if ?b then _ else _] => destruct b; simpl
           end; reflexivity.
Qed.

Lemma render_configs_depsMap (now : Z) (tmpl : Template) (output : string)
    (cfgs : list TemplateConfig) :
  forall r p r' p',
    render_configs now tmpl output cfgs r p = Done (r', p') ->
    depsMap p' = depsMap p.
Proof.
  induction cfgs as [|tc rest IH]; intros r p r' p' Hs; simpl in Hs.
  - inversion Hs; subst. reflexivity.
  - destruct (Render _ _) as [err|[res fs']]; [discriminate|].
    destruct (note_render now tmpl tc res _ p) as [r1 p1] eqn:Hn.
    apply IH in Hs. rewrite Hs.
    pose proof (note_render_depsMap now tmpl tc res
      (set_renders (renders r ++ [mkRenderCall (ID tmpl) tc res])
                   (set_fs fs' r)) p) as Hd.
    rewrite Hn in Hd. exact Hd.
Qed.

Lemma run_template_depsMap (now : Z) (tmpl : Template) (r : Runner)
    (p : pass) (r' : Runner) (p' : pass) :
  run_template now tmpl r p = Done (r', p') ->
  dom (depsMap p') = dom (depsMap p) ∪ keys_of (used_by r tmpl) /\
  (keyed (depsMap p) -> keyed (depsMap p')).
Proof.
  unfold run_template, used_by, evaluated. intros Hs.
  destruct (once r && rendered r (ID tmpl)); simpl.
  { inversion Hs; subst. unfold keys_of. simpl. split; [set_solver|tauto]. }
  destruct (Execute tmpl (brain r) (childEnv r)) as [err|result];
    [discriminate|].
  pose proof (collect_used_spec (isLeader_for r tmpl) (watcher r)
                (Used result) (Missing result) (depsMap p)) as Hc.
  destruct (collect_used _ _ _ _ _) as [missing deps].
  simpl in Hc. destruct Hc as (_ & Hdom & Hkeyed & _).
  destruct (0 <? length (unwatched_of (watcher r) missing))%nat.
  { inversion Hs; subst. simpl. split; assumption. }
  destruct (0 <? length missing)%nat.
  { inversion Hs; subst. simpl. split; assumption. }
  destruct (quiescenceMap _ !! ID tmpl).
  { inversion Hs; subst. simpl. split; assumption. }
  apply render_configs_depsMap in Hs. rewrite Hs. simpl.
  split; assumption.
Qed.

Lemma used_by_frame (r0 r : Runner) (tmpl : Template) :
  loop_frame r0 r ->
  rendered r (ID tmpl) = rendered r0 (ID tmpl) ->
  used_by r tmpl = used_by r0 tmpl.
Proof.
  intros (_&_&Hc&_&Ho&_&_&_&_&_&Hb&_) Hr.
  unfold used_by, evaluated, childEnv. rewrite Hc, Ho, Hb, Hr. reflexivity.
Qed.

Lemma used_by_rendered_later (r0 r : Runner) (tmpl : Template) :
  loop_frame r0 r ->
  rendered r (ID tmpl) = true -> rendered r0 (ID tmpl) = false ->
  keys_of (used_by r tmpl) ⊆ keys_of (used_by r0 tmpl).
Proof.
  intros (_&_&Hc&_&Ho&_&_&_&_&_&Hb&_) Hr Hr0.
  unfold used_by, evaluated, childEnv. rewrite Hc, Ho, Hb, Hr, Hr0.
  destruct (once r0); simpl; [|reflexivity].
  intros k Hk. apply elem_of_keys_of in Hk.
  destruct Hk as (d & Hd & _). apply elem_of_nil in Hd. contradiction.
Qed.

Lemma run_templates_depsMap (now : Z) (r0 : Runner) (D0 : gset string)
    (todo : list Template) :
  forall done r p r' p',
    loop_frame r0 r ->
    (forall id, rendered r0 id = true -> rendered r id = true) ->
    (forall id, rendered r id = true ->
                rendered r0 id = true \/ id ∈ ID <$> done) ->
    dom (depsMap p) = D0 ∪ keys_of (pass_used r0 done) ->
    keyed (depsMap p) ->
    run_templates now todo r p = Done (r', p') ->
    dom (depsMap p') = D0 ∪ keys_of (pass_used r0 (done ++ todo)) /\
    keyed (depsMap p').
Proof.
  induction todo as [|tmpl rest IH];
    intros done r p r' p' Hf Hmono Hnew Hdom Hkeyed Hs; simpl in Hs.
  - inversion Hs; subst. rewrite app_nil_r. split; assumption.
  - destruct (run_template now tmpl r p) as [[r1 p1]|err r1|msg] eqn:Ht;
      try discriminate.
    destruct (run_template_depsMap _ _ _ _ _ _ Ht) as [Hd1 Hk1].
    assert (state_of (run_template now tmpl r p) = Some r1) as Hst
      by (rewrite Ht; reflexivity).
    pose proof (run_template_frame _ _ _ _ _ Hst) as Hf1.
    replace (done ++ tmpl :: rest) with ((done ++ [tmpl]) ++ rest)
      by (rewrite <- app_assoc; reflexivity).
    apply (IH (done ++ [tmpl]) r1 p1 r' p').
    + eapply loop_frame_trans; eassumption.
    + intros id Hid.
      apply (proj1 (rendered_run_template _ _ _ _ _ id Hst)). auto.
    + intros id Hid.
      destruct (proj2 (rendered_run_template _ _ _ _ _ id Hst) Hid)
        as [Hx| ->].
      * destruct (Hnew id Hx) as [?|Hin]; [left; assumption|].
        right. rewrite fmap_app. apply elem_of_app. left. exact Hin.
      * right. rewrite fmap_app. apply elem_of_app. right.
        simpl. apply list_elem_of_singleton. reflexivity.
    + rewrite Hd1, Hdom. unfold pass_used. rewrite flat_map_app.
      simpl. rewrite app_nil_r, keys_of_app.
      fold (pass_used r0 done).
      assert (rendered r (ID tmpl) = rendered r0 (ID tmpl)
              \/ (rendered r (ID tmpl) = true
                  /\ rendered r0 (ID tmpl) = false)) as [Heq|[Hr Hr0]].
      { destruct (rendered r (ID tmpl)) eqn:Hr,
                 (rendered r0 (ID tmpl)) eqn:Hr0; auto.
        apply Hmono in Hr0. congruence. }
      * rewrite (used_by_frame r0 r tmpl Hf Heq).
        symmetry. apply (assoc_L (∪)).
      * (* an identical template of this pass was rendered before *)
        destruct (Hnew _ Hr) as [?|Hin]; [congruence|].
        apply list_elem_of_fmap in Hin. destruct Hin as (t' & Hid & Hin).
        assert (t' = tmpl) as -> by (destruct t', tmpl; simpl in *; congruence).
        assert (keys_of (used_by r0 tmpl) ⊆ keys_of (pass_used r0 done))
          as Hsub.
        { intros k Hk. apply elem_of_keys_of in Hk.
          destruct Hk as (d & Hd & Hkd). apply elem_of_keys_of.
          exists d. split; [|assumption]. unfold pass_used.
          apply list_elem_of_In, in_flat_map. exists tmpl.
          split; apply list_elem_of_In; assumption. }
        apply union_absorbed; [|exact Hsub].
        exact (used_by_rendered_later r0 r tmpl Hf Hr Hr0).
    + apply Hk1. assumption.
    + exact Hs.
Qed.

(** ** The end of a pass *)

Lemma tail_frame_refl (r : Runner) : tail_frame r r.
Proof. repeat split. Qed.

Lemma tail_frame_trans (r1 r2 r3 : Runner) :
  tail_frame r1 r2 -> tail_frame r2 r3 -> tail_frame r1 r3.
Proof.
  unfold tail_frame. intros H12 H23.
  destruct H12 as (?&?&?&?&?&?&?&?&?&?&?&?&?&?&?&?&?&?).
  destruct H23 as (?&?&?&?&?&?&?&?&?&?&?&?&?&?&?&?&?&?).
  repeat split; congruence.
Qed.

Lemma spawnChild_frame (i : spawnChildInput) (r r' : Runner)
    (res : error + Child) :
  spawnChild i r = Ok (r', res) ->
  tail_frame r r' /\ spawned r' = spawned r ++ [i] /\
  child r' = child r /\ childLock r' = childLock r.
Proof.
  unfold spawnChild. intros Hs.
  destruct (shellwords_Parse (sp_Command i)) as [err|[|cmd args]];
    [| discriminate |].
  - inversion Hs; subst. repeat split.
  - destruct (child_New cmd args i); [inversion Hs; subst; repeat split|].
    destruct (child_Start _); inversion Hs; subst; repeat split.
Qed.

Lemma exec_commands_frame (cmds : list TemplateConfig) :
  forall r errs r' errs',
    exec_commands cmds r errs = Ok (r', errs') ->
    tail_frame r r' /\ child r' = child r /\ childLock r' = childLock r.
Proof.
  induction cmds as [|t rest IH]; intros r errs r' errs' He; simpl in He.
  - inversion He; subst. repeat split.
  - destruct (spawnChild _ r) as [[r1 res]|msg] eqn:Hs; [|discriminate].
    simpl in He. apply spawnChild_frame in Hs.
    destruct Hs as (Hf & _ & Hc & Hl).
    apply IH in He. destruct He as (Hf' & Hc' & Hl').
    split; [eapply tail_frame_trans; eassumption|]. split; congruence.
Qed.

Lemma reload_child_frame (b : bool) (r : Runner) (errs : list error)
    (r' : Runner) (errs' : list error) :
  reload_child b r errs = Ok (r', errs') -> tail_frame r r'.
Proof.
  unfold reload_child. intros Hr.
  destruct (child r) as [c|]; [|inversion Hr; subst; apply tail_frame_refl].
  destruct b; [|inversion Hr; subst; apply tail_frame_refl].
  destruct (mutex_RLock (childLock r)) as [l1|]; [|discriminate].
  simpl in Hr.
  destruct (mutex_RUnlock l1) as [l2|]; [|discriminate].
  inversion Hr; subst. repeat split.
Qed.

(** The Runner [Run] leaves behind once the loop over the templates is
    through: the reconciled one, up to the processes. *)
Lemma finish_pass_state (r : Runner) (p : pass) (r' : Runner) :
  final_runner (finish_pass r p) = Some r' ->
  tail_frame
    (diffAndUpdateDeps (depsMap p)
       (if wouldRenderAny p || renderedAny p then signal_rendered r else r))
    r'.
Proof.
  unfold finish_pass.
  set (r2 := diffAndUpdateDeps _ _). clearbody r2. intros Hf.
  destruct (exec_commands (commands p) r2 []) as [[r3 errs]|msg] eqn:He;
    simpl in Hf; [|discriminate].
  apply exec_commands_frame in He. destruct He as (Hf1 & _ & _).
  destruct (reload_child (renderedAny p) r3 errs) as [[r4 errs']|msg] eqn:Hr;
    [|discriminate].
  apply reload_child_frame in Hr.
  assert (r' = r4) as -> by (destruct errs'; simpl in Hf; congruence).
  eapply tail_frame_trans; eassumption.
Qed.

(** The Runner at the end of a pass whose loop over the templates went
    through. *)
Lemma pass_reconciles
    (now : Z) (r r1 : Runner) (p : pass) (r' : Runner) :
  keyed (dependencies r) ->
  dom (brain r) ⊆ dom (dependencies r) ->
  run_templates now (templates r) r new_pass = Done (r1, p) ->
  final_runner (Run now r) = Some r' ->
  dependencies r' = depsMap p /\
  dom (depsMap p) = keys_of (pass_used r (templates r)) /\
  keyed (dependencies r') /\
  (forall k, k ∈ dom (dependencies r) -> k ∉ dom (depsMap p) ->
             views (watcher r') !! k = None /\ brain r' !! k = None) /\
  dom (brain r') ⊆ dom (dependencies r').
Proof.
  intros Hkeyed Hsub Hloop Hrun. unfold Run in Hrun. rewrite Hloop in Hrun.
  apply finish_pass_state in Hrun.
  assert (state_of (run_templates now (templates r) r new_pass) = Some r1)
    as Hst by (rewrite Hloop; reflexivity).
  apply run_templates_frame in Hst.
  destruct Hst as (_&_&_&_&_&_&_&_&_&Hdeps&Hbrain&_).
  set (r2 := if wouldRenderAny p || renderedAny p
             then signal_rendered r1 else r1) in *.
  assert (dependencies r2 = dependencies r /\ brain r2 = brain r)
    as [Hdeps2 Hbrain2].
  { subst r2. unfold signal_rendered.
    destruct (_ || _); [destruct (_ <? _)%nat|]; simpl; split; assumption. }
  destruct Hrun as (_&_&_&_&_&_&_&_&_&Hd'&Hw'&Hb'&_).
  destruct (run_templates_depsMap now r ∅ (templates r) [] r new_pass r1 p)
    as [Hdom Hk'].
  { apply loop_frame_refl. }
  { auto. }
  { auto. }
  { unfold pass_used, keys_of. simpl. set_solver. }
  { apply map_Forall_empty. }
  { exact Hloop. }
  rewrite Hd', Hw', Hb', diffAndUpdateDeps_dependencies.
  split; [reflexivity|]. split; [rewrite Hdom; set_solver|].
  split; [exact Hk'|]. split.
  - intros k Hin Hnot.
    destruct (diffAndUpdateDeps_lookup (depsMap p) r2 k) as [Hb Hw].
    { rewrite Hdeps2. exact Hkeyed. }
    rewrite Hb, Hw, Hdeps2.
    rewrite bool_decide_eq_true_2 by (apply elem_of_dom; exact Hin).
    rewrite bool_decide_eq_true_2 by (apply not_elem_of_dom; exact Hnot).
    split; reflexivity.
  - apply diffAndUpdateDeps_brain_tracked.
    + rewrite Hdeps2. exact Hkeyed.
    + rewrite Hdeps2, Hbrain2. exact Hsub.
Qed.

(** C3: when the loop over the templates of a pass is through, [Run]
    replaces the tracked dependency set by the pass-local map, whose keys
    are the hash keys of all the dependencies the pass used; every
    dependency tracked before and absent from that map is then neither
    watched nor held by the Brain; and the Brain, which held tracked
    values only, holds nothing outside the new set. *)
Theorem C3_tracked_set_reconciled
    (now : Z) (r r1 : Runner) (p : pass) (r' : Runner) :
  keyed (dependencies r) ->
  dom (brain r) ⊆ dom (dependencies r) ->
  run_templates now (templates r) r new_pass = Done (r1, p) ->
  final_runner (Run now r) = Some r' ->
  dependencies r' = depsMap p /\
  dom (depsMap p) = keys_of (pass_used r (templates r)) /\
  keyed (dependencies r') /\
  (forall k, k ∈ dom (dependencies r) -> k ∉ dom (depsMap p) ->
             views (watcher r') !! k = None /\ brain r' !! k = None) /\
  dom (brain r') ⊆ dom (dependencies r').
Proof. apply pass_reconciles. Qed.

(** ** Receiving data *)

Lemma Receive_untracked (d : Dependency) (data : Data) (r : Runner) :
  dependencies r !! HashCode d = None -> Receive d data r = r.
Proof. unfold Receive. intros ->. reflexivity. Qed.

Lemma Receive_tracked (d : Dependency) (data : Data) (r : Runner) :
  is_Some (dependencies r !! HashCode d) ->
  Receive d data r = set_brain (<[HashCode d := data]> (brain r)) r.
Proof. unfold Receive. intros [x ->]. reflexivity. Qed.

Lemma Receive_inv (d : Dependency) (data : Data) (r : Runner) :
  dependencies (Receive d data r) = dependencies r /\
  (dom (brain r) ⊆ dom (dependencies r) ->
   dom (brain (Receive d data r)) ⊆ dom (dependencies r)).
Proof.
  unfold Receive. destruct (dependencies r !! HashCode d) as [x|] eqn:Hd.
  - simpl. split; [reflexivity|]. intros Hsub. unfold brain_Remember.
    rewrite dom_insert_L. apply (elem_of_dom_2 (dependencies r)) in Hd.
    set_solver.
  - split; [reflexivity|tauto].
Qed.

Lemma receive_all_inv (views : list (Dependency * Data)) :
  forall r,
    dependencies (receive_all views r) = dependencies r /\
    (dom (brain r) ⊆ dom (dependencies r) ->
     dom (brain (receive_all views r)) ⊆ dom (dependencies r)).
Proof.
  induction views as [|[d data] rest IH]; intros r; simpl.
  - split; [reflexivity|tauto].
  - destruct (Receive_inv d data r) as [Hd Hb].
    destruct (IH (Receive d data r)) as [Hd' Hb'].
    rewrite Hd in Hd', Hb'. split; [exact Hd'|]. intros Hsub.
    apply Hb', Hb, Hsub.
Qed.

(** C10: [Receive] stores the value exactly when the hash key of the
    dependency is tracked, and otherwise leaves the Runner, Brain
    included, as it is; hence after a pass that retired a dependency, no
    sequence of buffered updates brings a value for it back into the
    Brain. *)
Theorem C10_receive_only_tracked
    (d : Dependency) (data : Data) (now : Z) (r r1 : Runner) (p : pass)
    (r' : Runner) (buffered : list (Dependency * Data)) :
  keyed (dependencies r) ->
  dom (brain r) ⊆ dom (dependencies r) ->
  (is_Some (dependencies r !! HashCode d) ->
   brain (Receive d data r) = <[HashCode d := data]> (brain r)) /\
  (dependencies r !! HashCode d = None -> Receive d data r = r) /\
  (run_templates now (templates r) r new_pass = Done (r1, p) ->
   final_runner (Run now r) = Some r' ->
   HashCode d ∉ dom (depsMap p) ->
   Receive d data r' = r' /\
   brain (receive_all buffered r') !! HashCode d = None).
Proof.
  intros Hkeyed Hsub. split; [|split].
  - intros Ht. rewrite Receive_tracked by assumption. reflexivity.
  - apply Receive_untracked.
  - intros Hloop Hrun Hnot.
    destruct (pass_reconciles now r r1 p r' Hkeyed Hsub Hloop Hrun)
      as (Hdeps & _ & _ & _ & Hb).
    split.
    + apply Receive_untracked. rewrite Hdeps.
      apply not_elem_of_dom. exact Hnot.
    + destruct (receive_all_inv buffered r') as [_ Hall].
      apply not_elem_of_dom. intros Hin. apply Hall in Hin; [|exact Hb].
      rewrite Hdeps in Hin. contradiction.
Qed.

(** ** Render calls, flags and commands of a pass *)

Lemma accumulate_app (dry : bool) (calls1 calls2 : list RenderCall) :
  forall cmds,
    accumulate dry cmds (calls1 ++ calls2)
    = accumulate dry (accumulate dry cmds calls1) calls2.
Proof. induction calls1 as [|c rest IH]; intros cmds; simpl; auto. Qed.

Lemma note_render_spec (now : Z) (tmpl : Template) (tc : TemplateConfig)
    (res : RenderResult) (r : Runner) (p : pass) :
  let p' := (note_render now tmpl tc res r p).2 in
  wouldRenderAny p' = wouldRenderAny p || WouldRender res /\
  renderedAny p' = renderedAny p || DidRender res /\
  commands p' = accumulate (dry r) (commands p)
                  [mkRenderCall (ID tmpl) tc res] /\
  renders (note_render now tmpl tc res r p).1 = renders r /\
  fs (note_render now tmpl tc res r p).1 = fs r.
Proof.
  unfold note_render, command_of. simpl.
  assert (forall now id b r0, dry (markRenderTime now id b r0) = dry r0
          /\ renders (markRenderTime now id b r0) = renders r0
          /\ fs (markRenderTime now id b r0) = fs r0) as Hm.
  { intros. unfold markRenderTime. destruct (eventsMap _ !! _);
      repeat split. }
  destruct (WouldRender res), (DidRender res); simpl;
    rewrite ?(proj1 (Hm _ _ _ _)), ?(proj1 (proj2 (Hm _ _ _ _))),
            ?(proj2 (proj2 (Hm _ _ _ _)));
    destruct (dry r); simpl;
    rewrite ?orb_true_r, ?orb_false_r;
    try destruct (bool_decide _ && negb _); simpl;
    rewrite ?(proj1 (Hm _ _ _ _)), ?(proj1 (proj2 (Hm _ _ _ _))),
            ?(proj2 (proj2 (Hm _ _ _ _)));
    repeat split; reflexivity.
Qed.

Lemma render_configs_spec (now : Z) (tmpl : Template) (output : string)
    (cfgs : list TemplateConfig) :
  forall r p r' p',
    render_configs now tmpl output cfgs r p = Done (r', p') ->
    exists new,
      renders r' = renders r ++ new /\
      rc_config <$> new = cfgs /\
      wouldRenderAny p' = wouldRenderAny p || any_would new /\
      renderedAny p' = renderedAny p || any_did new /\
      commands p' = accumulate (dry r) (commands p) new.
Proof.
  induction cfgs as [|tc rest IH]; intros r p r' p' Hs; simpl in Hs.
  - inversion Hs; subst. exists []. rewrite app_nil_r. simpl.
    rewrite !orb_false_r. repeat split.
  - destruct (Render _ _) as [err|[res fs']]; [discriminate|].
    set (r0 := set_renders _ _) in Hs.
    pose proof (note_render_spec now tmpl tc res r0 p) as Hn.
    pose proof (note_render_frame now tmpl tc res r0 p) as Hf.
    destruct (note_render now tmpl tc res r0 p) as [r1 p1].
    simpl in Hn, Hf. destruct Hn as (Hw & Hd & Hc & Hr & _).
    destruct Hf as (_&_&_&Hdry&_).
    apply IH in Hs. destruct Hs as (new & Hrn & Hcfg & Hw' & Hd' & Hc').
    exists (mkRenderCall (ID tmpl) tc res :: new).
    split; [|split; [|split; [|split]]].
    + rewrite Hrn, Hr. subst r0. simpl. rewrite <- app_assoc. reflexivity.
    + rewrite fmap_cons, Hcfg. reflexivity.
    + rewrite Hw', Hw. simpl. rewrite orb_assoc. reflexivity.
    + rewrite Hd', Hd. simpl. rewrite orb_assoc. reflexivity.
    + rewrite Hc', Hdry, Hc. reflexivity.
Qed.

Lemma run_template_spec (now : Z) (tmpl : Template) (r : Runner) (p : pass)
    (r' : Runner) (p' : pass) :
  run_template now tmpl r p = Done (r', p') ->
  exists new,
    renders r' = renders r ++ new /\
    wouldRenderAny p' = wouldRenderAny p || any_would new /\
    renderedAny p' = renderedAny p || any_did new /\
    commands p' = accumulate (dry r) (commands p) new.
Proof.
  unfold run_template. intros Hs.
  assert (exists new : list RenderCall,
            renders r = renders r ++ new /\
            wouldRenderAny p = wouldRenderAny p || any_would new /\
            renderedAny p = renderedAny p || any_did new /\
            commands p = accumulate (dry r) (commands p) new) as Hskip.
  { exists []. rewrite app_nil_r. simpl. rewrite !orb_false_r.
    repeat split. }
  destruct (once r && rendered r (ID tmpl)).
  { inversion Hs; subst. exact Hskip. }
  destruct (Execute tmpl (brain r) (childEnv r)) as [err|result];
    [discriminate|].
  destruct (collect_used _ _ _ _ _) as [missing deps].
  destruct (0 <? length (unwatched_of (watcher r) missing))%nat.
  { inversion Hs; subst. exact Hskip. }
  destruct (0 <? length missing)%nat.
  { inversion Hs; subst. exact Hskip. }
  match type of Hs with
  | context [quiescenceMap ?r1 !! _] =>
      assert (renders r1 = renders r /\ dry r1 = dry r) as [Hr1 Hd1]
        by (destruct (dedup r); [destruct (isLeader_for r tmpl)|];
            split; reflexivity);
      remember r1 as r1' eqn:Hr1'; clear Hr1'
  end.
  destruct (quiescenceMap r1' !! ID tmpl).
  { inversion Hs; subst. simpl. rewrite Hr1. exact Hskip. }
  apply render_configs_spec in Hs.
  destruct Hs as (new & Hrn & _ & Hw & Hd & Hc).
  exists new. rewrite Hrn, Hr1, Hw, Hd, Hc, Hd1. repeat split.
Qed.

Lemma run_templates_spec (now : Z) (ts : list Template) :
  forall r p r' p',
    run_templates now ts r p = Done (r', p') ->
    exists new,
      renders r' = renders r ++ new /\
      wouldRenderAny p' = wouldRenderAny p || any_would new /\
      renderedAny p' = renderedAny p || any_did new /\
      commands p' = accumulate (dry r) (commands p) new.
Proof.
  induction ts as [|tmpl rest IH]; intros r p r' p' Hs; simpl in Hs.
  - inversion Hs; subst. exists []. rewrite app_nil_r. simpl.
    rewrite !orb_false_r. repeat split.
  - destruct (run_template now tmpl r p) as [[r1 p1]|err r1|msg] eqn:Ht;
      try discriminate.
    assert (state_of (run_template now tmpl r p) = Some r1) as Hst
      by (rewrite Ht; reflexivity).
    apply run_template_frame in Hst. destruct Hst as (_&_&_&Hdry&_).
    apply run_template_spec in Ht.
    destruct Ht as (new1 & Hr1 & Hw1 & Hd1 & Hc1).
    apply IH in Hs. destruct Hs as (new2 & Hr2 & Hw2 & Hd2 & Hc2).
    exists (new1 ++ new2).
    rewrite Hr2, Hr1, Hw2, Hd2, Hw1, Hd1, Hc2, Hc1, Hdry, accumulate_app.
    unfold any_would, any_did. rewrite !existsb_app, !orb_assoc, app_assoc.
    repeat split.
Qed.

(** ** The rendered channel *)

Lemma init_renderedCh (cfg : Config) (dry once : bool)
    (disk : gmap string string) (r : Runner) :
  init cfg dry once disk = inr r -> renderedCh r = mkChan 1 0.
Proof.
  unfold init. intros Hi.
  destruct (newClientSet cfg); [discriminate|].
  destruct (NewWatcher cfg once); [discriminate|].
  destruct (init_templates _ _ _) as [err|[ts m]]; [discriminate|].
  destruct (Dedup_Enabled cfg); [destruct once|];
    try destruct (NewDedupManager cfg); inversion Hi; reflexivity.
Qed.

Lemma signal_rendered_full (r : Runner) :
  ch_cap (renderedCh r) = 1%nat -> (ch_len (renderedCh r) <= 1)%nat ->
  renderedCh (signal_rendered r) = mkChan 1 1.
Proof.
  intros Hcap Hlen. unfold signal_rendered. cbv zeta. rewrite Hcap.
  destruct (ch_len (renderedCh r)) as [|[|n]] eqn:Hl; simpl.
  - reflexivity.
  - destruct (renderedCh r); simpl in *; subst; reflexivity.
  - lia.
Qed.

(** The channel at the end of a pass whose loop over the templates went
    through. *)
Lemma finish_pass_renderedCh (r : Runner) (p : pass) (r' : Runner) :
  final_runner (finish_pass r p) = Some r' ->
  renderedCh r' =
    renderedCh (if wouldRenderAny p || renderedAny p
                then signal_rendered r else r).
Proof.
  intros Hf. apply finish_pass_state in Hf.
  destruct Hf as (_&_&_&_&_&_&_&_&Hch&_). rewrite Hch.
  unfold diffAndUpdateDeps. simpl.
  apply (retire_fold_frame (depsMap p)).
Qed.

(** C8: the rendered channel is created with capacity one; a pass whose
    loop over the templates goes through ends with exactly one buffered
    notification if one of its render calls reported WouldRender or
    DidRender, and leaves the channel as it was otherwise; so the channel
    never buffers more than one notification, however many passes signal
    between two reads of the consumer. *)
Theorem C8_rendered_channel_coalesces (now : Z) (r : Runner) :
  ch_cap (renderedCh r) = 1%nat -> (ch_len (renderedCh r) <= 1)%nat ->
  (forall cfg dry once disk r0,
     init cfg dry once disk = inr r0 -> renderedCh r0 = mkChan 1 0) /\
  (forall r', final_runner (Run now r) = Some r' ->
     ch_cap (renderedCh r') = 1%nat /\ (ch_len (renderedCh r') <= 1)%nat) /\
  (forall r', receive_rendered r = Some r' ->
     ch_cap (renderedCh r') = 1%nat /\ ch_len (renderedCh r') = 0%nat) /\
  (forall r1 p r',
     run_templates now (templates r) r new_pass = Done (r1, p) ->
     final_runner (Run now r) = Some r' ->
     exists new,
       renders r1 = renders r ++ new /\
       ch_len (renderedCh r') =
         if any_would new || any_did new then 1%nat
         else ch_len (renderedCh r)).
Proof.
  intros Hcap Hlen.
  assert (forall r1 p r',
     run_templates now (templates r) r new_pass = Done (r1, p) ->
     final_runner (Run now r) = Some r' ->
     exists new,
       renders r1 = renders r ++ new /\
       renderedCh r' =
         if any_would new || any_did new then mkChan 1 1
         else renderedCh r) as Hexact.
  { intros r1 p r' Hloop Hrun. unfold Run in Hrun. rewrite Hloop in Hrun.
    apply finish_pass_renderedCh in Hrun.
    assert (state_of (run_templates now (templates r) r new_pass) = Some r1)
      as Hst by (rewrite Hloop; reflexivity).
    apply run_templates_frame in Hst.
    destruct Hst as (_&_&_&_&_&_&_&_&Hch&_).
    apply run_templates_spec in Hloop.
    destruct Hloop as (new & Hr & Hw & Hd & _). simpl in Hw, Hd.
    exists new. split; [exact Hr|]. rewrite Hrun, Hw, Hd.
    destruct (any_would new || any_did new); [|exact Hch].
    apply signal_rendered_full; rewrite Hch; assumption. }
  split; [exact init_renderedCh|]. split; [|split].
  - intros r' Hrun.
    destruct (run_templates now (templates r) r new_pass)
      as [[r1 p]|err r1|msg] eqn:Hloop.
    + destruct (Hexact r1 p r' eq_refl Hrun) as (new & _ & Hch).
      rewrite Hch. destruct (_ || _); simpl; auto.
    + unfold Run in Hrun. rewrite Hloop in Hrun. simpl in Hrun.
      inversion Hrun; subst r'.
      assert (state_of (run_templates now (templates r) r new_pass)
              = Some r1) as Hst by (rewrite Hloop; reflexivity).
      apply run_templates_frame in Hst.
      destruct Hst as (_&_&_&_&_&_&_&_&Hch&_). rewrite Hch. auto.
    + unfold Run in Hrun. rewrite Hloop in Hrun. discriminate.
  - intros r' Hrecv. unfold receive_rendered in Hrecv.
    destruct (ch_len (renderedCh r)) as [|n] eqn:Hn; [discriminate|].
    inversion Hrecv; subst r'. simpl. split; [exact Hcap|lia].
  - intros r1 p r' Hloop Hrun.
    destruct (Hexact r1 p r' Hloop Hrun) as (new & Hr & Hch).
    exists new. split; [exact Hr|]. rewrite Hch.
    destruct (_ || _); reflexivity.
Qed.

(** ** Unwatched dependencies *)

Lemma unwatched_of_spec (w : Watcher) (missing : list Dependency)
    (d : Dependency) :
  d ∈ unwatched_of w missing <-> d ∈ missing /\ Watching w d = false.
Proof.
  induction missing as [|d0 rest IH]; simpl.
  - rewrite elem_of_nil. tauto.
  - destruct (Watching w d0) eqn:Hw; simpl;
      rewrite ?elem_of_cons, IH; intuition (subst; congruence).
Qed.

Lemma Watching_spec (w : Watcher) (d : Dependency) :
  Watching w d = true <-> is_Some (views w !! HashCode d).
Proof. unfold Watching. apply bool_decide_eq_true. Qed.

Lemma watcher_Add_spec (d : Dependency) (w : Watcher) (k : string) :
  is_Some (views (watcher_Add d w) !! k)
  <-> is_Some (views w !! k) \/ HashCode d = k.
Proof.
  unfold watcher_Add. destruct (Watching w d) eqn:Hw.
  - apply Watching_spec in Hw. split; [tauto|].
    intros [?| <-]; assumption.
  - simpl. destruct (decide (HashCode d = k)) as [<-|Hne].
    + rewrite lookup_insert_eq. split; eauto.
    + rewrite lookup_insert_ne by assumption. tauto.
Qed.

Lemma subscribe_spec (lead : bool) (unwatched : list Dependency) :
  forall w k,
    is_Some (views (subscribe lead unwatched w) !! k)
    <-> is_Some (views w !! k)
        \/ exists d, d ∈ unwatched /\ HashCode d = k
                     /\ (lead = true \/ CanShare d = false).
Proof.
  induction unwatched as [|d0 rest IH]; intros w k; simpl.
  - split; [tauto|]. intros [?|(d & Hd & _)]; [assumption|].
    apply elem_of_nil in Hd. contradiction.
  - rewrite IH. clear IH.
    assert (lead || negb (CanShare d0) = true
            <-> lead = true \/ CanShare d0 = false) as Hcond
      by (destruct lead, (CanShare d0); simpl; intuition congruence).
    destruct (lead || negb (CanShare d0)).
    + rewrite watcher_Add_spec. split.
      * intros [[?|Hk]|(d & Hd & Hk & Hc)]; [tauto| |].
        -- right. exists d0. split; [apply elem_of_cons; tauto|].
           split; [assumption|]. apply Hcond. reflexivity.
        -- right. exists d. split; [apply elem_of_cons; tauto|]. tauto.
      * intros [?|(d & Hd & Hk & Hc)]; [tauto|].
        apply elem_of_cons in Hd. destruct Hd as [->|Hd]; [tauto|].
        right. exists d. tauto.
    + split.
      * intros [?|(d & Hd & Hk & Hc)]; [tauto|].
        right. exists d. split; [apply elem_of_cons; tauto|]. tauto.
      * intros [?|(d & Hd & Hk & Hc)]; [tauto|].
        apply elem_of_cons in Hd. destruct Hd as [->|Hd].
        -- apply Hcond in Hc. discriminate.
        -- right. exists d. tauto.
Qed.

(** C1 (amended): in a render pass, for a template that is evaluated,
    missing is the evaluator's missing list augmented, when this agent is
    leader, with the used dependencies the watcher is not subscribed to;
    unwatched is the part of missing the watcher is not subscribed to;
    the Runner subscribes an unwatched dependency if and only if this
    agent is leader or the dependency cannot be shared; and the template
    is skipped for the rest of the pass (no render, no render event, no
    command accumulation) whenever unwatched is non-empty, whether or not
    a dependency was added. *)
Theorem C1_unwatched_subscribed_then_skipped
    (now : Z) (tmpl : Template) (r : Runner) (p : pass)
    (result : ExecuteResult) :
  once r && rendered r (ID tmpl) = false ->
  Execute tmpl (brain r) (childEnv r) = inr result ->
  let isLeader := isLeader_for r tmpl in
  let missing :=
    (collect_used isLeader (watcher r) (Used result) (Missing result)
                  (depsMap p)).1 in
  let unwatched := unwatched_of (watcher r) missing in
  (forall d, d ∈ missing <->
     d ∈ Missing result
     \/ (d ∈ Used result /\ isLeader = true
         /\ Watching (watcher r) d = false)) /\
  (forall d, d ∈ unwatched <->
     d ∈ missing /\ Watching (watcher r) d = false) /\
  (unwatched <> [] ->
   exists r' p',
     run_template now tmpl r p = Done (r', p') /\
     (forall d, d ∈ unwatched ->
        (Watching (watcher r') d = true <->
         exists d', d' ∈ unwatched /\ HashCode d' = HashCode d
                    /\ (isLeader = true \/ CanShare d' = false))) /\
     (forall k, is_Some (views (watcher r') !! k) ->
        is_Some (views (watcher r) !! k)
        \/ exists d, d ∈ unwatched /\ HashCode d = k) /\
     renders r' = renders r /\ fs r' = fs r /\
     events r' = events r /\ maps r' = maps r /\
     quiescenceMap r' = quiescenceMap r /\
     commands p' = commands p /\
     wouldRenderAny p' = wouldRenderAny p /\
     renderedAny p' = renderedAny p).
Proof.
  intros Honce Hexec. cbv zeta.
  pose proof (collect_used_spec (isLeader_for r tmpl) (watcher r)
                (Used result) (Missing result) (depsMap p)) as Hc.
  cbv zeta in Hc. destruct Hc as (Hmiss & _).
  split; [exact Hmiss|]. split; [intros d; apply unwatched_of_spec|].
  intros Hne. unfold run_template. rewrite Honce, Hexec.
  destruct (collect_used (isLeader_for r tmpl) (watcher r) (Used result)
              (Missing result) (depsMap p)) as [missing deps].
  simpl in Hne |- *.
  assert ((0 <? length (unwatched_of (watcher r) missing))%nat = true)
    as Hlen by (destruct (unwatched_of (watcher r) missing);
                [congruence|reflexivity]).
  rewrite Hlen. eexists. eexists. split; [reflexivity|]. simpl.
  split; [|split; [|repeat split]].
  - intros d Hd. rewrite Watching_spec, subscribe_spec.
    apply unwatched_of_spec in Hd. destruct Hd as [_ Hw].
    split; [|intros Hx; right; exact Hx]. intros [Hx|Hx]; [|exact Hx].
    apply Watching_spec in Hx. congruence.
  - intros k Hk. apply subscribe_spec in Hk.
    destruct Hk as [?|(d & Hd & Hk & _)]; [tauto|]. right. eauto.
Qed.

(** ** Snapshots of the render events *)

Lemma map_fold_copy (m : gmap string loc) :
  map_fold (fun k v (acc : gmap string loc) => <[k := v]> acc) ∅ m = m.
Proof.
  refine (map_fold_weak_ind (fun acc (m0 : gmap string loc) => acc = m0)
            _ ∅ _ _ m).
  - reflexivity.
  - intros i x m0 acc _ ->. reflexivity.
Qed.

Lemma maps_frame_refl (r : Runner) : maps_frame r r.
Proof. split; auto. Qed.

Lemma maps_frame_trans (r1 r2 r3 : Runner) :
  maps_frame r1 r2 -> maps_frame r2 r3 -> maps_frame r1 r3.
Proof.
  intros [He1 Hm1] [He2 Hm2]. split; [congruence|].
  intros l Hl. rewrite Hm2, Hm1; congruence.
Qed.

Lemma markRenderTime_maps (now : Z) (id : string) (b : bool) (r : Runner) :
  maps_frame r (markRenderTime now id b r).
Proof.
  unfold markRenderTime. destruct (eventsMap r !! id).
  - split; auto.
  - split; [reflexivity|]. intros l Hl. simpl.
    rewrite lookup_insert_ne by congruence. reflexivity.
Qed.

Lemma note_render_maps (now : Z) (tmpl : Template) (tc : TemplateConfig)
    (res : RenderResult) (r : Runner) (p : pass) :
  maps_frame r (note_render now tmpl tc res r p).1.
Proof.
  unfold note_render.
  destruct (WouldRender res), (DidRender res); simpl;
    repeat match goal with
           | |- context [if ?b then _ else _] => destruct b; simpl
           end;
    eauto using maps_frame_refl, maps_frame_trans, markRenderTime_maps.
Qed.

Lemma render_configs_maps (now : Z) (tmpl : Template) (output : string)
    (cfgs : list TemplateConfig) :
  forall r p r',
    state_of (render_configs now tmpl output cfgs r p) = Some r' ->
    maps_frame r r'.
Proof.
  induction cfgs as [|tc rest IH]; intros r p r' Hs; simpl in Hs.
  - inversion Hs; subst. apply maps_frame_refl.
  - destruct (Render _ _) as [err|[res fs']].
    + inversion Hs; subst. apply maps_frame_refl.
    + set (r0 := set_renders _ _) in Hs.
      pose proof (note_render_maps now tmpl tc res r0 p) as Hf.
      destruct (note_render now tmpl tc res r0 p) as [r1 p1].
      apply IH in Hs. simpl in Hf.
      eapply maps_frame_trans; [|exact Hs].
      eapply maps_frame_trans; [|exact Hf]. split; auto.
Qed.

Lemma run_template_maps (now : Z) (tmpl : Template) (r : Runner) (p : pass)
    (r' : Runner) :
  state_of (run_template now tmpl r p) = Some r' -> maps_frame r r'.
Proof.
  unfold run_template. intros Hs.
  destruct (once r && rendered r (ID tmpl)).
  { inversion Hs; subst. apply maps_frame_refl. }
  destruct (Execute tmpl (brain r) (childEnv r)) as [err|result].
  { inversion Hs; subst. apply maps_frame_refl. }
  destruct (collect_used _ _ _ _ _) as [missing deps].
  destruct (0 <? length (unwatched_of (watcher r) missing))%nat.
  { inversion Hs; subst. split; auto. }
  destruct (0 <? length missing)%nat.
  { inversion Hs; subst. apply maps_frame_refl. }
  match type of Hs with
  | context [quiescenceMap ?r1 !! _] =>
      assert (maps_frame r r1) as Hf1
        by (destruct (dedup r); [destruct (isLeader_for r tmpl)|];
            split; auto);
      remember r1 as r1' eqn:Hr1; clear Hr1
  end.
  destruct (quiescenceMap r1' !! ID tmpl).
  { inversion Hs; subst. eapply maps_frame_trans; [exact Hf1|].
    split; auto. }
  eapply maps_frame_trans; [exact Hf1|].
  eapply render_configs_maps. exact Hs.
Qed.

Lemma run_templates_maps (now : Z) (ts : list Template) :
  forall r p r',
    state_of (run_templates now ts r p) = Some r' -> maps_frame r r'.
Proof.
  induction ts as [|tmpl rest IH]; intros r p r' Hs; simpl in Hs.
  - inversion Hs; subst. apply maps_frame_refl.
  - pose proof (run_template_maps now tmpl r p) as Hf.
    destruct (run_template now tmpl r p) as [[r1 p1]|err r1|msg];
      simpl in *.
    + eapply maps_frame_trans; [apply Hf; reflexivity|]. eapply IH, Hs.
    + inversion Hs; subst. apply Hf. reflexivity.
    + discriminate.
Qed.

Lemma Run_maps (now : Z) (r r' : Runner) :
  final_runner (Run now r) = Some r' -> maps_frame r r'.
Proof.
  unfold Run. intros Hrun.
  pose proof (run_templates_maps now (templates r) r new_pass) as Hloop.
  destruct (run_templates now (templates r) r new_pass)
    as [[r1 p]|err r1|msg]; simpl in *.
  - specialize (Hloop r1 eq_refl). eapply maps_frame_trans; [exact Hloop|].
    apply finish_pass_state in Hrun.
    destruct Hrun as (_&_&_&_&_&_&_&He&_&_&_&_&_&_&_&Hm&_).
    unfold diffAndUpdateDeps in He, Hm. simpl in He, Hm.
    destruct (retire_fold_frame (depsMap p)
                (dependencies (if wouldRenderAny p || renderedAny p
                               then signal_rendered r1 else r1))
                (if wouldRenderAny p || renderedAny p
                 then signal_rendered r1 else r1))
      as (_&_&_&_&Hm2&He2&_).
    assert (forall x, maps (signal_rendered x) = maps x
                      /\ renderEvents (signal_rendered x) = renderEvents x)
      as Hsig.
    { intros x. unfold signal_rendered. destruct (_ <? _)%nat; auto. }
    split.
    + rewrite He, He2. destruct (_ || _); [apply Hsig|reflexivity].
    + intros l _. rewrite Hm, Hm2.
      destruct (_ || _); [rewrite (proj1 (Hsig r1))|]; reflexivity.
  - inversion Hrun; subst. apply Hloop. reflexivity.
  - discriminate.
Qed.

(** C9 (amended): [RenderEvents] returns a shallow copy: a new map
    object with the bindings of the Runner's map, which is left as it
    is.  No later render pass and no later [markRenderTime] adds, removes
    or rebinds an entry of the snapshot, and storing a map at the address
    of the snapshot does not change the Runner's map.  The records the
    entries point to are shared: after a later [markRenderTime] for a
    template of the snapshot, the record read through the snapshot is the
    Runner's, with the new time. *)
Theorem C9_snapshot_is_shallow (r : Runner) :
  is_Some (maps r !! renderEvents r) ->
  let times := (RenderEvents r).1 in
  let r1 := (RenderEvents r).2 in
  times <> renderEvents r /\
  maps r !! times = None /\
  maps r1 !! times = Some (eventsMap r) /\
  eventsMap r1 = eventsMap r /\
  events r1 = events r /\
  (forall now r', final_runner (Run now r1) = Some r' ->
     maps r' !! times = Some (eventsMap r)) /\
  (forall now id b,
     maps (markRenderTime now id b r1) !! times = Some (eventsMap r)) /\
  (forall m',
     eventsMap (set_maps (<[times := m']> (maps r1)) r1) = eventsMap r1) /\
  (forall now id b l,
     eventsMap r !! id = Some l ->
     read_event (markRenderTime now id b r1) times id
       = stamp now b <$> events r !! l /\
     read_event (markRenderTime now id b r1) times id
       = read_event (markRenderTime now id b r1) (renderEvents r1) id).
Proof.
  intros Hown. cbv zeta. unfold RenderEvents. simpl.
  set (times := fresh (dom (maps r))).
  assert (maps r !! times = None) as Hfresh
    by (apply not_elem_of_dom, is_fresh).
  assert (times <> renderEvents r) as Hne.
  { intros Heq. rewrite Heq in Hfresh. rewrite Hfresh in Hown.
    destruct Hown; discriminate. }
  rewrite map_fold_copy.
  set (r1 := set_maps (<[times := eventsMap r]> (maps r)) r).
  assert (eventsMap r1 = eventsMap r) as Hem.
  { unfold eventsMap, r1. simpl. rewrite lookup_insert_ne by assumption.
    reflexivity. }
  assert (maps r1 !! times = Some (eventsMap r)) as Hsnap
    by (unfold r1; simpl; apply lookup_insert_eq).
  split; [exact Hne|]. split; [exact Hfresh|]. split; [exact Hsnap|].
  split; [exact Hem|]. split; [reflexivity|].
  split; [|split; [|split]].
  - intros now r' Hrun. apply Run_maps in Hrun. destruct Hrun as [_ Hm].
    rewrite Hm; [exact Hsnap|exact Hne].
  - intros now id b.
    destruct (markRenderTime_maps now id b r1) as [_ Hm].
    rewrite Hm; [exact Hsnap|exact Hne].
  - intros m'. unfold eventsMap. simpl.
    rewrite !lookup_insert_ne by assumption. reflexivity.
  - intros now id b l Hl.
    assert (markRenderTime now id b r1
            = set_events (alter (stamp now b) l (events r1)) r1) as Hmark.
    { unfold markRenderTime. rewrite Hem, Hl. reflexivity. }
    rewrite Hmark. unfold read_event. simpl.
    rewrite lookup_insert_eq, lookup_insert_ne by assumption. simpl.
    fold (eventsMap r). rewrite Hl. simpl.
    rewrite lookup_alter_eq. split; reflexivity.
Qed.

(** ** Watcher errors *)



(** ** Commands of a pass *)

Lemma commandExists_spec (c : TemplateConfig) (cmds : list TemplateConfig) :
  commandExists c cmds = true <-> command_of c ∈ command_of <$> cmds.
Proof.
  induction cmds as [|t rest IH]; simpl.
  - rewrite elem_of_nil. split; [discriminate|tauto].
  - rewrite ?fmap_cons, elem_of_cons. fold (command_of c) (command_of t).
    destruct (bool_decide (command_of c = command_of t)) eqn:Hd.
    + apply bool_decide_eq_true in Hd. tauto.
    + apply bool_decide_eq_false in Hd. rewrite IH. tauto.
Qed.

(** The commands gathered from a run of [Render] calls: no command string
    twice, the new entries in the order of the calls, each from a call
    that reported DidRender, with a command, outside dry mode; and every
    such call has its command string in the list. *)
Lemma accumulate_spec (dry : bool) (calls : list RenderCall) :
  forall cmds,
    NoDup (command_of <$> cmds) ->
    NoDup (command_of <$> accumulate dry cmds calls) /\
    (exists extra, accumulate dry cmds calls = cmds ++ extra
                   /\ extra `sublist_of` (rc_config <$> calls)) /\
    (forall tc, tc ∈ accumulate dry cmds calls ->
       tc ∈ cmds \/
       exists c, c ∈ calls /\ rc_config c = tc
                 /\ DidRender (rc_result c) = true /\ dry = false
                 /\ command_of tc <> "") /\
    (forall c, c ∈ calls -> DidRender (rc_result c) = true ->
       dry = false -> command_of (rc_config c) <> "" ->
       command_of (rc_config c)
         ∈ command_of <$> accumulate dry cmds calls).
Proof.
  induction calls as [|c rest IH]; intros cmds Hnd; simpl.
  - split; [exact Hnd|]. split; [|split].
    + exists []. rewrite app_nil_r. split; [reflexivity|constructor].
    + tauto.
    + intros c Hc. apply elem_of_nil in Hc. contradiction.
  - set (cond := DidRender (rc_result c) && negb dry
                 && bool_decide (command_of (rc_config c) ≠ "")
                 && negb (commandExists (rc_config c) cmds)).
    assert (cond = true ->
            DidRender (rc_result c) = true /\ dry = false
            /\ command_of (rc_config c) <> ""
            /\ command_of (rc_config c) ∉ command_of <$> cmds) as Hcond.
    { unfold cond. intros Hc.
      apply andb_true_iff in Hc. destruct Hc as [Hc Hex].
      apply andb_true_iff in Hc. destruct Hc as [Hc Hcmd].
      apply andb_true_iff in Hc. destruct Hc as [Hdid Hdry].
      apply bool_decide_eq_true in Hcmd. apply negb_true_iff in Hdry, Hex.
      repeat split; try assumption.
      intros Hin. apply commandExists_spec in Hin. congruence. }
    assert (forall x, x ∈ cmds ->
              x ∈ (if cond then cmds ++ [rc_config c] else cmds)) as Hmono.
    { intros x Hx. destruct cond; [apply elem_of_app; tauto|assumption]. }
    destruct (IH (if cond then cmds ++ [rc_config c] else cmds))
      as (IHnd & (extra & IHeq & IHsub) & IHsound & IHcompl).
    { destruct cond eqn:Hc; [|exact Hnd].
      destruct (Hcond eq_refl) as (_ & _ & _ & Hnotin).
      rewrite fmap_app. apply NoDup_app. split; [exact Hnd|].
      split; [|apply NoDup_singleton].
      intros x Hx Hx'. simpl in Hx'. apply list_elem_of_singleton in Hx'.
      subst x. contradiction. }
    split; [exact IHnd|]. split; [|split].
    + destruct cond.
      * exists (rc_config c :: extra). rewrite IHeq, <- app_assoc.
        split; [reflexivity|]. rewrite ?fmap_cons.
        apply sublist_skip. exact IHsub.
      * exists extra. split; [exact IHeq|]. rewrite ?fmap_cons.
        apply sublist_cons. exact IHsub.
    + intros tc Htc. destruct (IHsound tc Htc) as [Hin|(c' & Hc' & Hrest)].
      * destruct cond eqn:Hc; [|tauto].
        apply elem_of_app in Hin. destruct Hin as [?|Hin]; [tauto|].
        apply list_elem_of_singleton in Hin. subst tc.
        destruct (Hcond eq_refl) as (Hdid & Hdry & Hcmd & _).
        right. exists c. split; [apply elem_of_cons; tauto|]. tauto.
      * right. exists c'. split; [apply elem_of_cons; tauto|]. exact Hrest.
    + intros c' Hc' Hdid Hdry Hcmd.
      apply elem_of_cons in Hc'. destruct Hc' as [->|Hc'];
        [|apply IHcompl; assumption].
      rewrite IHeq, fmap_app. apply elem_of_app. left.
      destruct cond eqn:Hc.
      * rewrite fmap_app. apply elem_of_app. right. simpl.
        apply list_elem_of_singleton. reflexivity.
      * unfold cond in Hc. rewrite Hdid, Hdry in Hc. simpl in Hc.
        rewrite bool_decide_eq_true_2 in Hc by assumption. simpl in Hc.
        apply negb_false_iff, commandExists_spec in Hc. exact Hc.
Qed.

(** The error of a spawn, if it returns one. *)
Lemma spawnChild_result (i : spawnChildInput) (r r' : Runner)
    (res : error + Child) :
  spawnChild i r = Ok (r', res) ->
  forall r2, spawnChild i r2 = Ok (set_spawned (spawned r2 ++ [i]) r2, res).
Proof.
  unfold spawnChild. intros Hs r2.
  destruct (shellwords_Parse (sp_Command i)) as [err|[|cmd args]];
    [|discriminate|].
  - inversion Hs; subst. reflexivity.
  - destruct (child_New cmd args i); [inversion Hs; subst; reflexivity|].
    destruct (child_Start _); inversion Hs; subst; reflexivity.
Qed.

(** The commands are run one after the other, in the order of the list;
    the error of each failing one is appended, and the run goes on. *)
Lemma exec_commands_spec (cmds : list TemplateConfig) :
  forall r errs r' errs',
    exec_commands cmds r errs = Ok (r', errs') ->
    spawned r' = spawned r ++ ((fun t => command_input r (Exec t)) <$> cmds)
    /\ errs' = errs ++
         omap (fun t =>
                 match spawnChild (command_input r (Exec t)) r with
                 | Ok (_, inl err) => Some err
                 | _ => None
                 end) cmds.
Proof.
  induction cmds as [|t rest IH]; intros r errs r' errs' He; simpl in He.
  - inversion He; subst. simpl. rewrite !app_nil_r. split; reflexivity.
  - destruct (spawnChild (command_input r (Exec t)) r) as [[r1 res]|msg]
      eqn:Hs; [|discriminate].
    simpl in He. pose proof (spawnChild_frame _ _ _ _ Hs) as (Hf & Hsp & _).
    apply IH in He. destruct He as [Hsp' Herr'].
    assert (forall e, command_input r1 e = command_input r e) as Hci.
    { intros e. unfold command_input, childEnv.
      destruct Hf as (_&_&Hc&_). rewrite Hc. reflexivity. }
    split.
    + rewrite Hsp', Hsp, fmap_cons, <- app_assoc. simpl.
      f_equal. f_equal. apply list_fmap_ext. intros _ x _. apply Hci.
    + rewrite Herr'. simpl. rewrite Hs.
      assert (omap (fun t0 =>
                match spawnChild (command_input r1 (Exec t0)) r1 with
                | Ok (_, inl err) => Some err
                | _ => None
                end) rest
              = omap (fun t0 =>
                match spawnChild (command_input r (Exec t0)) r with
                | Ok (_, inl err) => Some err
                | _ => None
                end) rest) as ->.
      { apply list_omap_ext. apply Forall2_same_length_lookup_2; [reflexivity|].
        intros j x y Hx Hy. assert (x = y) as -> by congruence.
        rewrite Hci.
        destruct (spawnChild (command_input r (Exec y)) r)
          as [[r3 res3]|msg3] eqn:Hs3.
        - rewrite (spawnChild_result _ _ _ _ Hs3 r1). reflexivity.
        - destruct (spawnChild (command_input r (Exec y)) r1)
            as [[r4 res4]|msg4] eqn:Hs4; [|reflexivity].
          rewrite (spawnChild_result _ _ _ _ Hs4 r) in Hs3. discriminate. }
      destruct res as [err|c]; [|reflexivity].
      rewrite <- app_assoc. reflexivity.
Qed.

Lemma reload_child_spawned (b : bool) (r : Runner) (errs : list error)
    (r' : Runner) (errs' : list error) :
  reload_child b r errs = Ok (r', errs') -> spawned r' = spawned r.
Proof.
  unfold reload_child. intros Hr.
  destruct (child r) as [c|]; [|inversion Hr; subst; reflexivity].
  destruct b; [|inversion Hr; subst; reflexivity].
  destruct (mutex_RLock (childLock r)) as [l1|]; [|discriminate].
  simpl in Hr.
  destruct (mutex_RUnlock l1) as [l2|]; [|discriminate].
  inversion Hr; subst. reflexivity.
Qed.

(** The commands of a pass whose loop over the templates went through:
    gathered from its render calls, without a repeated command string,
    and spawned in the order of the list. *)
Lemma pass_commands (now : Z) (r r1 : Runner) (p : pass) (r' : Runner) :
  run_templates now (templates r) r new_pass = Done (r1, p) ->
  final_runner (Run now r) = Some r' ->
  exists new,
    renders r1 = renders r ++ new /\
    commands p = accumulate (dry r) [] new /\
    NoDup (command_of <$> commands p) /\
    spawned r' = spawned r ++ ((fun t => command_input r (Exec t))
                                 <$> commands p).
Proof.
  intros Hloop Hrun. unfold Run in Hrun. rewrite Hloop in Hrun.
  assert (state_of (run_templates now (templates r) r new_pass) = Some r1)
    as Hst by (rewrite Hloop; reflexivity).
  apply run_templates_frame in Hst.
  destruct Hst as (_&_&Hcfg&_&_&_&_&_&_&_&_&_&_&Hsp).
  apply run_templates_spec in Hloop.
  destruct Hloop as (new & Hr & _ & _ & Hc). simpl in Hc.
  exists new. split; [exact Hr|]. split; [exact Hc|].
  split.
  { rewrite Hc. apply (accumulate_spec (dry r) new []). constructor. }
  unfold finish_pass in Hrun.
  set (r2 := diffAndUpdateDeps _ _) in Hrun.
  assert (spawned r2 = spawned r /\ config r2 = config r) as [Hsp2 Hcfg2].
  { subst r2. unfold diffAndUpdateDeps. simpl.
    destruct (retire_fold_frame (depsMap p)
                (dependencies (if wouldRenderAny p || renderedAny p
                               then signal_rendered r1 else r1))
                (if wouldRenderAny p || renderedAny p
                 then signal_rendered r1 else r1))
      as (_&_&_&_&_&_&Hc2&_&_&_&_&_&_&Hs2&_).
    rewrite Hs2, Hc2. unfold signal_rendered.
    destruct (_ || _); [destruct (_ <? _)%nat|]; simpl; split; assumption. }
  destruct (exec_commands (commands p) r2 []) as [[r3 errs]|msg] eqn:He;
    simpl in Hrun; [|discriminate].
  apply exec_commands_spec in He. destruct He as [Hsp3 _].
  destruct (reload_child (renderedAny p) r3 errs) as [[r4 errs']|msg] eqn:Hrl;
    [|discriminate].
  apply reload_child_spawned in Hrl.
  assert (r' = r4) as -> by (destruct errs'; simpl in Hrun; congruence).
  rewrite Hrl, Hsp3, Hsp2. f_equal. apply list_fmap_ext. intros _ x _.
  unfold command_input, childEnv. rewrite Hcfg2. reflexivity.
Qed.

(** ** Once mode and the supervised child *)

Lemma run_template_once_skip (now : Z) (tmpl : Template) (r : Runner)
    (p : pass) :
  once r = true -> rendered r (ID tmpl) = true ->
  run_template now tmpl r p = Done (r, p).
Proof. unfold run_template. intros -> ->. reflexivity. Qed.

(** With an exec command configured, the head of the loop does not get
    past the child lock, which nothing ever locked. *)
Lemma supervise_dies (r : Runner) (childExitCh : bool) :
  writer (childLock r) = false ->
  Exec_Command (cfg_Exec (config r)) <> "" ->
  exists msg, supervise r childExitCh = inl (Died msg).
Proof.
  intros Hw Hcmd. unfold supervise.
  rewrite bool_decide_eq_true_2 by assumption.
  assert (forall r0, childLock r0 = childLock r ->
            mutex_Unlock (childLock r0)
            = Crash "fatal error: sync: Unlock of unlocked RWMutex") as Hu.
  { intros r0 ->. unfold mutex_Unlock. rewrite Hw. reflexivity. }
  destruct (child r).
  - rewrite Hu by reflexivity. eauto.
  - destruct (spawnChild _ r) as [[r1 [err|c]]|msg] eqn:Hs.
    + apply spawnChild_frame in Hs. destruct Hs as (_ & _ & _ & Hl).
      rewrite Hu by exact Hl. eauto.
    + apply spawnChild_frame in Hs. destruct Hs as (_ & _ & _ & Hl).
      rewrite Hu by exact Hl. eauto.
    + eauto.
Qed.

Lemma enable_quiescence_frame (ts : list Template) :
  forall r,
    childLock (foldl enable_quiescence_for r ts) = childLock r /\
    config (foldl enable_quiescence_for r ts) = config r.
Proof.
  induction ts as [|t rest IH]; intros r; simpl; [split; reflexivity|].
  assert (childLock (enable_quiescence_for r t) = childLock r
          /\ config (enable_quiescence_for r t) = config r) as [H1 H2].
  { unfold enable_quiescence_for.
    destruct (quiescenceMap r !! ID t); [split; reflexivity|].
    destruct (template_wait _); [split; reflexivity|].
    destruct (Wait_Enabled _); split; reflexivity. }
  destruct (IH (enable_quiescence_for r t)) as [H3 H4].
  split; congruence.
Qed.

Lemma loop_head_with_exec_dies (evs : list (Z * Event)) (childExitCh : bool)
    (r : Runner) :
  writer (childLock r) = false ->
  Exec_Command (cfg_Exec (config r)) <> "" ->
  allTemplatesRendered (enable_quiescence r) = true ->
  exists msg, loop_head evs childExitCh r = inl (Died msg).
Proof.
  intros Hw Hcmd Hall. unfold loop_head. rewrite Hall.
  destruct (enable_quiescence_frame (templates r) r) as [Hl Hc].
  fold (enable_quiescence r) in Hl, Hc.
  destruct (supervise_dies (enable_quiescence r) childExitCh) as [msg Hs].
  - rewrite Hl. exact Hw.
  - rewrite Hc. exact Hcmd.
  - rewrite Hs. eauto.
Qed.

(** Without an exec command, once mode stops the Runner and returns as
    soon as every template has its render event. *)
Lemma loop_head_once_exit (evs : list (Z * Event)) (childExitCh : bool)
    (r : Runner) :
  let r1 := enable_quiescence r in
  once r1 = true ->
  Exec_Command (cfg_Exec (config r1)) = "" ->
  child r1 = None ->
  allTemplatesRendered r1 = true ->
  loop_head evs childExitCh r =
    inl (match Stop r1 with
         | Ok r' => Returned r'
         | Crash msg => Died msg
         end).
Proof.
  cbv zeta. intros Honce Hcmd Hchild Hall. unfold loop_head, supervise.
  rewrite Hall, Hcmd. simpl. rewrite Honce, Hchild.
  destruct (Stop (enable_quiescence r)); reflexivity.
Qed.

(** ** Stopping *)

Lemma Stop_closes (r r' : Runner) : Stop r = Ok r' -> DoneCh r' = true.
Proof.
  unfold Stop. destruct (stopChild _) as [r3|msg]; simpl; [|discriminate].
  unfold close_DoneCh. destruct (DoneCh (deletePid r3)); [discriminate|].
  intros Hs. inversion Hs; subst. reflexivity.
Qed.

(** A second [Stop] closes the done channel again, which panics. *)
Lemma Stop_twice_panics (r r' : Runner) :
  Stop r = Ok r' -> exists msg, Stop r' = Crash msg.
Proof.
  intros Hs. apply Stop_closes in Hs. unfold Stop.
  destruct (stopChild _) as [r3|msg] eqn:Hc; simpl; [|eauto].
  unfold close_DoneCh.
  assert (DoneCh (deletePid r3) = true) as ->; [|eauto].
  unfold stopChild in Hc.
  destruct (mutex_RLock _) as [l1|]; [|discriminate]. simpl in Hc.
  destruct (mutex_RUnlock l1) as [l2|]; [|discriminate].
  inversion Hc; subst. unfold deletePid.
  destruct (bool_decide _); simpl;
    unfold stopWatcher, stopDedup;
    destruct (child _), (dedup r'); simpl; exact Hs.
Qed.

(** ** Creation of the Runner *)

Lemma configs_with_cons (id : string) (c : TemplateConfig)
    (rest : list TemplateConfig) :
  configs_with id (c :: rest)
  = if bool_decide (ID <$> template_of c = Some id)
    then c :: configs_with id rest else configs_with id rest.
Proof. reflexivity. Qed.

Lemma init_templates_spec (cts : list TemplateConfig) :
  forall ts m ts' m',
    init_templates cts ts m = inr (ts', m') ->
    grouped ts m ->
    grouped ts' m' /\
    Forall (fun c => is_Some (template_of c)) cts /\
    (forall id, default [] (m' !! id)
                = default [] (m !! id) ++ configs_with id cts) /\
    (forall id, is_Some (m !! id) -> default [] (m !! id) <> [] ->
                default [] (m' !! id) <> []) /\
    (forall id, m !! id = None -> is_Some (m' !! id) ->
                default [] (m' !! id) <> []).
Proof.
  induction cts as [|c rest IH]; intros ts m ts' m' Hi Hg; simpl in Hi.
  - inversion Hi; subst. split; [exact Hg|]. split; [constructor|].
    split; [intros id; simpl; rewrite app_nil_r; reflexivity|].
    split; [tauto|]. intros id Hn [x Hx]. congruence.
  - destruct (NewTemplate _ _ _ _) as [err|tmpl] eqn:Hnew; [discriminate|].
    assert (template_of c = Some tmpl) as Htc
      by (unfold template_of; rewrite Hnew; reflexivity).
    set (m1 := match m !! ID tmpl with
               | Some _ => m
               | None => <[ID tmpl := []]> m
               end) in Hi.
    set (m2 := <[ID tmpl := default [] (m1 !! ID tmpl) ++ [c]]> m1) in Hi.
    assert (default [] (m1 !! ID tmpl) = default [] (m !! ID tmpl)) as Hm1.
    { subst m1. destruct (m !! ID tmpl) eqn:Hl; [rewrite ?Hl; reflexivity|].
      rewrite lookup_insert_eq. reflexivity. }
    assert (forall id, id <> ID tmpl -> m2 !! id = m !! id) as Hother.
    { intros id Hne. subst m2 m1. rewrite lookup_insert_ne by congruence.
      destruct (m !! ID tmpl); [reflexivity|].
      rewrite lookup_insert_ne by congruence. reflexivity. }
    assert (m2 !! ID tmpl = Some (default [] (m !! ID tmpl) ++ [c])) as Hthis.
    { subst m2. rewrite lookup_insert_eq, Hm1. reflexivity. }
    destruct Hg as [Hnd Hkeys].
    apply IH in Hi.
    + destruct Hi as (Hg' & Hall & Hcfg & Hne1 & Hne2).
      split; [exact Hg'|]. split.
      { constructor; [|exact Hall]. rewrite Htc. eauto. }
      split; [|split].
      * intros id. rewrite Hcfg, configs_with_cons, Htc. simpl.
        destruct (decide (id = ID tmpl)) as [->|Hne].
        -- rewrite Hthis. simpl.
           rewrite bool_decide_eq_true_2 by reflexivity.
           rewrite <- app_assoc. reflexivity.
        -- rewrite Hother by assumption.
           rewrite bool_decide_eq_false_2 by congruence. reflexivity.
      * intros id Hs Hnon. destruct (decide (id = ID tmpl)) as [->|Hne].
        -- apply Hne1; rewrite Hthis; [eauto|]. simpl.
           intros Habs. apply app_eq_nil in Habs. destruct Habs; discriminate.
        -- apply Hne1; rewrite Hother by assumption; assumption.
      * intros id Hn Hs. destruct (decide (id = ID tmpl)) as [->|Hne].
        -- apply Hne1; rewrite Hthis; [eauto|]. simpl.
           intros Habs. apply app_eq_nil in Habs. destruct Habs; discriminate.
        -- apply Hne2; [rewrite Hother by assumption|]; assumption.
    + (* the invariant after one configuration *)
      destruct (m !! ID tmpl) as [cs|] eqn:Hl.
      * split; [exact Hnd|]. intros id. rewrite Hkeys.
        destruct (decide (id = ID tmpl)) as [->|Hne].
        -- rewrite Hthis, Hl. split; eauto.
        -- rewrite Hother by assumption. tauto.
      * split.
        -- rewrite fmap_app. apply NoDup_app. split; [exact Hnd|].
           split; [|apply NoDup_singleton].
           intros id Hin Hin'. simpl in Hin'.
           apply list_elem_of_singleton in Hin'. subst id.
           apply Hkeys in Hin. rewrite Hl in Hin. destruct Hin; discriminate.
        -- intros id. rewrite fmap_app, elem_of_app, Hkeys. simpl.
           rewrite list_elem_of_singleton.
           destruct (decide (id = ID tmpl)) as [->|Hne].
           ++ rewrite Hthis. split; eauto.
           ++ rewrite Hother by assumption. tauto.
Qed.

Lemma init_inv (cfg : Config) (dry0 once0 : bool)
    (disk : gmap string string) (r : Runner) :
  init cfg dry0 once0 disk = inr r ->
  exists ts m dd,
    init_templates (Templates cfg) [] ∅ = inr (ts, m) /\
    r = {| ErrCh := []; DoneCh := false; config := cfg;
           dry := dry0; once := once0;
           ctemplatesMap := m; templates := ts;
           renderEvents := 1%positive; renderedCh := mkChan 1 0;
           dependencies := ∅; watcher := mkWatcher ∅ false; brain := ∅;
           child := None; childLock := mkRWMutex false 0;
           quiescenceMap := ∅; dedup := dd;
           events := ∅; maps := {[ 1%positive := ∅ ]}; fs := disk;
           renders := []; spawned := [] |} /\
    (dd = None \/
     (dd = Some (mkDedup ∅ [] false) /\ Dedup_Enabled cfg = true
      /\ once0 = false)).
Proof.
  unfold init. intros Hi.
  destruct (newClientSet cfg); [discriminate|].
  destruct (NewWatcher cfg once0); [discriminate|].
  destruct (init_templates _ _ _) as [err|[ts m]]; [discriminate|].
  destruct (Dedup_Enabled cfg) eqn:Hd; [destruct once0 eqn:Ho|];
    try destruct (NewDedupManager cfg); inversion Hi; subst;
    eexists _, _, _; (split; [reflexivity|]); (split; [reflexivity|]);
    auto.
Qed.

(** Templates are unique: [NewRunner] keeps one template per identifier,
    in the order of first declaration, and the keys of the map of
    configurations are exactly these identifiers. *)
Theorem init_templates_unique (cfg : Config) (dry0 once0 : bool)
    (disk : gmap string string) (r : Runner) :
  init cfg dry0 once0 disk = inr r ->
  NoDup (ID <$> templates r) /\
  (forall id, id ∈ ID <$> templates r <-> is_Some (ctemplatesMap r !! id)) /\
  (forall tmpl, tmpl ∈ templates r ->
     exists c, c ∈ Templates cfg /\ template_of c = Some tmpl).
Proof.
  intros Hi. destruct (init_inv _ _ _ _ _ Hi) as (ts & m & dd & Ht & -> & _).
  simpl. destruct (init_templates_spec _ _ _ _ _ Ht)
    as ((Hnd & Hkeys) & _ & Hcfg & _ & Hne).
  { split; [constructor|]. intros id. simpl. rewrite lookup_empty.
    split; [intros Hin; apply elem_of_nil in Hin; contradiction|].
    intros [x Hx]; discriminate. }
  split; [exact Hnd|]. split; [exact Hkeys|].
  intros tmpl Hin.
  assert (default [] (m !! ID tmpl) <> []) as Hnon.
  { apply Hne; [apply lookup_empty|]. apply Hkeys.
    apply list_elem_of_fmap. eauto. }
  rewrite Hcfg, lookup_empty in Hnon. simpl in Hnon.
  destruct (configs_with (ID tmpl) (Templates cfg)) as [|c cs] eqn:Hf;
    [congruence|].
  assert (c ∈ configs_with (ID tmpl) (Templates cfg)) as Hc
    by (rewrite Hf; apply elem_of_cons; tauto).
  unfold configs_with in Hc. apply list_elem_of_In, filter_In in Hc.
  destruct Hc as [Hc Hid]. apply bool_decide_eq_true in Hid.
  exists c. split; [apply list_elem_of_In; exact Hc|].
  destruct (template_of c) as [t|]; [|discriminate].
  simpl in Hid. f_equal. destruct t, tmpl; simpl in *; congruence.
Qed.

(** No configuration is lost or reordered: the configurations
    [templateConfigsFor] returns for a template are the declared ones
    that parse to its identifier, in declaration order. *)
Theorem init_configs_grouped_in_order (cfg : Config) (dry0 once0 : bool)
    (disk : gmap string string) (r : Runner) (tmpl : Template) :
  init cfg dry0 once0 disk = inr r ->
  templateConfigsFor r tmpl = configs_with (ID tmpl) (Templates cfg).
Proof.
  intros Hi. destruct (init_inv _ _ _ _ _ Hi) as (ts & m & dd & Ht & -> & _).
  unfold templateConfigsFor. simpl.
  destruct (init_templates_spec _ _ _ _ _ Ht) as (_ & _ & Hcfg & _).
  { split; [constructor|]. intros id. simpl. rewrite lookup_empty.
    split; [intros Hin; apply elem_of_nil in Hin; contradiction|].
    intros [x Hx]; discriminate. }
  rewrite Hcfg, lookup_empty. reflexivity.
Qed.

(** In once mode [NewRunner] never sets up the de-duplication manager;
    otherwise it does so exactly when the configuration enables it. *)
Theorem init_dedup_only_outside_once_mode (cfg : Config) (dry0 once0 : bool)
    (disk : gmap string string) (r : Runner) :
  init cfg dry0 once0 disk = inr r ->
  (is_Some (dedup r) <-> Dedup_Enabled cfg = true /\ once0 = false).
Proof.
  unfold init. intros Hi.
  destruct (newClientSet cfg); [discriminate|].
  destruct (NewWatcher cfg once0); [discriminate|].
  destruct (init_templates _ _ _) as [err|[ts m]]; [discriminate|].
  destruct (Dedup_Enabled cfg) eqn:Hd; [destruct once0 eqn:Ho|];
    try destruct (NewDedupManager cfg); inversion Hi; subst; simpl;
    (split; [intros [x Hx]; try discriminate; auto
            |intros [? ?]; try discriminate; eauto]).
Qed.

(** ** The Brain holds tracked values only, all along *)

Lemma tracked_inv_same (r r' : Runner) :
  dependencies r' = dependencies r -> brain r' = brain r ->
  tracked_inv r -> tracked_inv r'.
Proof. unfold tracked_inv. intros -> ->. tauto. Qed.

Lemma Run_tracked_inv (now : Z) (r r' : Runner) :
  tracked_inv r -> final_runner (Run now r) = Some r' -> tracked_inv r'.
Proof.
  intros [Hk Hb] Hrun.
  destruct (run_templates now (templates r) r new_pass)
    as [[r1 p]|err r1|msg] eqn:Hloop.
  - destruct (pass_reconciles now r r1 p r' Hk Hb Hloop Hrun)
      as (_ & _ & Hk' & _ & Hb'). split; assumption.
  - unfold Run in Hrun. rewrite Hloop in Hrun. inversion Hrun; subst r'.
    assert (state_of (run_templates now (templates r) r new_pass) = Some r1)
      as Hst by (rewrite Hloop; reflexivity).
    apply run_templates_frame in Hst.
    destruct Hst as (_&_&_&_&_&_&_&_&_&Hd&Hbr&_).
    apply (tracked_inv_same r); [assumption..|split; assumption].
  - unfold Run in Hrun. rewrite Hloop in Hrun. discriminate.
Qed.

Lemma receive_all_tracked_inv (views : list (Dependency * Data))
    (r : Runner) :
  tracked_inv r -> tracked_inv (receive_all views r).
Proof.
  intros [Hk Hb]. destruct (receive_all_inv views r) as [Hd Hsub].
  split; [rewrite Hd; exact Hk|]. rewrite Hd. apply Hsub, Hb.
Qed.

Lemma Stop_same (r r' : Runner) :
  Stop r = Ok r' ->
  dependencies r' = dependencies r /\ brain r' = brain r /\
  ErrCh r' = ErrCh r.
Proof.
  unfold Stop, stopChild. intros Hs.
  destruct (mutex_RLock _) as [l1|]; [|discriminate]. simpl in Hs.
  destruct (mutex_RUnlock l1) as [l2|]; [|discriminate]. simpl in Hs.
  unfold close_DoneCh in Hs.
  destruct (DoneCh _); [discriminate|]. inversion Hs; subst.
  unfold deletePid, stopWatcher, stopDedup.
  destruct (dedup r) as [dd|]; simpl; destruct (child r); simpl;
    destruct (bool_decide _); simpl; repeat split.
Qed.

Lemma enable_quiescence_same (ts : list Template) :
  forall r,
    dependencies (foldl enable_quiescence_for r ts) = dependencies r /\
    brain (foldl enable_quiescence_for r ts) = brain r.
Proof.
  induction ts as [|t rest IH]; intros r; simpl; [split; reflexivity|].
  destruct (IH (enable_quiescence_for r t)) as [H1 H2].
  rewrite H1, H2. unfold enable_quiescence_for.
  destruct (quiescenceMap r !! ID t); [split; reflexivity|].
  destruct (template_wait _); [split; reflexivity|].
  destruct (Wait_Enabled _); split; reflexivity.
Qed.

Lemma supervise_same (r : Runner) (c : bool) :
  match supervise r c with
  | inl f => forall r', final_state f = Some r' ->
                        dependencies r' = dependencies r
                        /\ brain r' = brain r
  | inr (r', _) => dependencies r' = dependencies r /\ brain r' = brain r
  end.
Proof.
  unfold supervise. destruct (bool_decide _); [|split; reflexivity].
  destruct (child r).
  - destruct (mutex_Unlock _); simpl; [split; reflexivity|discriminate].
  - destruct (spawnChild _ r) as [[r1 [err|ch]]|msg] eqn:Hs;
      [| |simpl; discriminate];
      apply spawnChild_frame in Hs;
      destruct Hs as ((_&_&_&_&_&_&_&_&_&Hd&_&Hb&_) & _).
    + destruct (mutex_Unlock _); simpl; [|discriminate].
      intros r' Hr'. inversion Hr'; subst. simpl. split; assumption.
    + destruct (mutex_Unlock _); simpl; [split; assumption|discriminate].
Qed.

Lemma wait_child_tracked_inv (evs : list (Z * Event)) (r r' : Runner) :
  tracked_inv r -> final_state (wait_child evs r) = Some r' ->
  tracked_inv r'.
Proof.
  intros Hinv. induction evs as [|[now ev] rest IH]; simpl.
  - intros Hf. inversion Hf; subst. exact Hinv.
  - destruct ev; try exact IH.
    + intros Hf. inversion Hf; subst. exact Hinv.
    + destruct (Stop r) as [r1|] eqn:Hs1; simpl; [|discriminate].
      destruct (Stop r1) as [r2|] eqn:Hs2; simpl; [|discriminate].
      intros Hf. inversion Hf; subst.
      apply Stop_same in Hs1, Hs2.
      destruct Hs1 as (Hd1 & Hb1 & _), Hs2 as (Hd2 & Hb2 & _).
      apply (tracked_inv_same r); [congruence..|exact Hinv].
Qed.

Lemma loop_head_tracked_inv (evs : list (Z * Event)) (c : bool)
    (r : Runner) :
  tracked_inv r ->
  match loop_head evs c r with
  | inl f => forall r', final_state f = Some r' -> tracked_inv r'
  | inr (r', _) => tracked_inv r'
  end.
Proof.
  intros Hinv. unfold loop_head.
  destruct (enable_quiescence_same (templates r) r) as [Hd0 Hb0].
  fold (enable_quiescence r) in Hd0, Hb0.
  assert (tracked_inv (enable_quiescence r)) as Hinv0
    by (apply (tracked_inv_same r); assumption).
  destruct (allTemplatesRendered _); [|exact Hinv0].
  pose proof (supervise_same (enable_quiescence r) c) as Hsup.
  destruct (supervise _ c) as [f|[r1 c1]].
  - intros r' Hr'. destruct (Hsup r' Hr') as [Hd Hb].
    apply (tracked_inv_same (enable_quiescence r)); assumption.
  - destruct Hsup as [Hd Hb].
    assert (tracked_inv r1) as Hinv1
      by (apply (tracked_inv_same (enable_quiescence r)); assumption).
    destruct (once r1); [|exact Hinv1].
    destruct (child r1).
    + intros r' Hr'. eapply wait_child_tracked_inv; [|exact Hr'].
      apply (tracked_inv_same r1); [| |exact Hinv1];
        unfold stopWatcher, stopDedup; destruct (dedup r1); reflexivity.
    + destruct (Stop r1) as [r2|] eqn:Hs; simpl; [|discriminate].
      intros r' Hr'. inversion Hr'; subst.
      apply Stop_same in Hs. destruct Hs as (Hd2 & Hb2 & _).
      apply (tracked_inv_same r1); assumption.
Qed.

Lemma select_tracked_inv (ev : Event) (r : Runner) :
  tracked_inv r ->
  match select ev r with
  | inl f => forall r', final_state f = Some r' -> tracked_inv r'
  | inr r' => tracked_inv r'
  end.
Proof.
  intros Hinv. destruct ev; simpl.
  - apply (receive_all_tracked_inv (view :: more)). exact Hinv.
  - destruct (dedup r); exact Hinv.
  - destruct err as [[|] original| | | |]; simpl;
      try (destruct (once r); simpl; [|exact Hinv]);
      intros r' Hr'; inversion Hr'; subst; exact Hinv.
  - exact Hinv.
  - intros r' Hr'. inversion Hr'; subst. exact Hinv.
  - destruct (Stop r) as [r1|] eqn:Hs; simpl; [|discriminate].
    intros r' Hr'. inversion Hr'; subst.
    apply Stop_same in Hs. destruct Hs as (Hd & Hb & _).
    apply (tracked_inv_same r); assumption.
Qed.

Lemma main_loop_tracked_inv (evs : list (Z * Event)) :
  forall at_head c r r',
    tracked_inv r ->
    final_state (main_loop evs at_head c r) = Some r' -> tracked_inv r'.
Proof.
  induction evs as [|[now ev] rest IH]; intros at_head c r r' Hinv Hf.
  - simpl in Hf. destruct at_head.
    + pose proof (loop_head_tracked_inv [] c r Hinv) as Hh.
      destruct (loop_head [] c r) as [f|[r1 c1]]; [apply Hh; exact Hf|].
      inversion Hf; subst. exact Hh.
    + inversion Hf; subst. exact Hinv.
  - simpl in Hf.
    assert (forall r0 c0, tracked_inv r0 ->
              final_state
                (if ready ev c0 r0 then
                   match select ev r0 with
                   | inl f => f
                   | inr r1 =>
                       match Run now r1 with
                       | Done r2 => main_loop rest true c0 r2
                       | Failed err r2 => Returned (push err r2)
                       | Crashed msg => Died msg
                       end
                   end
                 else main_loop rest false c0 r0) = Some r' ->
              tracked_inv r') as Hstep.
    { intros r0 c0 Hinv0 Hf0. destruct (ready ev c0 r0).
      - pose proof (select_tracked_inv ev r0 Hinv0) as Hsel.
        destruct (select ev r0) as [f|r1]; [apply Hsel; exact Hf0|].
        pose proof (Run_tracked_inv now r1) as Hrun.
        destruct (Run now r1) as [r2|err r2|msg]; simpl in *.
        + eapply IH; [|exact Hf0]. apply Hrun; auto.
        + inversion Hf0; subst. apply (tracked_inv_same r2);
            [reflexivity..|]. apply Hrun; auto.
        + discriminate.
      - eapply IH; eassumption. }
    destruct at_head.
    + pose proof (loop_head_tracked_inv ((now, ev) :: rest) c r Hinv) as Hh.
      destruct (loop_head _ c r) as [f|[r1 c1]]; [apply Hh; exact Hf|].
      eapply Hstep; eassumption.
    + eapply Hstep; eassumption.
Qed.

(** Wherever [Start] gets to on a fresh Runner, whatever the events and
    their order, the Brain holds values of currently tracked
    dependencies only (and each tracked dependency sits under its own
    hash key). *)
Theorem Start_keeps_brain_within_tracked
    (cfg : Config) (dry0 once0 : bool) (disk : gmap string string)
    (r0 : Runner) (now : Z) (evs : list (Z * Event)) (r' : Runner) :
  init cfg dry0 once0 disk = inr r0 ->
  final_state (Start now evs r0) = Some r' ->
  tracked_inv r0 /\ tracked_inv r'.
Proof.
  intros Hi Hf.
  assert (tracked_inv r0) as Hinv0.
  { destruct (init_inv _ _ _ _ _ Hi) as (ts & m & dd & _ & -> & _).
    split; simpl; [apply map_Forall_empty|]. rewrite dom_empty_L.
    apply empty_subseteq. }
  split; [exact Hinv0|]. unfold Start in Hf.
  assert (forall e r, tracked_inv r -> tracked_inv (push e r)) as Hpush
    by (intros e r Hr; apply (tracked_inv_same r); [reflexivity..|exact Hr]).
  destruct (storePid r0) as [err|r1] eqn:Hp.
  { inversion Hf; subst. apply Hpush. exact Hinv0. }
  assert (tracked_inv r1) as Hinv1.
  { unfold storePid in Hp. destruct (bool_decide _).
    - inversion Hp; subst. exact Hinv0.
    - destruct (os_OpenFile _); [discriminate|]. inversion Hp; subst.
      apply (tracked_inv_same r0); [reflexivity..|exact Hinv0]. }
  destruct (match dedup r1 with
            | Some _ => dedup_Start (config r1)
            | None => None
            end).
  { inversion Hf; subst. apply Hpush. exact Hinv1. }
  pose proof (Run_tracked_inv now r1) as Hrun.
  destruct (Run now r1) as [r2|err r2|msg]; simpl in *.
  - eapply main_loop_tracked_inv; [|exact Hf]. apply Hrun; auto.
  - inversion Hf; subst. apply Hpush. apply Hrun; auto.
  - discriminate.
Qed.

(** ** More on a render pass *)

Lemma run_templates_rendered (now : Z) (ts : list Template) :
  forall r p r' id,
    state_of (run_templates now ts r p) = Some r' ->
    rendered r id = true -> rendered r' id = true.
Proof.
  induction ts as [|tmpl rest IH]; intros r p r' id Hs Hr; simpl in Hs.
  - inversion Hs; subst. exact Hr.
  - pose proof (rendered_run_template now tmpl r p) as Hstep.
    destruct (run_template now tmpl r p) as [[r1 p1]|err r1|msg];
      simpl in *.
    + eapply IH; [exact Hs|]. apply (Hstep r1 id eq_refl). exact Hr.
    + inversion Hs; subst. apply (Hstep r' id eq_refl). exact Hr.
    + discriminate.
Qed.

Lemma finish_pass_eventsMap (r : Runner) (p : pass) (r' : Runner) :
  final_runner (finish_pass r p) = Some r' ->
  eventsMap r' = eventsMap r /\ events r' = events r
  /\ templates r' = templates r.
Proof.
  intros Hf. apply finish_pass_state in Hf.
  destruct Hf as (_&_&_&_&_&_&Ht&He&_&_&_&_&_&_&Hev&Hm&_).
  unfold eventsMap. rewrite He, Hm, Hev, Ht.
  unfold diffAndUpdateDeps. simpl.
  destruct (retire_fold_frame (depsMap p)
              (dependencies (if wouldRenderAny p || renderedAny p
                             then signal_rendered r else r))
              (if wouldRenderAny p || renderedAny p
               then signal_rendered r else r))
    as (_&_&_&Hev2&Hm2&He2&_&_&_&Ht2&_).
  rewrite Hev2, Hm2, He2, Ht2. unfold signal_rendered.
  destruct (_ || _); [destruct (_ <? _)%nat|]; repeat split.
Qed.

Lemma all_rendered_Forall (r : Runner) (ts : list Template) :
  all_rendered r ts = true
  <-> Forall (fun tmpl => rendered r (ID tmpl) = true) ts.
Proof.
  induction ts as [|t rest IH]; simpl.
  - split; [constructor|reflexivity].
  - rewrite Forall_cons. destruct (rendered r (ID t)).
    + rewrite IH. tauto.
    + split; [discriminate|]. intros [? _]. discriminate.
Qed.

(** No render pass removes a render event: a template that has one keeps
    it whatever the pass does, so once all templates are rendered they
    stay so. *)
Theorem Run_keeps_render_events (now : Z) (r r' : Runner) :
  final_runner (Run now r) = Some r' ->
  (forall id, rendered r id = true -> rendered r' id = true) /\
  (allTemplatesRendered r = true -> allTemplatesRendered r' = true).
Proof.
  intros Hrun.
  assert ((forall id, rendered r id = true -> rendered r' id = true)
          /\ templates r' = templates r) as [Hmono Hts].
  { unfold Run in Hrun.
    pose proof (run_templates_rendered now (templates r) r new_pass) as Hl.
    pose proof (run_templates_frame now (templates r) r new_pass) as Hfr.
    destruct (run_templates now (templates r) r new_pass)
      as [[r1 p]|err r1|msg]; simpl in *.
    - apply finish_pass_eventsMap in Hrun. destruct Hrun as (Hem & _ & Ht).
      destruct (Hfr r1 eq_refl) as (_&_&_&_&_&_&Ht1&_).
      split; [|congruence]. intros id Hid. unfold rendered. rewrite Hem.
      apply (Hl r1 id eq_refl Hid).
    - inversion Hrun; subst.
      destruct (Hfr r' eq_refl) as (_&_&_&_&_&_&Ht1&_).
      split; [|exact Ht1]. intros id Hid. apply (Hl r' id eq_refl Hid).
    - discriminate. }
  split; [exact Hmono|]. unfold allTemplatesRendered. rewrite Hts.
  rewrite !all_rendered_Forall. intros Hall.
  eapply Forall_impl; [exact Hall|]. intros t. apply Hmono.
Qed.

(** A pass that fails on a template returns that error and stops there:
    it runs no command, reconciles nothing (tracked set, Brain), and
    signals nothing on the rendered channel. *)
Theorem Run_failed_template_aborts_pass
    (now : Z) (r r1 : Runner) (err : error) :
  run_templates now (templates r) r new_pass = Failed err r1 ->
  Run now r = Failed err r1 /\
  spawned r1 = spawned r /\ dependencies r1 = dependencies r /\
  brain r1 = brain r /\ renderedCh r1 = renderedCh r /\
  child r1 = child r.
Proof.
  intros Hloop. unfold Run. rewrite Hloop. split; [reflexivity|].
  assert (state_of (run_templates now (templates r) r new_pass) = Some r1)
    as Hst by (rewrite Hloop; reflexivity).
  apply run_templates_frame in Hst.
  destruct Hst as (_&_&_&_&_&_&_&_&Hch&Hd&Hb&Hc&_&Hsp).
  repeat split; assumption.
Qed.

Lemma accumulate_dry (calls : list RenderCall) :
  forall cmds, accumulate true cmds calls = cmds.
Proof.
  induction calls as [|c rest IH]; intros cmds; simpl; [reflexivity|].
  rewrite andb_false_r. simpl. apply IH.
Qed.

(** In dry mode a pass runs no command at all. *)
Theorem Run_dry_spawns_nothing (now : Z) (r r' : Runner) :
  dry r = true ->
  final_runner (Run now r) = Some r' ->
  spawned r' = spawned r.
Proof.
  intros Hdry Hrun.
  destruct (run_templates now (templates r) r new_pass)
    as [[r1 p]|err r1|msg] eqn:Hloop.
  - destruct (pass_commands now r r1 p r' Hloop Hrun)
      as (new & _ & Hc & _ & Hsp).
    rewrite Hsp, Hc, Hdry, accumulate_dry. simpl. apply app_nil_r.
  - unfold Run in Hrun. rewrite Hloop in Hrun. inversion Hrun; subst.
    assert (state_of (run_templates now (templates r) r new_pass) = Some r')
      as Hst by (rewrite Hloop; reflexivity).
    apply run_templates_frame in Hst.
    destruct Hst as (_&_&_&_&_&_&_&_&_&_&_&_&_&Hsp). exact Hsp.
  - unfold Run in Hrun. rewrite Hloop in Hrun. discriminate.
Qed.

(** ** More on the reconciliation *)

Lemma retire_fold_kept (dm deps : gmap string Dependency) (r : Runner) :
  (forall k, is_Some (deps !! k) -> is_Some (dm !! k)) ->
  map_fold (retire dm) r deps = r.
Proof.
  refine (map_fold_weak_ind
    (fun r' (m : gmap string Dependency) =>
       (forall k, is_Some (m !! k) -> is_Some (dm !! k)) -> r' = r)
    (retire dm) r _ _ deps).
  - reflexivity.
  - intros i x m r0 Hi IH Hsub. unfold retire.
    destruct (Hsub i) as [y Hy]; [rewrite lookup_insert_eq; eauto|].
    rewrite Hy. apply IH. intros k Hk. apply Hsub.
    rewrite lookup_insert_ne; [exact Hk|]. intros ->.
    rewrite Hi in Hk. destruct Hk; discriminate.
Qed.

(** The reconciliation touches what it retires only: the value and the
    subscription of a dependency that is still needed, or that was not
    tracked, stay as they are; and reconciling a second time against the
    same map changes nothing. *)
Theorem diffAndUpdateDeps_keeps_needed
    (dm : gmap string Dependency) (r : Runner) :
  keyed (dependencies r) ->
  (forall k, is_Some (dm !! k) \/ dependencies r !! k = None ->
     brain (diffAndUpdateDeps dm r) !! k = brain r !! k /\
     views (watcher (diffAndUpdateDeps dm r)) !! k
       = views (watcher r) !! k) /\
  diffAndUpdateDeps dm (diffAndUpdateDeps dm r) = diffAndUpdateDeps dm r.
Proof.
  intros Hk. split.
  - intros k Hcase.
    destruct (diffAndUpdateDeps_lookup dm r k Hk) as [Hb Hw].
    rewrite Hb, Hw.
    destruct Hcase as [[x Hx]|Hn].
    + rewrite Hx. rewrite (bool_decide_eq_false_2 (Some x = None))
        by discriminate. rewrite andb_false_r. split; reflexivity.
    + rewrite Hn.
      rewrite (bool_decide_eq_false_2 (is_Some None))
        by (intros [? ?]; discriminate). split; reflexivity.
  - unfold diffAndUpdateDeps at 1. rewrite diffAndUpdateDeps_dependencies.
    rewrite retire_fold_kept by tauto. reflexivity.
Qed.

(** ** More on the commands *)

(** [commandExists] compares command strings only: it answers true
    exactly when some configuration of the list has the command of the
    given one, whatever their other fields. *)
Theorem commandExists_iff_same_command
    (c : TemplateConfig) (cmds : list TemplateConfig) :
  commandExists c cmds = true
  <-> exists t, t ∈ cmds /\ Exec_Command (Exec t) = Exec_Command (Exec c).
Proof.
  rewrite commandExists_spec, list_elem_of_fmap. unfold command_of.
  split; intros (t & H1 & H2); exists t; split; congruence.
Qed.

(** The commands of a pass stop short exactly when one of them parses to
    no word at all (the spawn then indexes an empty list and panics);
    otherwise every command is spawned. *)
Theorem exec_commands_crashes_iff_empty_parse
    (cmds : list TemplateConfig) (r : Runner) (errs : list error) :
  (exists msg, exec_commands cmds r errs = Crash msg)
  <-> exists t, t ∈ cmds /\ shellwords_Parse (Exec_Command (Exec t)) = inr [].
Proof.
  revert r errs. induction cmds as [|t rest IH]; intros r errs; simpl.
  - split; [intros [msg Hm]; discriminate|].
    intros (t & Ht & _). apply elem_of_nil in Ht. contradiction.
  - unfold spawnChild at 1. simpl.
    destruct (shellwords_Parse (Exec_Command (Exec t)))
      as [err|[|cmd args]] eqn:Hp.
    + simpl. rewrite IH. split; intros (t' & Ht' & Hp').
      * exists t'. split; [apply elem_of_cons; tauto|exact Hp'].
      * apply elem_of_cons in Ht'. destruct Ht' as [->|Ht'];
          [congruence|eauto].
    + simpl. split; [|eauto]. intros _. exists t.
      split; [apply elem_of_cons; tauto|exact Hp].
    + assert (forall (x : result (Runner * (error + Child))) r1 res,
                x = Ok (r1, res) ->
                ((exists msg,
                    (x ≫= fun '(r0, res0) =>
                       exec_commands rest r0
                         match res0 with
                         | inl err => errs ++ [err]
                         | inr _ => errs
                         end) = Crash msg)
                 <-> exists t', t' ∈ rest /\
                       shellwords_Parse (Exec_Command (Exec t')) = inr []))
        as Hgo.
      { intros x r1 res ->. simpl. apply IH. }
      assert (forall P : Prop,
                (P <-> exists t', t' ∈ rest /\
                         shellwords_Parse (Exec_Command (Exec t')) = inr [])
                -> (P <-> exists t', t' ∈ t :: rest /\
                         shellwords_Parse (Exec_Command (Exec t')) = inr []))
        as Hlift.
      { intros P ->. split; intros (t' & Ht' & Hp').
        - exists t'. split; [apply elem_of_cons; tauto|exact Hp'].
        - apply elem_of_cons in Ht'. destruct Ht' as [->|Ht'];
            [congruence|eauto]. }
      apply Hlift.
      destruct (child_New cmd args _);
        [eapply Hgo; reflexivity|].
      destruct (child_Start _); eapply Hgo; reflexivity.
Qed.

(** ** More on quiescence *)

(** Once the timer is armed, no tick moves the deadline or changes the
    parameters of the record, and the timer stays armed. *)
Theorem ticks_keep_deadline (ts : list Z) (q : quiescence) :
  is_Some (q_timer q) ->
  q_deadline (ticks ts q) = q_deadline q /\
  q_min (ticks ts q) = q_min q /\ q_max (ticks ts q) = q_max q /\
  q_template (ticks ts q) = q_template q /\
  is_Some (q_timer (ticks ts q)).
Proof.
  revert q. induction ts as [|now rest IH]; intros q Harmed; simpl.
  - repeat split; exact Harmed.
  - assert (q_deadline (tick now (fire now q)) = q_deadline q /\
            q_min (tick now (fire now q)) = q_min q /\
            q_max (tick now (fire now q)) = q_max q /\
            q_template (tick now (fire now q)) = q_template q /\
            is_Some (q_timer (tick now (fire now q)))) as Hstep.
    { assert (q_deadline (fire now q) = q_deadline q /\
              q_min (fire now q) = q_min q /\
              q_max (fire now q) = q_max q /\
              q_template (fire now q) = q_template q /\
              q_timer (fire now q) = q_timer q) as (Fd & Fmin & Fmax & Ft & Fa).
      { unfold fire. destruct (q_posted q); [repeat split|].
        destruct (q_timer q) as [e|] eqn:He; [|repeat split; congruence].
        destruct (e <=? now); simpl; repeat split; congruence. }
      rewrite <- Fd, <- Fmin, <- Fmax, <- Ft. rewrite <- Fa in Harmed.
      generalize dependent (fire now q). intros q0 [e He] _ _ _ _ _.
      unfold tick. rewrite He.
      destruct (time_Before _ _); [simpl; repeat split; eauto|].
      cbv zeta. destruct (0 <? _); simpl; rewrite ?He; repeat split; eauto. }
    destruct Hstep as (Hd & Hmin & Hmax & Ht & Harmed').
    destruct (IH _ Harmed') as (Hd' & Hmin' & Hmax' & Ht' & Ha').
    unfold ticks in *. split_and!; try congruence; exact Ha'.
Qed.

(** A tick at or after the deadline leaves an armed record exactly as it
    is: the pending fire stays in place. *)
Theorem tick_after_deadline_is_noop (now : Z) (q : quiescence) :
  is_Some (q_timer q) -> 0 <= q_min q -> q_deadline q <= now ->
  tick now q = q.
Proof.
  intros [e He] Hmin Hlate. unfold tick, time_Before, time_Add. rewrite He.
  destruct (Z.ltb_spec (now + q_min q) (q_deadline q)); [lia|].
  pose proof (time_Sub_sign (q_deadline q) now) as Hsign.
  destruct (Z.ltb_spec 0 (time_Sub (q_deadline q) now)); [lia|reflexivity].
Qed.

Lemma enable_quiescence_for_frame (r : Runner) (t : Template) :
  ctemplatesMap (enable_quiescence_for r t) = ctemplatesMap r /\
  config (enable_quiescence_for r t) = config r /\
  quiescenceMap (enable_quiescence_for r t) =
    match quiescenceMap r !! ID t with
    | Some _ => quiescenceMap r
    | None => match quiescence_for r t with
              | Some q => <[ID t := q]> (quiescenceMap r)
              | None => quiescenceMap r
              end
    end.
Proof.
  unfold enable_quiescence_for, quiescence_for.
  destruct (quiescenceMap r !! ID t); [repeat split|].
  destruct (template_wait _); [repeat split|].
  destruct (Wait_Enabled _); repeat split.
Qed.

Lemma quiescence_for_frame (r r' : Runner) (t : Template) :
  ctemplatesMap r' = ctemplatesMap r -> config r' = config r ->
  quiescence_for r' t = quiescence_for r t.
Proof.
  intros Hc Hg. unfold quiescence_for, templateConfigsFor.
  rewrite Hc, Hg. reflexivity.
Qed.

Lemma enable_fold_lookup (ts : list Template) :
  forall r id,
    quiescenceMap (foldl enable_quiescence_for r ts) !! id =
      match quiescenceMap r !! id with
      | Some q => Some q
      | None =>
          if bool_decide (mkTemplate id ∈ ts)
          then quiescence_for r (mkTemplate id) else None
      end.
Proof.
  induction ts as [|t rest IH]; intros r id; cbn [foldl].
  - destruct (quiescenceMap r !! id); [reflexivity|].
    rewrite bool_decide_eq_false_2 by apply not_elem_of_nil. reflexivity.
  - rewrite IH. clear IH.
    destruct (enable_quiescence_for_frame r t) as (Hc & Hg & Hq).
    rewrite (quiescence_for_frame r _ _ Hc Hg), Hq. clear Hc Hg Hq.
    assert (t = mkTemplate (ID t)) as Ht by (destruct t; reflexivity).
    destruct (decide (id = ID t)) as [->|Hne].
    + rewrite (bool_decide_eq_true_2 (mkTemplate (ID t) ∈ t :: rest))
        by (rewrite <- Ht; apply elem_of_cons; tauto).
      rewrite <- Ht.
      destruct (quiescenceMap r !! ID t) as [q|] eqn:Hl; [rewrite Hl; reflexivity|].
      destruct (quiescence_for r t) as [q|] eqn:Hq.
      * rewrite lookup_insert_eq. reflexivity.
      * rewrite Hl. destruct (bool_decide _); reflexivity.
    + assert (mkTemplate id ∈ t :: rest <-> mkTemplate id ∈ rest) as Hin.
      { rewrite elem_of_cons. split; [|tauto]. intros [Heq|?]; [|assumption].
        rewrite <- Heq in Hne. simpl in Hne. congruence. }
      rewrite (bool_decide_ext _ _ Hin).
      destruct (quiescenceMap r !! ID t); [reflexivity|].
      destruct (quiescence_for r t); [|reflexivity].
      rewrite lookup_insert_ne by congruence. reflexivity.
Qed.


(** The head of the loop installs records once: on the Runner it
    returns it changes nothing. *)
Theorem enable_quiescence_idempotent (r : Runner) :
  enable_quiescence (enable_quiescence r) = enable_quiescence r.
Proof.
  assert (forall ts r0,
            (forall t, t ∈ ts ->
               is_Some (quiescenceMap r0 !! ID t)
               \/ quiescence_for r0 t = None) ->
            foldl enable_quiescence_for r0 ts = r0) as Hfix.
  { induction ts as [|t rest IH]; intros r0 Hdone; simpl; [reflexivity|].
    assert (enable_quiescence_for r0 t = r0) as ->.
    { unfold enable_quiescence_for.
      destruct (Hdone t) as [[q Hq]|Hn]; [apply elem_of_cons; tauto|..].
      - rewrite Hq. reflexivity.
      - destruct (quiescenceMap r0 !! ID t); [reflexivity|].
        unfold quiescence_for in Hn.
        destruct (template_wait _); [discriminate|].
        destruct (Wait_Enabled _); [discriminate|reflexivity]. }
    apply IH. intros t' Ht'. apply Hdone. apply elem_of_cons. tauto. }
  assert (forall ts r0,
            templates (foldl enable_quiescence_for r0 ts) = templates r0
            /\ ctemplatesMap (foldl enable_quiescence_for r0 ts)
               = ctemplatesMap r0
            /\ config (foldl enable_quiescence_for r0 ts) = config r0)
    as Hframe.
  { induction ts as [|t rest IH]; intros r0; simpl; [repeat split|].
    destruct (IH (enable_quiescence_for r0 t)) as (H1 & H2 & H3).
    rewrite H1, H2, H3. unfold enable_quiescence_for.
    destruct (quiescenceMap r0 !! ID t); [repeat split|].
    destruct (template_wait _); [repeat split|].
    destruct (Wait_Enabled _); repeat split. }
  unfold enable_quiescence at 1.
  destruct (Hframe (templates r) r) as (Ht & Hc & Hg).
  fold (enable_quiescence r) in Ht, Hc, Hg. rewrite Ht.
  fold (enable_quiescence r).
  apply Hfix. intros t Hin.
  rewrite (quiescence_for_frame r _ _ Hc Hg).
  unfold enable_quiescence. rewrite enable_fold_lookup.
  assert (t = mkTemplate (ID t)) as Heq by (destruct t; reflexivity).
  destruct (quiescenceMap r !! ID t); [left; eauto|].
  rewrite bool_decide_eq_true_2 by (rewrite <- Heq; exact Hin).
  rewrite <- Heq. destruct (quiescence_for r t); [left; eauto|right; reflexivity].
Qed.

(** ** More on stopping and the pid file *)

(** [Stop] succeeds exactly when the done channel is still open and the
    child lock is not write-locked; it then leaves the done channel
    closed, the watcher stopped without any subscription, the
    de-duplication manager and the child stopped, and the pid file
    removed, and touches neither another file nor the Brain, the tracked
    set or the error channel. *)
Theorem Stop_halts_everything (r : Runner) :
  ((exists r', Stop r = Ok r')
   <-> DoneCh r = false /\ writer (childLock r) = false) /\
  (forall r', Stop r = Ok r' ->
     DoneCh r' = true /\
     watcher r' = mkWatcher ∅ true /\
     dedup r' = dedup_Stop <$> dedup r /\
     child r' = child_Stop <$> child r /\
     fs r' = (if bool_decide (PidFile (config r) = "") then fs r
              else delete (PidFile (config r)) (fs r)) /\
     brain r' = brain r /\ dependencies r' = dependencies r /\
     ErrCh r' = ErrCh r).
Proof.
  unfold Stop, stopChild, mutex_RLock, close_DoneCh, deletePid, stopWatcher,
    stopDedup, watcher_Stop.
  assert (childLock (set_watcher (mkWatcher ∅ true)
                       match dedup r with
                       | Some dd => set_dedup (Some (dedup_Stop dd)) r
                       | None => r
                       end) = childLock r) as Hl
    by (destruct (dedup r); reflexivity).
  rewrite Hl. clear Hl.
  destruct (writer (childLock r)) eqn:Hw; simpl.
  { split; [|intros r' Hr'; discriminate].
    split; [intros [r' Hr']; discriminate|intros [_ ?]; discriminate]. }
  destruct (dedup r) as [dd|] eqn:Hdd, (child r) as [c|] eqn:Hc; simpl;
    rewrite ?Hc; simpl;
    destruct (bool_decide (PidFile (config r) = "")) eqn:Hp; simpl;
    destruct (DoneCh r) eqn:Hdone; simpl;
    (split; [split; [intros [r' Hr']; try discriminate; auto
                    |intros [? _]; try discriminate; eauto]
            |intros r' Hr'; try discriminate; inversion Hr'; subst;
             simpl; rewrite ?Hdd, ?Hc; repeat split]).
Qed.


(** ** More on the render events *)

Lemma event_of_eq (r : Runner) (id : string) :
  event_of r id = (l ← eventsMap r !! id; events r !! l).
Proof. reflexivity. Qed.

(** [markRenderTime] sets one time of one template: it keeps the store
    well formed, the event of the template afterwards is the one before
    (the zero event if there was none) with the chosen time replaced by
    now, and the event of every other template is as before. *)
Theorem markRenderTime_updates_one_event
    (now : Z) (id : string) (didRender : bool) (r : Runner) :
  wf_events r ->
  let r' := markRenderTime now id didRender r in
  wf_events r' /\
  event_of r' id
    = Some (stamp now didRender
              (default (mkRenderEvent 0 0) (event_of r id))) /\
  (forall id', id' <> id -> event_of r' id' = event_of r id').
Proof.
  intros (Hown & Hptr & Hinj). cbv zeta. rewrite !event_of_eq.
  unfold markRenderTime.
  destruct (eventsMap r !! id) as [l|] eqn:Hl.
  - (* the record exists and is updated in place *)
    destruct (Hptr id l Hl) as [e He].
    assert (eventsMap (set_events (alter (stamp now didRender) l (events r)) r)
            = eventsMap r) as Hem by reflexivity.
    split; [|split].
    + split; [exact Hown|]. rewrite Hem. split; [|exact Hinj].
      intros id0 l0 Hl0. simpl. apply lookup_alter_is_Some.
      exact (Hptr id0 l0 Hl0).
    + rewrite Hem, Hl. simpl. rewrite lookup_alter_eq, He. reflexivity.
    + intros id' Hne. rewrite !event_of_eq, Hem.
      destruct (eventsMap r !! id') as [l'|] eqn:Hl'; [|reflexivity].
      simpl. rewrite lookup_alter_ne; [reflexivity|]. intros ->.
      apply Hne. symmetry.
      assert ((id, l') ∈ map_to_list (eventsMap r)) as H1
        by (apply elem_of_map_to_list; exact Hl).
      assert ((id', l') ∈ map_to_list (eventsMap r)) as H2
        by (apply elem_of_map_to_list; exact Hl').
      apply list_elem_of_lookup in H1, H2.
      destruct H1 as [i Hi], H2 as [j Hj].
      assert (i = j) as ->.
      { eapply NoDup_lookup; [exact Hinj|..];
          rewrite list_lookup_fmap; [rewrite Hi|rewrite Hj]; reflexivity. }
      congruence.
  - (* a new record *)
    set (l := fresh (dom (events r))).
    assert (events r !! l = None) as Hfresh
      by (apply not_elem_of_dom, is_fresh).
    set (r' := set_events _ _).
    assert (eventsMap r' = <[id := l]> (eventsMap r)) as Hem.
    { unfold eventsMap, r'. simpl. rewrite lookup_insert_eq. reflexivity. }
    assert (forall id0 l0, eventsMap r !! id0 = Some l0 -> l0 <> l) as Hold.
    { intros id0 l0 Hl0 ->. destruct (Hptr id0 l Hl0) as [e He].
      congruence. }
    split; [|split].
    + split; [|split].
      * unfold r'. simpl. rewrite lookup_insert_eq. eauto.
      * rewrite Hem. apply map_Forall_insert; [exact Hl|]. split.
        -- unfold r'. simpl. rewrite lookup_insert_eq. eauto.
        -- intros id0 l0 Hl0. unfold r'. simpl.
           rewrite lookup_insert_ne by (symmetry; eauto).
           exact (Hptr id0 l0 Hl0).
      * rewrite Hem.
        apply (NoDup_Permutation_proper _ _
                 (fmap_Permutation snd _ _
                    (map_to_list_insert (eventsMap r) id l Hl))). simpl.
        constructor; [|exact Hinj]. intros Hin.
        apply list_elem_of_fmap in Hin. destruct Hin as ([id0 l0] & Heq & Hin).
        simpl in Heq. subst l0. apply elem_of_map_to_list in Hin.
        exact (Hold id0 l Hin eq_refl).
    + rewrite Hem, lookup_insert_eq. simpl. unfold r'. simpl.
      rewrite lookup_insert_eq. reflexivity.
    + intros id' Hne. rewrite !event_of_eq, Hem.
      rewrite lookup_insert_ne by congruence.
      destruct (eventsMap r !! id') as [l'|] eqn:Hl'; [|reflexivity].
      simpl. unfold r'. simpl.
      rewrite lookup_insert_ne by (symmetry; eauto). reflexivity.
Qed.

(** ** More on what a pass tracks and renders *)

(** Data for a dependency that the pass used is accepted afterwards:
    every used dependency is tracked at the end of the pass, so
    [Receive] stores its value. *)
Theorem used_dependencies_are_received
    (now : Z) (r r1 : Runner) (p : pass) (r' : Runner)
    (d : Dependency) (data : Data) :
  tracked_inv r ->
  run_templates now (templates r) r new_pass = Done (r1, p) ->
  final_runner (Run now r) = Some r' ->
  d ∈ pass_used r (templates r) ->
  is_Some (dependencies r' !! HashCode d) /\
  brain (Receive d data r') !! HashCode d = Some data.
Proof.
  intros [Hk Hb] Hloop Hrun Hd.
  destruct (pass_reconciles now r r1 p r' Hk Hb Hloop Hrun)
    as (Hdeps & Hdom & _).
  assert (is_Some (dependencies r' !! HashCode d)) as Htracked.
  { apply elem_of_dom. rewrite Hdeps, Hdom. apply elem_of_keys_of. eauto. }
  split; [exact Htracked|].
  rewrite Receive_tracked by exact Htracked. simpl.
  apply lookup_insert_eq.
Qed.



(** ** A Runner without templates *)

Lemma Run_without_templates (now : Z) (r : Runner) :
  templates r = [] ->
  exists r', Run now r = Done r' /\
    templates r' = [] /\ once r' = once r /\ config r' = config r /\
    child r' = child r /\ childLock r' = childLock r /\
    quiescenceMap r' = quiescenceMap r /\ DoneCh r' = DoneCh r /\
    ErrCh r' = ErrCh r /\ dedup r' = dedup r /\ dependencies r' = ∅.
Proof.
  intros Ht. exists (diffAndUpdateDeps ∅ r). split.
  - unfold Run. rewrite Ht. cbn [run_templates].
    unfold finish_pass, new_pass.
    cbn [wouldRenderAny renderedAny orb commands depsMap exec_commands].
    assert (reload_child false (diffAndUpdateDeps ∅ r) []
            = Ok (diffAndUpdateDeps ∅ r, [])) as Hrl
      by (unfold reload_child; destruct (child _); reflexivity).
    unfold mbind, result_bind. rewrite Hrl. reflexivity.
  - destruct (retire_fold_frame ∅ (dependencies r) r)
      as (_&He&Hd&_&_&_&Hc&Ho&_&Hts&_&Hch&Hl&_&_&_&Hdd&Hq&_).
    unfold diffAndUpdateDeps. simpl.
    rewrite He, Hd, Hc, Ho, Hts, Hch, Hl, Hdd, Hq, Ht. repeat split.
Qed.

(** With no template at all, no pid file, no exec command and no
    de-duplication, [Start] in once mode stops the Runner and returns at
    once, without an error, whatever events are pending; outside once
    mode it waits in the select. *)
Theorem Start_without_templates
    (cfg : Config) (dry0 once0 : bool) (disk : gmap string string)
    (r : Runner) (now : Z) (evs : list (Z * Event)) :
  init cfg dry0 once0 disk = inr r ->
  Templates cfg = [] -> PidFile cfg = "" ->
  Exec_Command (cfg_Exec cfg) = "" -> Dedup_Enabled cfg = false ->
  (once0 = true ->
   exists r', Start now evs r = Returned r' /\ DoneCh r' = true
              /\ ErrCh r' = []) /\
  (once0 = false -> exists r', Start now [] r = Blocked r').
Proof.
  intros Hi Hts Hpid Hexec Hdedup.
  destruct (init_inv _ _ _ _ _ Hi) as (ts & m & dd & Ht & Hr & Hdd).
  rewrite Hts in Ht. simpl in Ht. inversion Ht; subst ts m. clear Ht.
  assert (dd = None) as -> by (destruct Hdd as [?|(_ & ? & _)]; congruence).
  clear Hdd Hi.
  assert (templates r = [] /\ config r = cfg /\ once r = once0 /\
          dedup r = None /\ child r = None /\ DoneCh r = false /\
          childLock r = mkRWMutex false 0 /\ ErrCh r = [])
    as (Hrt & Hrc & Hro & Hrd & Hrch & Hrdone & Hrl & Hre)
    by (subst r; repeat split).
  clear Hr.
  assert (storePid r = inr r) as Hsp.
  { unfold storePid. rewrite Hrc, Hpid. reflexivity. }
  destruct (Run_without_templates now r Hrt)
    as (r1 & Hrun & Ht1 & Ho1 & Hc1 & Hch1 & Hl1 & Hq1 & Hd1 & He1 & Hdd1 & _).
  assert (forall evs0, Start now evs0 r = main_loop evs0 true false r1)
    as Hstart.
  { intros evs0. unfold Start. rewrite Hsp, Hrd, Hrun. reflexivity. }
  assert (enable_quiescence r1 = r1) as Heq
    by (unfold enable_quiescence; rewrite Ht1; reflexivity).
  assert (forall evs0, loop_head evs0 false r1 =
            if once0 then
              inl match Stop r1 with
                  | Ok r2 => Returned r2
                  | Crash msg => Died msg
                  end
            else inr (r1, false)) as Hhead.
  { intros evs0. unfold loop_head, allTemplatesRendered, supervise.
    rewrite Heq, Ht1. cbn [all_rendered]. rewrite Hc1, Hrc, Hexec.
    rewrite bool_decide_eq_false_2 by (intros Habs; apply Habs; reflexivity).
    cbv beta iota. rewrite Ho1, Hro, Hch1, Hrch.
    destruct once0; [destruct (Stop r1)|]; reflexivity. }
  split; intros ->.
  - assert (exists r2, Stop r1 = Ok r2) as [r2 Hstop].
    { apply (proj1 (Stop_halts_everything r1)).
      rewrite Hd1, Hl1, Hrdone, Hrl. split; reflexivity. }
    exists r2. rewrite Hstart. split; [|split].
    + destruct evs as [|[n ev] rest]; simpl; rewrite Hhead, Hstop;
        reflexivity.
    + apply (proj2 (Stop_halts_everything r1) r2 Hstop).
    + destruct (proj2 (Stop_halts_everything r1) r2 Hstop)
        as (_&_&_&_&_&_&_&He2). rewrite He2, He1, Hre. reflexivity.
  - exists r1. rewrite Hstart. simpl. rewrite Hhead. reflexivity.
Qed.

End Proofs.

Example sw_states :
  dom (dependencies sw_3) = {[ "kv(A)"; "kv(B)" ]} /\
  brain sw_3 = {[ "kv(A)" := "off"; "kv(B)" := "v" ]} /\
  dom (dependencies sw_4) = {[ "kv(A)" ]} /\
  brain sw_4 = {[ "kv(A)" := "off" ]} /\
  dom (views (watcher sw_4)) = {[ "kv(A)" ]} /\
  fs sw_4 = {[ "/tmp/out" := "sw.tpl" ]}.
Proof. split_and!; vm_compute; reflexivity. Qed.

(** ** Dependency retirement, on the example *)

Lemma C3_tracked_set_reconciled_witness :
  dom (dependencies sw_3) = {[ "kv(A)"; "kv(B)" ]} /\
  dom (dependencies sw_4) = {[ "kv(A)" ]} /\
  views (watcher sw_4) !! "kv(B)" = None /\
  brain sw_4 !! "kv(B)" = None /\
  dom (brain sw_4) ⊆ dom (dependencies sw_4).
Proof.
  assert (keyed (dependencies sw_3)) as Hk
    by (refine (bool_decide_unpack _ _); vm_compute; exact I).
  assert (dom (brain sw_3) ⊆ dom (dependencies sw_3)) as Hsub
    by (refine (bool_decide_unpack _ _); vm_compute; exact I).
  assert (final_runner (@Run ex_world 3 sw_3) = Some sw_4) as Hrun
    by (vm_compute; reflexivity).
  destruct (@run_templates ex_world 3 (templates sw_3) sw_3 new_pass)
    as [[r1 p]|err r1|msg] eqn:Hloop;
    [|vm_compute in Hloop; discriminate Hloop
     |vm_compute in Hloop; discriminate Hloop].
  destruct (@C3_tracked_set_reconciled ex_world 3 sw_3 r1 p sw_4
              Hk Hsub Hloop Hrun) as (Hd & Hdom & _ & Hgone & Hb).
  assert (dom (dependencies sw_3) = {[ "kv(A)"; "kv(B)" ]}) as H3
    by (vm_compute; reflexivity).
  assert (dom (dependencies sw_4) = {[ "kv(A)" ]}) as H4
    by (vm_compute; reflexivity).
  split; [exact H3|]. split; [exact H4|].
  assert ("kv(B)" ∈ dom (dependencies sw_3)) as Hin
    by (rewrite H3; refine (bool_decide_unpack _ _); vm_compute; exact I).
  assert ("kv(B)" ∉ dom (depsMap p)) as Hout
    by (rewrite <- Hd, H4; refine (bool_decide_unpack _ _); vm_compute;
        exact I).
  destruct (Hgone "kv(B)" Hin Hout) as [Hw Hbr].
  split; [exact Hw|]. split; [exact Hbr|exact Hb].
Defined.

Lemma C10_receive_only_tracked_witness :
  Receive dep_B "late" sw_4 = sw_4 /\
  brain (receive_all [(dep_B, "late"); (dep_A, "on"); (dep_B, "later")] sw_4)
    !! "kv(B)" = None.
Proof.
  assert (keyed (dependencies sw_3)) as Hk
    by (refine (bool_decide_unpack _ _); vm_compute; exact I).
  assert (dom (brain sw_3) ⊆ dom (dependencies sw_3)) as Hsub
    by (refine (bool_decide_unpack _ _); vm_compute; exact I).
  assert (final_runner (@Run ex_world 3 sw_3) = Some sw_4) as Hrun
    by (vm_compute; reflexivity).
  destruct (@run_templates ex_world 3 (templates sw_3) sw_3 new_pass)
    as [[r1 p]|err r1|msg] eqn:Hloop;
    [|vm_compute in Hloop; discriminate Hloop
     |vm_compute in Hloop; discriminate Hloop].
  destruct (@C10_receive_only_tracked ex_world dep_B "late" 3 sw_3 r1 p sw_4
              [(dep_B, "late"); (dep_A, "on"); (dep_B, "later")] Hk Hsub)
    as (_ & _ & Hret).
  pose proof Hloop as Hp. vm_compute in Hp. injection Hp as _ Hp.
  apply (Hret Hloop Hrun). rewrite <- Hp.
  refine (bool_decide_unpack _ _). vm_compute. exact I.
Defined.

(** ** The claims on the examples *)

(** C1 (as stated) fails: a follower evaluates [sw.tpl], whose only
    dependency is missing, unwatched and shareable; no dependency is
    added to the watcher, and the template is skipped all the same. *)
Lemma C1_counterexample :
  exists r' p',
    @run_template ex_world 0 (mkTemplate "sw.tpl") follower_0 new_pass
      = Done (r', p') /\
    isLeader_for follower_0 (mkTemplate "sw.tpl") = false /\
    unwatched_of (watcher follower_0) [dep_A] = [dep_A] /\
    watcher r' = watcher follower_0 /\
    Watching (watcher r') dep_A = false /\
    renders r' = [] /\ events r' = ∅ /\ commands p' = [].
Proof.
  eexists. eexists. split; [vm_compute; reflexivity|].
  split_and!; vm_compute; reflexivity.
Qed.

Lemma C1_unwatched_subscribed_then_skipped_witness :
  exists r' p',
    @run_template ex_world 0 (mkTemplate "sw.tpl") sw_0 new_pass
      = Done (r', p') /\
    (Watching (watcher r') dep_A = true <->
     exists d', d' ∈ unwatched_of (watcher sw_0) [dep_A; dep_A]
                /\ HashCode d' = HashCode dep_A
                /\ (isLeader_for sw_0 (mkTemplate "sw.tpl") = true
                    \/ CanShare d' = false)) /\
    renders r' = renders sw_0.
Proof.
  destruct (@C1_unwatched_subscribed_then_skipped ex_world 0
              (mkTemplate "sw.tpl") sw_0 new_pass
              {| Used := [dep_A]; Missing := [dep_A]; Output := "sw.tpl" |})
    as (_ & _ & Hskip).
  - vm_compute. reflexivity.
  - vm_compute. reflexivity.
  - destruct Hskip as (r' & p' & Hrun & Hsub & _ & Hrenders & _).
    + vm_compute. discriminate.
    + exists r', p'. split; [exact Hrun|]. split; [|exact Hrenders].
      apply (Hsub dep_A). vm_compute. left.
Defined.

(** C4 fails on the code: with the configurations a.tpl/echo x,
    b.tpl/echo y, a.tpl/echo z declared in this order, all rendering, the
    pass runs echo x, echo z, echo y. *)
Theorem C4_commands_follow_templates_not_declarations :
  command_of <$> Templates (config order_0)
    = ["echo x"; "echo y"; "echo z"] /\
  ID <$> templates order_0 = ["a.tpl"; "b.tpl"] /\
  (rc_config <$> renders (after (@Run ex_world 0 order_0)))
    = [ex_template "a.tpl" "/out/1" "echo x";
       ex_template "a.tpl" "/out/3" "echo z";
       ex_template "b.tpl" "/out/2" "echo y"] /\
  DidRender <$> (rc_result <$> renders (after (@Run ex_world 0 order_0)))
    = [true; true; true] /\
  sp_Command <$> spawned (after (@Run ex_world 0 order_0))
    = ["echo x"; "echo z"; "echo y"].
Proof. split_and!; vm_compute; reflexivity. Qed.


(** C6 fails on the code: in once mode, with an exec command, [Start]
    spawns the child once the template has its render event and then
    dies unlocking the child lock, which was never locked; it does not
    wait for the child.  Without an exec command it stops and returns. *)
Theorem C6_once_mode_with_child_dies :
  (forall evs, @Start ex_world 0 evs once_exec_0
               = Died "fatal error: sync: Unlock of unlocked RWMutex") /\
  sp_Command <$> spawned (after (@Run ex_world 0 once_exec_0)) = [] /\
  @allTemplatesRendered (after (@Run ex_world 0 once_exec_0)) = true /\
  (forall evs, exists r,
     @Start ex_world 0 evs once_plain_0 = Returned r /\ DoneCh r = true
     /\ ErrCh r = []).
Proof.
  split; [|split; [|split]].
  - intros [|[now ev] rest]; vm_compute; reflexivity.
  - vm_compute. reflexivity.
  - vm_compute. reflexivity.
  - intros [|[now ev] rest]; eexists;
      (split; [vm_compute; reflexivity|split; vm_compute; reflexivity]).
Qed.

(** C7 fails on the code: the first [Stop] closes the done channel, the
    second one closes it again and panics. *)
Theorem C7_second_Stop_panics :
  Stop sw_4 = Ok (stopped sw_4) /\
  DoneCh (stopped sw_4) = true /\
  w_stopped (watcher (stopped sw_4)) = true /\
  Stop (stopped sw_4) = Crash "panic: close of closed channel".
Proof. split_and!; vm_compute; reflexivity. Qed.

Lemma C8_rendered_channel_coalesces_witness :
  renderedCh sw_3 = mkChan 1 1 /\
  (any_would (renders sw_4) = true) /\
  ch_cap (renderedCh sw_4) = 1%nat /\ (ch_len (renderedCh sw_4) <= 1)%nat.
Proof.
  assert (renderedCh sw_3 = mkChan 1 1) as Hch by (vm_compute; reflexivity).
  split; [exact Hch|]. split; [vm_compute; reflexivity|].
  destruct (@C8_rendered_channel_coalesces ex_world 3 sw_3)
    as (_ & Hinv & _).
  - rewrite Hch. reflexivity.
  - rewrite Hch. simpl. lia.
  - apply Hinv. vm_compute. reflexivity.
Defined.

(** C9 (as stated) fails: a snapshot taken after the third pass of the
    example reads the event of [sw.tpl] as (3, 2); after one more pass
    the same snapshot reads (9, 2). *)
Lemma C9_counterexample :
  let times := (RenderEvents sw_4).1 in
  let r1 := (RenderEvents sw_4).2 in
  let r2 := after (@Run ex_world 9 r1) in
  read_event r1 times "sw.tpl" = Some (mkRenderEvent 3 2) /\
  read_event r2 times "sw.tpl" = Some (mkRenderEvent 9 2).
Proof. split; vm_compute; reflexivity. Qed.

Lemma C9_snapshot_is_shallow_witness :
  let times := (RenderEvents sw_4).1 in
  let r1 := (RenderEvents sw_4).2 in
  times <> renderEvents sw_4 /\
  maps r1 !! times = Some (eventsMap sw_4) /\
  maps (after (@Run ex_world 9 r1)) !! times = Some (eventsMap sw_4).
Proof.
  cbv zeta.
  destruct (@C9_snapshot_is_shallow ex_world sw_4)
    as (Hne & _ & Hsnap & _ & _ & Hrun & _).
  - vm_compute. eexists. reflexivity.
  - split; [exact Hne|]. split; [exact Hsnap|].
    apply (Hrun 9). vm_compute. reflexivity.
Defined.

(** ** The further properties on the examples *)

Lemma init_templates_unique_witness :
  NoDup (ID <$> templates order_0) /\
  ID <$> templates order_0 = ["a.tpl"; "b.tpl"].
Proof.
  destruct (@init_templates_unique ex_world order_config false false ∅
              order_0) as (Hnd & _).
  - vm_compute. reflexivity.
  - split; [exact Hnd|]. vm_compute. reflexivity.
Defined.

Lemma init_configs_grouped_in_order_witness :
  @templateConfigsFor order_0 (mkTemplate "a.tpl")
  = [ex_template "a.tpl" "/out/1" "echo x";
     ex_template "a.tpl" "/out/3" "echo z"].
Proof.
  rewrite (@init_configs_grouped_in_order ex_world order_config false false
             ∅ order_0 (mkTemplate "a.tpl")).
  - vm_compute. reflexivity.
  - vm_compute. reflexivity.
Defined.

Lemma init_dedup_only_outside_once_mode_witness :
  is_Some (dedup follower_0).
Proof.
  apply (@init_dedup_only_outside_once_mode ex_world
           {| Templates := [ex_template "sw.tpl" "/tmp/out" ""];
              cfg_Wait := no_wait; cfg_Exec := mkExec "" [] 0;
              PidFile := ""; Dedup_Enabled := true; cfg_Env := [] |}
           false false ∅ follower_0).
  - vm_compute. reflexivity.
  - split; reflexivity.
Defined.

Lemma Start_keeps_brain_within_tracked_witness :
  tracked_inv sw_final /\
  brain sw_final = {[ "kv(A)" := "off" ]} /\
  dom (dependencies sw_final) = {[ "kv(A)" ]}.
Proof.
  destruct (@Start_keeps_brain_within_tracked ex_world
              (ex_config [ex_template "sw.tpl" "/tmp/out" ""] "")
              false false ∅ sw_0 0 sw_events sw_final) as [_ Hinv].
  - vm_compute. reflexivity.
  - vm_compute. reflexivity.
  - split; [exact Hinv|]. split; vm_compute; reflexivity.
Defined.

Lemma Run_keeps_render_events_witness :
  rendered sw_3 "sw.tpl" = true /\ rendered sw_4 "sw.tpl" = true /\
  allTemplatesRendered sw_4 = true.
Proof.
  destruct (@Run_keeps_render_events ex_world 3 sw_3 sw_4) as [Hmono Hall].
  - vm_compute. reflexivity.
  - assert (rendered sw_3 "sw.tpl" = true) as Hr by (vm_compute; reflexivity).
    split; [exact Hr|]. split; [apply Hmono; exact Hr|].
    apply Hall. vm_compute. reflexivity.
Defined.

Lemma Run_failed_template_aborts_pass_witness :
  exists err r1,
    @Run bad_world 0 bad_0 = Failed err r1 /\
    spawned r1 = [] /\ renderedCh r1 = renderedCh bad_0.
Proof.
  destruct (@run_templates bad_world 0 (templates bad_0) bad_0 new_pass)
    as [[r1 p]|err r1|msg] eqn:Hloop;
    [vm_compute in Hloop; discriminate Hloop| |
     vm_compute in Hloop; discriminate Hloop].
  destruct (@Run_failed_template_aborts_pass bad_world 0 bad_0 r1 err Hloop)
    as (Hrun & Hsp & _ & _ & Hch & _).
  exists err, r1. split; [exact Hrun|]. split; [|exact Hch].
  rewrite Hsp. vm_compute. reflexivity.
Defined.

Lemma Run_dry_spawns_nothing_witness :
  length (renders (after (@Run ex_world 0 dry_0))) = 3%nat /\
  spawned (after (@Run ex_world 0 dry_0)) = [].
Proof.
  split; [vm_compute; reflexivity|].
  rewrite (@Run_dry_spawns_nothing ex_world 0 dry_0
             (after (@Run ex_world 0 dry_0))).
  - vm_compute. reflexivity.
  - vm_compute. reflexivity.
  - vm_compute. reflexivity.
Defined.

Lemma diffAndUpdateDeps_keeps_needed_witness :
  brain (diffAndUpdateDeps {[ "kv(A)" := dep_A ]} sw_3) !! "kv(A)"
    = Some "off" /\
  brain (diffAndUpdateDeps {[ "kv(A)" := dep_A ]} sw_3) !! "kv(B)" = None.
Proof.
  destruct (diffAndUpdateDeps_keeps_needed {[ "kv(A)" := dep_A ]} sw_3)
    as [Hkeep _].
  - refine (bool_decide_unpack _ _). vm_compute. exact I.
  - destruct (Hkeep "kv(A)") as [Hb _].
    + left. vm_compute. eexists. reflexivity.
    + split; [etransitivity; [exact Hb|]|]; vm_compute; reflexivity.
Defined.

Lemma ticks_keep_deadline_witness :
  q_deadline (ticks [10; 30; 300] (tick 0 (newQuiescence 50 200
                                              (mkTemplate "t")))) = 200.
Proof.
  destruct (ticks_keep_deadline [10; 30; 300]
              (tick 0 (newQuiescence 50 200 (mkTemplate "t"))))
    as (Hd & _).
  - eexists. reflexivity.
  - rewrite Hd. reflexivity.
Defined.

Lemma tick_after_deadline_is_noop_witness :
  tick 250 (tick 0 (newQuiescence 50 200 (mkTemplate "t")))
  = tick 0 (newQuiescence 50 200 (mkTemplate "t")).
Proof.
  apply tick_after_deadline_is_noop.
  - eexists. reflexivity.
  - change (0 <= 50). lia.
  - change (200 <= 250). lia.
Defined.


Lemma markRenderTime_updates_one_event_witness :
  event_of sw_4 "sw.tpl" = Some (mkRenderEvent 3 2) /\
  event_of (markRenderTime 7 "sw.tpl" true sw_4) "sw.tpl"
    = Some (mkRenderEvent 3 7) /\
  event_of (markRenderTime 7 "other.tpl" false sw_4) "sw.tpl"
    = Some (mkRenderEvent 3 2).
Proof.
  assert (wf_events sw_4) as Hwf
    by (refine (bool_decide_unpack _ _); vm_compute; exact I).
  assert (event_of sw_4 "sw.tpl" = Some (mkRenderEvent 3 2)) as He
    by (vm_compute; reflexivity).
  split; [exact He|]. split.
  - destruct (markRenderTime_updates_one_event 7 "sw.tpl" true sw_4 Hwf)
      as (_ & Hthis & _).
    rewrite Hthis, He. reflexivity.
  - destruct (markRenderTime_updates_one_event 7 "other.tpl" false sw_4 Hwf)
      as (_ & _ & Hother).
    rewrite Hother; [exact He|discriminate].
Defined.

Lemma used_dependencies_are_received_witness :
  brain (Receive dep_A "on again" sw_4) !! "kv(A)" = Some "on again".
Proof.
  assert (tracked_inv sw_3) as Hinv
    by (refine (bool_decide_unpack _ _); vm_compute; exact I).
  assert (final_runner (@Run ex_world 3 sw_3) = Some sw_4) as Hrun
    by (vm_compute; reflexivity).
  destruct (@run_templates ex_world 3 (templates sw_3) sw_3 new_pass)
    as [[r1 p]|err r1|msg] eqn:Hloop;
    [|vm_compute in Hloop; discriminate Hloop
     |vm_compute in Hloop; discriminate Hloop].
  destruct (@used_dependencies_are_received ex_world 3 sw_3 r1 p sw_4
              dep_A "on again" Hinv Hloop Hrun) as [_ Hb].
  - refine (bool_decide_unpack _ _). vm_compute. exact I.
  - exact Hb.
Defined.


Lemma Start_without_templates_witness :
  exists r',
    @Start ex_world 0 [(1, EvWatcherErr (ErrOther "late"))] empty_once
      = Returned r' /\ DoneCh r' = true /\ ErrCh r' = [].
Proof.
  destruct (@Start_without_templates ex_world (ex_config [] "") false true ∅
              empty_once 0 [(1, EvWatcherErr (ErrOther "late"))])
    as [Honce _].
  - vm_compute. reflexivity.
  - reflexivity.
  - reflexivity.
  - reflexivity.
  - reflexivity.
  - apply Honce. reflexivity.
Defined.

